(** * nRio: layout engine, workspace store and incremental redraw

    A shallow embedding of [src/main.c] of the nRio tiling window manager.
    Every C function that takes part in computing window geometry, in the
    workspace bookkeeping or in the incremental redraw is transcribed as a
    Rocq function of the same name.

    Conventions of the embedding:
    - [uint32_t] values are integers of [Z]; every arithmetic operator of
      the C code is one of [add32], [sub32], [mul32], [div32], [mod32],
      which write out the wrap-around modulo [2^32];
    - C arrays are lists of their declared length, read with stdpp's total
      lookup [!!!] and written with [alter]/[insert]; an access outside the
      array is undefined in C, and in the model the write does nothing and
      the read yields a default element.  The theorems that depend on what
      is read or written assume the counts and indices in range (the
      workspace invariant [ws_inv], arrays of six entries);
    - the global variables of the C file are the fields of one record
      [wm_state], and each [void f(void)] that mutates them is a function
      [wm_state -> wm_state];
    - calls into the drawing layer are recorded, in program order, in the
      field [draw_log]; what such a call does to the pixels is given
      separately by [paint_call];
    - the title of a window is the C string its field [char title[32]]
      holds.  [string_copy] writes it without a bounds check: the model
      describes the field for titles that fit ([title_fits]), and the
      theorems about the stored title assume one; [CString] has the same
      functions on the bytes of the arrays. *)

From Stdlib Require Import ZArith Lia String.
From stdpp Require Import base tactics list.

Local Open Scope Z_scope.

(** ** Unsigned 32-bit arithmetic *)

Definition u32_modulus : Z := 2 ^ 32.

Definition u32 (z : Z) : Z := z mod u32_modulus.

Definition is_u32 (z : Z) : Prop := 0 <= z < u32_modulus.

Definition add32 (a b : Z) : Z := u32 (a + b).
Definition sub32 (a b : Z) : Z := u32 (a - b).
Definition mul32 (a b : Z) : Z := u32 (a * b).
(** Division and remainder of in-range operands never leave the range.
    The program never divides by zero on the paths modelled here. *)
Definition div32 (a b : Z) : Z := a / b.
Definition mod32 (a b : Z) : Z := a mod b.

(** ** Constants *)

Definition MAX_WINDOWS_PER_WORKSPACE : Z := 6.
Definition WORKSPACE_COUNT : Z := 4.
Definition TOP_BAR_HEIGHT : Z := 24.
Definition DEFAULT_GAP_SIZE : Z := 4.
Definition DEFAULT_BORDER_SIZE : Z := 2.
Definition FOCUSED_BORDER_MULTIPLIER : Z := 3.
Definition SYMBOL_WIDTH : Z := 8.
Definition SYMBOL_HEIGHT : Z := 8.
Definition MASTER_RATIO_DEFAULT : Z := 50.
Definition MASTER_RATIO_MASTER_STACK : Z := 60.

Definition COLOR_BORDER_NORMAL : Z := 0x928374.
Definition COLOR_WINDOW_BG : Z := 0x282828.
Definition COLOR_BAR_BG : Z := 0x1d2021.
Definition COLOR_EMPTY_DESKTOP : Z := 0x3c3836.

(** ** Data model *)

Inductive layout_type_t : Type :=
  | LAYOUT_HORIZONTAL
  | LAYOUT_VERTICAL
  | LAYOUT_GRID
  | LAYOUT_FULLSCREEN
  | LAYOUT_MASTER_STACK.

Definition LAYOUT_COUNT : Z := 5.

(** The integer value of an enumerator, and the enumerator of a value. *)
Definition layout_index (t : layout_type_t) : Z :=
  match t with
  | LAYOUT_HORIZONTAL => 0
  | LAYOUT_VERTICAL => 1
  | LAYOUT_GRID => 2
  | LAYOUT_FULLSCREEN => 3
  | LAYOUT_MASTER_STACK => 4
  end.

Definition layout_of_index (n : Z) : layout_type_t :=
  match n with
  | 0 => LAYOUT_HORIZONTAL
  | 1 => LAYOUT_VERTICAL
  | 2 => LAYOUT_GRID
  | 3 => LAYOUT_FULLSCREEN
  | _ => LAYOUT_MASTER_STACK
  end.

Definition layout_type_eqb (a b : layout_type_t) : bool :=
  layout_index a =? layout_index b.

(** A window title is the C string held in [char title[32]], without its
    terminating NUL. *)
Record window_t : Type := mk_window {
  win_title : string;
  win_pid : Z;
  win_is_open : Z
}.

Record layout_config_t : Type := mk_layout_config {
  cfg_type : layout_type_t;
  gap_size : Z;
  border_size : Z;
  border_color : Z;
  master_ratio : Z
}.

Record window_position_t : Type := mk_window_position {
  pos_x : Z;
  pos_y : Z;
  pos_width : Z;
  pos_height : Z;
  pos_pid : Z
}.

Record workspace_t : Type := mk_workspace {
  windows : list window_t;
  window_count : Z;
  layout : layout_config_t;
  focused_window_index : Z
}.

#[global] Instance window_inhabited : Inhabited window_t :=
  populate (mk_window EmptyString 0 0).
#[global] Instance window_position_inhabited : Inhabited window_position_t :=
  populate (mk_window_position 0 0 0 0 0).
#[global] Instance layout_config_inhabited : Inhabited layout_config_t :=
  populate (mk_layout_config LAYOUT_HORIZONTAL 0 0 0 0).
#[global] Instance workspace_inhabited : Inhabited workspace_t :=
  populate (mk_workspace (replicate 6 inhabitant) 0 inhabitant 0).

(** The table of compiled-in layouts, indexed by the enumerator. *)
Definition DEFAULT_LAYOUTS (t : layout_type_t) : layout_config_t :=
  match t with
  | LAYOUT_HORIZONTAL =>
      mk_layout_config LAYOUT_HORIZONTAL DEFAULT_GAP_SIZE DEFAULT_BORDER_SIZE
        COLOR_BORDER_NORMAL MASTER_RATIO_DEFAULT
  | LAYOUT_VERTICAL =>
      mk_layout_config LAYOUT_VERTICAL DEFAULT_GAP_SIZE DEFAULT_BORDER_SIZE
        COLOR_BORDER_NORMAL MASTER_RATIO_DEFAULT
  | LAYOUT_GRID =>
      mk_layout_config LAYOUT_GRID DEFAULT_GAP_SIZE DEFAULT_BORDER_SIZE
        COLOR_BORDER_NORMAL MASTER_RATIO_DEFAULT
  | LAYOUT_FULLSCREEN =>
      mk_layout_config LAYOUT_FULLSCREEN DEFAULT_GAP_SIZE DEFAULT_BORDER_SIZE
        COLOR_BORDER_NORMAL MASTER_RATIO_DEFAULT
  | LAYOUT_MASTER_STACK =>
      mk_layout_config LAYOUT_MASTER_STACK DEFAULT_GAP_SIZE DEFAULT_BORDER_SIZE
        COLOR_BORDER_NORMAL MASTER_RATIO_MASTER_STACK
  end.

(** ** Loops *)

(** [for_loop i n body s] runs [body i], [body (i+1)], ... [n] times. *)
Fixpoint for_loop {S : Type} (i : Z) (n : nat) (body : Z -> S -> S) (s : S) : S :=
  match n with
  | O => s
  | S n' => for_loop (i + 1) n' body (body i s)
  end.

(** [for (uint32_t i = lo; i < hi; i++) body]: the counter stays below
    [hi], so it never wraps. *)
Definition for_range {S : Type} (lo hi : Z) (body : Z -> S -> S) (s : S) : S :=
  for_loop lo (Z.to_nat (hi - lo)) body s.

(** ** Layout engine *)

(** The four assignments [positions[i].x = ...; .y = ...; .width = ...;
    .height = ...]; the [pid] member is left as it is. *)
Definition set_geometry (x y w h : Z) (p : window_position_t) : window_position_t :=
  mk_window_position x y w h (pos_pid p).

Definition assign_geometry (i x y w h : Z) (positions : list window_position_t)
  : list window_position_t :=
  alter (set_geometry x y w h) (Z.to_nat i) positions.

Section Layout.

(** The framebuffer dimensions, global variables set once at start-up. *)
Variables g_fb_width g_fb_height : Z.

Definition calculate_horizontal_layout
    (positions : list window_position_t) (count gap usable_height : Z)
  : list window_position_t :=
  let window_width :=
    div32 (sub32 g_fb_width (mul32 gap (add32 count 1))) count in
  for_range 0 count (fun i positions =>
    assign_geometry i
      (add32 gap (mul32 i (add32 window_width gap)))
      (add32 TOP_BAR_HEIGHT gap)
      window_width
      (sub32 usable_height gap)
      positions) positions.

Definition calculate_vertical_layout
    (positions : list window_position_t) (count gap usable_height : Z)
  : list window_position_t :=
  let window_height :=
    div32 (sub32 usable_height (mul32 gap (add32 count 1))) count in
  for_range 0 count (fun i positions =>
    assign_geometry i
      gap
      (add32 (add32 TOP_BAR_HEIGHT gap) (mul32 i (add32 window_height gap)))
      (sub32 g_fb_width (mul32 gap 2))
      window_height
      positions) positions.

Definition calculate_grid_layout
    (positions : list window_position_t) (count gap usable_height : Z)
  : list window_position_t :=
  let cols := 2 in
  let rows := div32 (add32 count 1) 2 in
  let cell_width := div32 (sub32 g_fb_width (mul32 gap (add32 cols 1))) cols in
  let cell_height := div32 (sub32 usable_height (mul32 gap (add32 rows 1))) rows in
  for_range 0 count (fun i positions =>
    let col := mod32 i cols in
    let row := div32 i cols in
    assign_geometry i
      (add32 gap (mul32 col (add32 cell_width gap)))
      (add32 (add32 TOP_BAR_HEIGHT gap) (mul32 row (add32 cell_height gap)))
      cell_width
      cell_height
      positions) positions.

Definition calculate_fullscreen_layout
    (positions : list window_position_t) (count gap usable_height : Z)
  : list window_position_t :=
  for_range 0 count (fun i positions =>
    assign_geometry i
      gap
      (add32 TOP_BAR_HEIGHT gap)
      (sub32 g_fb_width (mul32 gap 2))
      (sub32 usable_height gap)
      positions) positions.

Definition calculate_master_stack_layout
    (positions : list window_position_t)
    (count gap usable_height master_ratio : Z)
  : list window_position_t :=
  if count =? 1 then
    assign_geometry 0
      gap
      (add32 TOP_BAR_HEIGHT gap)
      (sub32 g_fb_width (mul32 gap 2))
      (sub32 usable_height gap)
      positions
  else
    let master_width :=
      sub32 (div32 (mul32 g_fb_width master_ratio) 100) (mul32 gap 2) in
    let stack_width := sub32 (sub32 g_fb_width master_width) (mul32 gap 3) in
    let positions :=
      assign_geometry 0
        gap
        (add32 TOP_BAR_HEIGHT gap)
        master_width
        (sub32 usable_height gap)
        positions in
    let stack_count := sub32 count 1 in
    let stack_height :=
      div32 (sub32 usable_height (mul32 gap (add32 stack_count 1))) stack_count in
    for_range 1 count (fun i positions =>
      assign_geometry i
        (add32 master_width (mul32 gap 2))
        (add32 (add32 TOP_BAR_HEIGHT gap)
               (mul32 (sub32 i 1) (add32 stack_height gap)))
        stack_width
        stack_height
        positions) positions.

Definition compute_window_positions
    (positions : list window_position_t) (count : Z) (config : layout_config_t)
  : list window_position_t :=
  let gap := gap_size config in
  let usable_height := sub32 (sub32 g_fb_height TOP_BAR_HEIGHT) gap in
  let positions :=
    for_range 0 count (fun i positions =>
      assign_geometry i 0 TOP_BAR_HEIGHT 0 0 positions) positions in
  if count =? 0 then positions
  else
    match cfg_type config with
    | LAYOUT_HORIZONTAL =>
        calculate_horizontal_layout positions count gap usable_height
    | LAYOUT_VERTICAL =>
        calculate_vertical_layout positions count gap usable_height
    | LAYOUT_GRID =>
        calculate_grid_layout positions count gap usable_height
    | LAYOUT_FULLSCREEN =>
        calculate_fullscreen_layout positions count gap usable_height
    | LAYOUT_MASTER_STACK =>
        calculate_master_stack_layout positions count gap usable_height
          (master_ratio config)
    end.

End Layout.

(** The geometry [compute_window_positions] gives window [i] of [count],
    in closed form: one case per layout function, the loop counter
    replaced by [i].  [compute_window_positions_lookup] below proves that
    this is what the loops store. *)
Definition window_geometry (g_fb_width g_fb_height count : Z)
    (config : layout_config_t) (i : Z)
  : window_position_t -> window_position_t :=
  let gap := gap_size config in
  let usable_height := sub32 (sub32 g_fb_height TOP_BAR_HEIGHT) gap in
  match cfg_type config with
  | LAYOUT_HORIZONTAL =>
      let window_width :=
        div32 (sub32 g_fb_width (mul32 gap (add32 count 1))) count in
      set_geometry
        (add32 gap (mul32 i (add32 window_width gap)))
        (add32 TOP_BAR_HEIGHT gap)
        window_width
        (sub32 usable_height gap)
  | LAYOUT_VERTICAL =>
      let window_height :=
        div32 (sub32 usable_height (mul32 gap (add32 count 1))) count in
      set_geometry
        gap
        (add32 (add32 TOP_BAR_HEIGHT gap) (mul32 i (add32 window_height gap)))
        (sub32 g_fb_width (mul32 gap 2))
        window_height
  | LAYOUT_GRID =>
      let rows := div32 (add32 count 1) 2 in
      let cell_width := div32 (sub32 g_fb_width (mul32 gap (add32 2 1))) 2 in
      let cell_height :=
        div32 (sub32 usable_height (mul32 gap (add32 rows 1))) rows in
      set_geometry
        (add32 gap (mul32 (mod32 i 2) (add32 cell_width gap)))
        (add32 (add32 TOP_BAR_HEIGHT gap)
               (mul32 (div32 i 2) (add32 cell_height gap)))
        cell_width
        cell_height
  | LAYOUT_FULLSCREEN =>
      set_geometry
        gap
        (add32 TOP_BAR_HEIGHT gap)
        (sub32 g_fb_width (mul32 gap 2))
        (sub32 usable_height gap)
  | LAYOUT_MASTER_STACK =>
      let master_width :=
        sub32 (div32 (mul32 g_fb_width (master_ratio config)) 100)
              (mul32 gap 2) in
      let stack_width := sub32 (sub32 g_fb_width master_width) (mul32 gap 3) in
      let stack_count := sub32 count 1 in
      let stack_height :=
        div32 (sub32 usable_height (mul32 gap (add32 stack_count 1)))
              stack_count in
      if count =? 1 then
        set_geometry
          gap
          (add32 TOP_BAR_HEIGHT gap)
          (sub32 g_fb_width (mul32 gap 2))
          (sub32 usable_height gap)
      else if i =? 0 then
        set_geometry
          gap
          (add32 TOP_BAR_HEIGHT gap)
          master_width
          (sub32 usable_height gap)
      else
        set_geometry
          (add32 master_width (mul32 gap 2))
          (add32 (add32 TOP_BAR_HEIGHT gap)
                 (mul32 (sub32 i 1) (add32 stack_height gap)))
          stack_width
          stack_height
  end.

(** A rectangle lies on the part of the screen below the top bar, and is
    not empty. *)
Definition well_placed (g_fb_width g_fb_height : Z) (p : window_position_t)
  : Prop :=
  0 < pos_width p /\ 0 < pos_height p
  /\ 0 <= pos_x p /\ pos_x p + pos_width p <= g_fb_width
  /\ TOP_BAR_HEIGHT <= pos_y p /\ pos_y p + pos_height p <= g_fb_height.

Definition well_placedb (g_fb_width g_fb_height : Z) (p : window_position_t)
  : bool :=
  (0 <? pos_width p) && (0 <? pos_height p)
  && (0 <=? pos_x p) && (pos_x p + pos_width p <=? g_fb_width)
  && (TOP_BAR_HEIGHT <=? pos_y p) && (pos_y p + pos_height p <=? g_fb_height).

(** Every one of the first [count] rectangles of [ps] is well placed. *)
Definition all_well_placed (g_fb_width g_fb_height count : Z)
    (ps : list window_position_t) : Prop :=
  forall i : Z, 0 <= i < count ->
    exists p, ps !! Z.to_nat i = Some p /\ well_placed g_fb_width g_fb_height p.

(** ** Drawing layer *)

(** The framebuffer, as the contents of [g_framebuffer[k]] for each
    index [k]. *)
Definition framebuffer : Type := Z -> Z.

Definition store_pixel (k color : Z) (fb : framebuffer) : framebuffer :=
  fun j => if j =? k then color else fb j.

Definition string_length (s : string) : Z := Z.of_nat (String.length s).

(** [string_copy(dest, src)]: the C string [dest] holds afterwards, the
    characters of [src] up to its first NUL.  The function makes no
    bounds check.  Its one caller copies into the field [char title[32]]
    of a window, so this is the content of that field only for a source
    of fewer than 32 characters: a longer one is written past the field,
    which is undefined behaviour in C and which this definition does not
    describe.  [CString.string_copy] below is the same function on the
    bytes of the two arrays. *)
Fixpoint string_copy (src : string) : string :=
  match src with
  | EmptyString => EmptyString
  | String c rest =>
      if Ascii.eqb c Ascii.zero then EmptyString
      else String c (string_copy rest)
  end.

(** A title the field [char title[32]] can take: it holds no NUL, and
    with the NUL that ends it, it has at most 32 bytes. *)
Definition title_fits (title : string) : Prop :=
  string_copy title = title /\ string_length title < 32.

Section Drawing.

Variables g_fb_width g_fb_height g_fb_pitch_pixels : Z.

Definition set_pixel (x y color : Z) (fb : framebuffer) : framebuffer :=
  if (x <? g_fb_width) && (y <? g_fb_height) then
    store_pixel (add32 (mul32 y g_fb_pitch_pixels) x) color fb
  else fb.

Definition fill_rect (x y width height color : Z) (fb : framebuffer)
  : framebuffer :=
  for_range 0 height (fun dy fb =>
    for_range 0 width (fun dx fb =>
      set_pixel (add32 x dx) (add32 y dy) color fb) fb) fb.

(** The border thickness [draw_window_frame] uses. *)
Definition frame_border (border_size is_focused : Z) : Z :=
  if is_focused =? 0 then border_size
  else mul32 border_size FOCUSED_BORDER_MULTIPLIER.

Definition draw_window_frame
    (position : window_position_t) (border_size border_color is_focused : Z)
    (fb : framebuffer) : framebuffer :=
  let x := pos_x position in
  let y := pos_y position in
  let w := pos_width position in
  let h := pos_height position in
  let border := frame_border border_size is_focused in
  let fb := fill_rect (add32 x border) (add32 y border)
              (sub32 w (mul32 border 2)) (sub32 h (mul32 border 2))
              COLOR_WINDOW_BG fb in
  let fb := fill_rect x y w border border_color fb in
  let fb := fill_rect x (sub32 (add32 y h) border) w border border_color fb in
  let fb := fill_rect x y border h border_color fb in
  fill_rect (sub32 (add32 x w) border) y border h border_color fb.

Definition draw_empty_desktop_indicator (fb : framebuffer) : framebuffer :=
  let text := "~"%string in
  let text_width := mul32 (string_length text) SYMBOL_WIDTH in
  let x := div32 (sub32 g_fb_width text_width) 2 in
  let y := sub32 (div32 g_fb_height 2) (SYMBOL_HEIGHT / 2) in
  for_range 0 (string_length text) (fun i fb =>
    fill_rect (add32 x (mul32 i SYMBOL_WIDTH)) y SYMBOL_WIDTH SYMBOL_HEIGHT
      COLOR_EMPTY_DESKTOP fb) fb.

End Drawing.

(** A call from [redraw_incremental] or [_start] into the drawing
    layer, with its arguments. *)
Inductive draw_call : Type :=
  | Call_fill_rect (x y width height color : Z)
  | Call_draw_empty_desktop_indicator
  | Call_draw_window_frame
      (position : window_position_t) (border_size border_color is_focused : Z).

(** What a recorded call does to the framebuffer. *)
Definition paint_call (fb_width fb_height fb_pitch : Z) (c : draw_call)
    (fb : framebuffer) : framebuffer :=
  match c with
  | Call_fill_rect x y w h color =>
      fill_rect fb_width fb_height fb_pitch x y w h color fb
  | Call_draw_empty_desktop_indicator =>
      draw_empty_desktop_indicator fb_width fb_height fb_pitch fb
  | Call_draw_window_frame p bs bc f =>
      draw_window_frame fb_width fb_height fb_pitch p bs bc f fb
  end.

Definition paint_log (fb_width fb_height fb_pitch : Z) (log : list draw_call)
    (fb : framebuffer) : framebuffer :=
  fold_left (fun fb c => paint_call fb_width fb_height fb_pitch c fb) log fb.

(** A direct call of [fill_rect]: within [redraw_incremental] these are
    the fills that erase the rectangles of the snapshot. *)
Definition is_erase_fill (c : draw_call) : bool :=
  match c with Call_fill_rect _ _ _ _ _ => true | _ => false end.

Definition is_window_frame (c : draw_call) : bool :=
  match c with Call_draw_window_frame _ _ _ _ => true | _ => false end.

Definition is_empty_indicator (c : draw_call) : bool :=
  match c with Call_draw_empty_desktop_indicator => true | _ => false end.

(** ** Global state *)

Record wm_state : Type := mk_wm_state {
  g_workspaces : list workspace_t;
  g_active_workspace : Z;
  g_fb_width : Z;
  g_fb_height : Z;
  g_fb_pitch_pixels : Z;
  g_prev_positions : list window_position_t;
  g_prev_window_count : Z;
  g_prev_layout : layout_type_t;
  g_prev_focused : Z;
  draw_log : list draw_call
}.

Definition set_g_workspaces (v : list workspace_t) (s : wm_state) : wm_state :=
  mk_wm_state v (g_active_workspace s) (g_fb_width s) (g_fb_height s)
    (g_fb_pitch_pixels s) (g_prev_positions s) (g_prev_window_count s)
    (g_prev_layout s) (g_prev_focused s) (draw_log s).

Definition set_fb_dimensions (w h pitch : Z) (s : wm_state) : wm_state :=
  mk_wm_state (g_workspaces s) (g_active_workspace s) w h pitch
    (g_prev_positions s) (g_prev_window_count s)
    (g_prev_layout s) (g_prev_focused s) (draw_log s).

Definition set_g_prev_positions (v : list window_position_t) (s : wm_state)
  : wm_state :=
  mk_wm_state (g_workspaces s) (g_active_workspace s) (g_fb_width s)
    (g_fb_height s) (g_fb_pitch_pixels s) v (g_prev_window_count s)
    (g_prev_layout s) (g_prev_focused s) (draw_log s).

Definition set_g_prev_window_count (v : Z) (s : wm_state) : wm_state :=
  mk_wm_state (g_workspaces s) (g_active_workspace s) (g_fb_width s)
    (g_fb_height s) (g_fb_pitch_pixels s) (g_prev_positions s) v
    (g_prev_layout s) (g_prev_focused s) (draw_log s).

Definition set_g_prev_layout (v : layout_type_t) (s : wm_state) : wm_state :=
  mk_wm_state (g_workspaces s) (g_active_workspace s) (g_fb_width s)
    (g_fb_height s) (g_fb_pitch_pixels s) (g_prev_positions s)
    (g_prev_window_count s) v (g_prev_focused s) (draw_log s).

Definition set_g_prev_focused (v : Z) (s : wm_state) : wm_state :=
  mk_wm_state (g_workspaces s) (g_active_workspace s) (g_fb_width s)
    (g_fb_height s) (g_fb_pitch_pixels s) (g_prev_positions s)
    (g_prev_window_count s) (g_prev_layout s) v (draw_log s).

(** Record one call into the drawing layer. *)
Definition emit (c : draw_call) (s : wm_state) : wm_state :=
  mk_wm_state (g_workspaces s) (g_active_workspace s) (g_fb_width s)
    (g_fb_height s) (g_fb_pitch_pixels s) (g_prev_positions s)
    (g_prev_window_count s) (g_prev_layout s) (g_prev_focused s)
    (draw_log s ++ [c]).

(** [&g_workspaces[g_active_workspace]], read and written back. *)
Definition active_workspace (s : wm_state) : workspace_t :=
  g_workspaces s !!! Z.to_nat (g_active_workspace s).

Definition set_active_workspace (ws : workspace_t) (s : wm_state) : wm_state :=
  set_g_workspaces (<[Z.to_nat (g_active_workspace s) := ws]> (g_workspaces s)) s.

Definition set_windows (v : list window_t) (ws : workspace_t) : workspace_t :=
  mk_workspace v (window_count ws) (layout ws) (focused_window_index ws).

Definition set_window_count (v : Z) (ws : workspace_t) : workspace_t :=
  mk_workspace (windows ws) v (layout ws) (focused_window_index ws).

Definition set_layout (v : layout_config_t) (ws : workspace_t) : workspace_t :=
  mk_workspace (windows ws) (window_count ws) v (focused_window_index ws).

Definition set_focused_window_index (v : Z) (ws : workspace_t) : workspace_t :=
  mk_workspace (windows ws) (window_count ws) (layout ws) v.

Definition set_pos_pid (v : Z) (p : window_position_t) : window_position_t :=
  mk_window_position (pos_x p) (pos_y p) (pos_width p) (pos_height p) v.

(** ** Redraw differ *)

Definition clear_screen (s : wm_state) : wm_state :=
  emit (Call_fill_rect 0 0 (g_fb_width s) (g_fb_height s) COLOR_BAR_BG) s.

(** The loop that erases every rectangle of the snapshot. *)
Definition erase_previous (s : wm_state) : wm_state :=
  for_range 0 (g_prev_window_count s) (fun i s =>
    let p := g_prev_positions s !!! Z.to_nat i in
    emit (Call_fill_rect (pos_x p) (pos_y p) (pos_width p) (pos_height p)
            COLOR_BAR_BG) s) s.

(** The loop that draws every window of [ws] and copies its rectangle
    into the snapshot; it carries the local array [positions]. *)
Definition draw_all_windows (ws : workspace_t)
    (positions : list window_position_t) (s : wm_state)
  : list window_position_t * wm_state :=
  for_range 0 (window_count ws) (fun i '(positions, s) =>
    let positions :=
      alter (set_pos_pid (win_pid (windows ws !!! Z.to_nat i)))
        (Z.to_nat i) positions in
    let s :=
      emit (Call_draw_window_frame (positions !!! Z.to_nat i)
              (border_size (layout ws)) (border_color (layout ws))
              (if i =? focused_window_index ws then 1 else 0)) s in
    let s :=
      set_g_prev_positions
        (<[Z.to_nat i := positions !!! Z.to_nat i]> (g_prev_positions s)) s in
    (positions, s)) (positions, s).

(** [stack] is the content of the local array [positions] when the
    function is entered: the C code does not initialise it. *)
Definition redraw_incremental (stack : list window_position_t) (s : wm_state)
  : wm_state :=
  let ws := active_workspace s in
  if negb (window_count ws =? g_prev_window_count s)
     || negb (layout_type_eqb (cfg_type (layout ws)) (g_prev_layout s))
  then
    let s := erase_previous s in
    let s :=
      if window_count ws =? 0 then emit Call_draw_empty_desktop_indicator s
      else
        let positions :=
          compute_window_positions (g_fb_width s) (g_fb_height s)
            stack (window_count ws) (layout ws) in
        snd (draw_all_windows ws positions s) in
    let s := set_g_prev_window_count (window_count ws) s in
    let s := set_g_prev_layout (cfg_type (layout ws)) s in
    set_g_prev_focused (focused_window_index ws) s
  else if negb (focused_window_index ws =? g_prev_focused s) then
    let positions :=
      compute_window_positions (g_fb_width s) (g_fb_height s)
        stack (window_count ws) (layout ws) in
    let s :=
      emit (Call_draw_window_frame (positions !!! Z.to_nat (g_prev_focused s))
              (border_size (layout ws)) (border_color (layout ws)) 0) s in
    let s :=
      emit (Call_draw_window_frame
              (positions !!! Z.to_nat (focused_window_index ws))
              (border_size (layout ws)) (border_color (layout ws)) 1) s in
    set_g_prev_focused (focused_window_index ws) s
  else s.

(** ** Workspace store *)

Definition initialize_workspaces (s : wm_state) : wm_state :=
  for_range 0 WORKSPACE_COUNT (fun i s =>
    let ws := g_workspaces s !!! Z.to_nat i in
    let ws := set_window_count 0 ws in
    let ws := set_layout (DEFAULT_LAYOUTS LAYOUT_GRID) ws in
    let ws := set_focused_window_index 0 ws in
    let ws :=
      for_range 0 MAX_WINDOWS_PER_WORKSPACE (fun j ws =>
        set_windows
          (alter (fun w => mk_window EmptyString (win_pid w) 0)
             (Z.to_nat j) (windows ws)) ws) ws in
    set_g_workspaces (<[Z.to_nat i := ws]> (g_workspaces s)) s) s.

Definition add_window_to_current_workspace
    (stack : list window_position_t) (title : string) (s : wm_state)
  : wm_state :=
  let ws := active_workspace s in
  if MAX_WINDOWS_PER_WORKSPACE <=? window_count ws then s
  else
    let slot := Z.to_nat (window_count ws) in
    let ws :=
      set_windows
        (alter (fun w => mk_window (string_copy title) (window_count ws) 1)
           slot (windows ws)) ws in
    let ws := set_window_count (add32 (window_count ws) 1) ws in
    let ws := set_focused_window_index (sub32 (window_count ws) 1) ws in
    redraw_incremental stack (set_active_workspace ws s).

(** The loop [windows[i] = windows[i + 1]] of [close_current_window]. *)
Definition shift_windows_left (focused count : Z) (wins : list window_t)
  : list window_t :=
  for_range focused (sub32 count 1) (fun i wins =>
    <[Z.to_nat i := wins !!! Z.to_nat (add32 i 1)]> wins) wins.

Definition close_current_window
    (stack : list window_position_t) (s : wm_state) : wm_state :=
  let ws := active_workspace s in
  if window_count ws =? 0 then s
  else
    let focused := focused_window_index ws in
    let ws :=
      set_windows (shift_windows_left focused (window_count ws) (windows ws)) ws in
    let ws := set_window_count (sub32 (window_count ws) 1) ws in
    let ws :=
      if window_count ws =? 0 then set_focused_window_index 0 ws
      else if window_count ws <=? focused then
        set_focused_window_index (sub32 (window_count ws) 1) ws
      else ws in
    redraw_incremental stack (set_active_workspace ws s).

(** [direction] is a C [int]. *)
Definition cycle_focus
    (stack : list window_position_t) (direction : Z) (s : wm_state)
  : wm_state :=
  let ws := active_workspace s in
  if window_count ws =? 0 then s
  else
    let ws :=
      if 0 <? direction then
        set_focused_window_index
          (mod32 (add32 (focused_window_index ws) 1) (window_count ws)) ws
      else
        set_focused_window_index
          (mod32 (sub32 (add32 (focused_window_index ws) (window_count ws)) 1)
             (window_count ws)) ws in
    redraw_incremental stack (set_active_workspace ws s).

Definition cycle_layout (stack : list window_position_t) (s : wm_state)
  : wm_state :=
  let ws := active_workspace s in
  let current := cfg_type (layout ws) in
  let next := layout_of_index (mod32 (add32 (layout_index current) 1) LAYOUT_COUNT) in
  let ws := set_layout (DEFAULT_LAYOUTS next) ws in
  redraw_incremental stack (set_active_workspace ws s).

(** ** Entry point *)

(** The global variables as the C file initialises them statically:
    everything zero, except [g_prev_layout]. *)
Definition static_state : wm_state :=
  mk_wm_state
    (replicate (Z.to_nat WORKSPACE_COUNT)
       (mk_workspace
          (replicate (Z.to_nat MAX_WINDOWS_PER_WORKSPACE)
             (mk_window EmptyString 0 0))
          0 (mk_layout_config LAYOUT_HORIZONTAL 0 0 0 0) 0))
    0 0 0 0
    (replicate (Z.to_nat MAX_WINDOWS_PER_WORKSPACE)
       (mk_window_position 0 0 0 0 0))
    0 LAYOUT_GRID 0 [].

(** [_start] up to, and excluding, its call of [redraw_incremental].
    [fb_width], [fb_height] and [fb_pitch] are what the kernel API
    reports; the registration of the hot keys, after the redraw, changes
    none of the variables modelled here. *)
Definition start_setup (fb_width fb_height fb_pitch : Z) : wm_state :=
  let s := clear_screen static_state in
  let s := set_fb_dimensions fb_width fb_height fb_pitch s in
  let s := initialize_workspaces s in
  let s := set_g_prev_window_count 0 s in
  let s := set_g_prev_layout LAYOUT_GRID s in
  set_g_prev_focused 0 s.

Definition _start (stack : list window_position_t)
    (fb_width fb_height fb_pitch : Z) : wm_state :=
  redraw_incremental stack (start_setup fb_width fb_height fb_pitch).

(** ** Invariants *)

(** The workspace invariant of the data model. *)
Definition ws_inv (ws : workspace_t) : Prop :=
  0 <= window_count ws <= MAX_WINDOWS_PER_WORKSPACE
  /\ (0 < window_count ws ->
      0 <= focused_window_index ws < window_count ws).


(** The call that draws window [i] in the structural repaint, given the
    array [positions] that [compute_window_positions] returned. *)
Definition window_frame_call (ws : workspace_t)
    (positions : list window_position_t) (i : Z) : draw_call :=
  Call_draw_window_frame
    (set_pos_pid (win_pid (windows ws !!! Z.to_nat i))
       (positions !!! Z.to_nat i))
    (border_size (layout ws)) (border_color (layout ws))
    (if i =? focused_window_index ws then 1 else 0).

Definition window_frame_calls (ws : workspace_t)
    (positions : list window_position_t) : list draw_call :=
  (fun n : nat => window_frame_call ws positions (Z.of_nat n))
    <$> seq 0 (Z.to_nat (window_count ws)).

(** Framebuffer cell [k] is written by [fill_rect x y w h]. *)
Definition fill_touches (fb_width fb_height fb_pitch x y w h k : Z) : Prop :=
  exists dx dy : Z,
    0 <= dx < w /\ 0 <= dy < h
    /\ add32 x dx < fb_width /\ add32 y dy < fb_height
    /\ k = add32 (mul32 (add32 y dy) fb_pitch) (add32 x dx).

(** Framebuffer cell [k] is written by a call of the drawing layer. *)
Definition call_touches (fb_width fb_height fb_pitch : Z) (c : draw_call)
    (k : Z) : Prop :=
  match c with
  | Call_fill_rect x y w h _ =>
      fill_touches fb_width fb_height fb_pitch x y w h k
  | Call_draw_empty_desktop_indicator =>
      exists i : Z,
        0 <= i < string_length "~"
        /\ fill_touches fb_width fb_height fb_pitch
             (add32 (div32 (sub32 fb_width
                              (mul32 (string_length "~") SYMBOL_WIDTH)) 2)
                    (mul32 i SYMBOL_WIDTH))
             (sub32 (div32 fb_height 2) (SYMBOL_HEIGHT / 2))
             SYMBOL_WIDTH SYMBOL_HEIGHT k
  | Call_draw_window_frame p bs _ f =>
      let x := pos_x p in
      let y := pos_y p in
      let w := pos_width p in
      let h := pos_height p in
      let border := frame_border bs f in
      fill_touches fb_width fb_height fb_pitch
        (add32 x border) (add32 y border)
        (sub32 w (mul32 border 2)) (sub32 h (mul32 border 2)) k
      \/ fill_touches fb_width fb_height fb_pitch x y w border k
      \/ fill_touches fb_width fb_height fb_pitch
            x (sub32 (add32 y h) border) w border k
      \/ fill_touches fb_width fb_height fb_pitch x y border h k
      \/ fill_touches fb_width fb_height fb_pitch
            (sub32 (add32 x w) border) y border h k
  end.

(** What [redraw_incremental] never writes. *)
Definition same_store (s s' : wm_state) : Prop :=
  g_workspaces s' = g_workspaces s
  /\ g_active_workspace s' = g_active_workspace s
  /\ g_fb_width s' = g_fb_width s
  /\ g_fb_height s' = g_fb_height s
  /\ g_fb_pitch_pixels s' = g_fb_pitch_pixels s.

(** The workspace each mutation writes back before it calls
    [redraw_incremental] (see [add_window_unfold] and the like). *)
Definition added_workspace (title : string) (ws : workspace_t) : workspace_t :=
  set_focused_window_index (sub32 (add32 (window_count ws) 1) 1)
    (set_window_count (add32 (window_count ws) 1)
       (set_windows
          (alter (fun w => mk_window (string_copy title) (window_count ws) 1)
             (Z.to_nat (window_count ws)) (windows ws)) ws)).

Definition closed_workspace (ws : workspace_t) : workspace_t :=
  let count' := sub32 (window_count ws) 1 in
  mk_workspace
    (shift_windows_left (focused_window_index ws) (window_count ws) (windows ws))
    count' (layout ws)
    (if count' =? 0 then 0
     else if count' <=? focused_window_index ws then sub32 count' 1
     else focused_window_index ws).

Definition refocused_workspace (direction : Z) (ws : workspace_t) : workspace_t :=
  set_focused_window_index
    (if 0 <? direction then
       mod32 (add32 (focused_window_index ws) 1) (window_count ws)
     else
       mod32 (sub32 (add32 (focused_window_index ws) (window_count ws)) 1)
         (window_count ws)) ws.

Definition relaid_workspace (ws : workspace_t) : workspace_t :=
  set_layout
    (DEFAULT_LAYOUTS
       (layout_of_index
          (mod32 (add32 (layout_index (cfg_type (layout ws))) 1) LAYOUT_COUNT)))
    ws.

(** The snapshot holds the count, the variant and the focus index of the
    active workspace. *)
Definition snapshot_in_sync (s : wm_state) : Prop :=
  g_prev_window_count s = window_count (active_workspace s)
  /\ g_prev_layout s = cfg_type (layout (active_workspace s))
  /\ g_prev_focused s = focused_window_index (active_workspace s).

(** The whole store satisfies the workspace invariant. *)
Definition wm_inv (s : wm_state) : Prop := Forall ws_inv (g_workspaces s).

(** [g_active_workspace] designates one of the workspaces. *)
Definition active_in_range (s : wm_state) : Prop :=
  0 <= g_active_workspace s
  /\ (Z.to_nat (g_active_workspace s) < length (g_workspaces s))%nat.

(** The variant that follows [t] in the order Horizontal, Vertical, Grid,
    Fullscreen, Master-Stack, Horizontal. *)
Definition next_layout_in_order (t : layout_type_t) : layout_type_t :=
  match t with
  | LAYOUT_HORIZONTAL => LAYOUT_VERTICAL
  | LAYOUT_VERTICAL => LAYOUT_GRID
  | LAYOUT_GRID => LAYOUT_FULLSCREEN
  | LAYOUT_FULLSCREEN => LAYOUT_MASTER_STACK
  | LAYOUT_MASTER_STACK => LAYOUT_HORIZONTAL
  end.


(** ** Sample states *)

(** A local array whose six entries hold zeros. *)
Definition sample_stack : list window_position_t := replicate 6 inhabitant.

(** The state [_start] leaves on a 640 by 480 framebuffer. *)
Definition sample_started : wm_state := _start sample_stack 640 480 640.

(** Three windows opened one after the other; the last one has focus. *)
Definition sample_three : wm_state :=
  add_window_to_current_workspace sample_stack "template"
    (add_window_to_current_workspace sample_stack "template"
       (add_window_to_current_workspace sample_stack "template"
          sample_started)).

(** The same with focus on the middle window. *)
Definition sample_three_middle : wm_state :=
  cycle_focus sample_stack 1 (cycle_focus sample_stack 1 sample_three).

(** [sample_three] as [cycle_focus] hands it to [redraw_incremental]:
    the focus has moved and the snapshot has not. *)
Definition sample_focus_moved : wm_state :=
  set_active_workspace
    (refocused_workspace 1 (active_workspace sample_three)) sample_three.

(** Six windows: the workspace is full. *)
Definition sample_full : wm_state :=
  add_window_to_current_workspace sample_stack "template"
    (add_window_to_current_workspace sample_stack "template"
       (add_window_to_current_workspace sample_stack "template"
          sample_three)).

(** The started state as [add_window_to_current_workspace] hands it to
    [redraw_incremental]: one window, and a snapshot of none. *)
Definition sample_first_window : wm_state :=
  set_active_workspace
    (added_workspace "template" (active_workspace sample_started))
    sample_started.

(** ** Pixels *)

(** The framebuffer the kernel hands over: [fb_height] rows of
    [fb_pitch] cells, of which the first [fb_width] are pixels, and
    small enough for every cell index to fit [uint32_t]. *)
Definition fb_geometry_ok (fb_width fb_height fb_pitch : Z) : Prop :=
  0 <= fb_width <= fb_pitch /\ 0 <= fb_height
  /\ fb_height * fb_pitch <= u32_modulus.

(** The pixel [(px, py)] lies in the rectangle [x, y, w, h]. *)
Definition in_rect (x y w h px py : Z) : Prop :=
  x <= px < x + w /\ y <= py < y + h.

(** The cell [k] is the pixel [(px, py)] of the screen. *)
Definition is_pixel (fb_width fb_height fb_pitch k px py : Z) : Prop :=
  0 <= px < fb_width /\ 0 <= py < fb_height /\ k = py * fb_pitch + px.

(** ** Tiling *)

(** Two rectangles with at least [gap] pixels between them, along x or
    along y: in particular they share no pixel. *)
Definition separated (gap : Z) (p q : window_position_t) : Prop :=
  pos_x p + pos_width p + gap <= pos_x q
  \/ pos_x q + pos_width q + gap <= pos_x p
  \/ pos_y p + pos_height p + gap <= pos_y q
  \/ pos_y q + pos_height q + gap <= pos_y p.

(** ** Keyboard callbacks *)

(** The four callbacks [_start] registers; each ignores its argument. *)
Definition on_cycle_focus_next (stack : list window_position_t)
    (s : wm_state) : wm_state :=
  cycle_focus stack 1 s.

Definition on_cycle_layout (stack : list window_position_t)
    (s : wm_state) : wm_state :=
  cycle_layout stack s.

Definition on_new_window (stack : list window_position_t)
    (s : wm_state) : wm_state :=
  add_window_to_current_workspace stack "template" s.

Definition on_close_window (stack : list window_position_t)
    (s : wm_state) : wm_state :=
  close_current_window stack s.

(** The hot keys [_start] registers, all with modifier 1: 0x20 for
    [on_cycle_focus_next], 0x26 for [on_cycle_layout], 0x10 for
    [on_close_window] and 0x11 for [on_new_window]. *)
Inductive hotkey : Type :=
  | Key_cycle_focus_next
  | Key_cycle_layout
  | Key_close_window
  | Key_new_window.

Definition press (stack : list window_position_t) (k : hotkey)
    (s : wm_state) : wm_state :=
  match k with
  | Key_cycle_focus_next => on_cycle_focus_next stack s
  | Key_cycle_layout => on_cycle_layout stack s
  | Key_close_window => on_close_window stack s
  | Key_new_window => on_new_window stack s
  end.

(** The states of a run: [_start], then any number of key presses.
    Each call finds its own content in the six entries of the local
    array. *)
Inductive reachable (fb_width fb_height fb_pitch : Z) : wm_state -> Prop :=
  | reachable_start (stack : list window_position_t) :
      length stack = 6%nat ->
      reachable fb_width fb_height fb_pitch
        (_start stack fb_width fb_height fb_pitch)
  | reachable_press (stack : list window_position_t) (k : hotkey)
      (s : wm_state) :
      length stack = 6%nat ->
      reachable fb_width fb_height fb_pitch s ->
      reachable fb_width fb_height fb_pitch (press stack k s).

(** A run given by its key presses, the same array content each time. *)
Definition run (stack : list window_position_t)
    (fb_width fb_height fb_pitch : Z) (keys : list hotkey) : wm_state :=
  fold_left (fun s k => press stack k s) keys
    (_start stack fb_width fb_height fb_pitch).

(** A workspace as [initialize_workspaces] leaves it. *)
Definition initial_workspace : workspace_t :=
  mk_workspace (replicate 6 (mk_window EmptyString 0 0)) 0
    (DEFAULT_LAYOUTS LAYOUT_GRID) 0.

#[global] Instance layout_type_eq_dec : EqDecision layout_type_t.
Proof. solve_decision. Defined.

(** The first test of [redraw_incremental]: the count or the variant of
    the active workspace differs from the snapshot. *)
Definition structural_change (s : wm_state) : Prop :=
  window_count (active_workspace s) <> g_prev_window_count s
  \/ cfg_type (layout (active_workspace s)) <> g_prev_layout s.

#[global] Instance structural_change_dec (s : wm_state) :
  Decision (structural_change s).
Proof. unfold structural_change. apply _. Defined.

(** The calls of the erase loop, in order. *)
Definition erase_calls (s : wm_state) : list draw_call :=
  (fun n : nat =>
     let p := g_prev_positions s !!! n in
     Call_fill_rect (pos_x p) (pos_y p) (pos_width p) (pos_height p)
       COLOR_BAR_BG)
    <$> seq 0 (Z.to_nat (g_prev_window_count s)).

(** What holds of every state of a run. *)
Record run_invariant (fb_width fb_height fb_pitch : Z) (s : wm_state)
  : Prop := mk_run_invariant {
  inv_active : g_active_workspace s = 0;
  inv_dimensions :
    g_fb_width s = fb_width /\ g_fb_height s = fb_height
    /\ g_fb_pitch_pixels s = fb_pitch;
  inv_others :
    exists ws, g_workspaces s
               = [ws; initial_workspace; initial_workspace; initial_workspace];
  inv_workspace : ws_inv (active_workspace s);
  inv_slots : length (windows (active_workspace s)) = 6%nat;
  inv_layout :
    layout (active_workspace s)
    = DEFAULT_LAYOUTS (cfg_type (layout (active_workspace s)));
  inv_windows :
    forall i, 0 <= i < window_count (active_workspace s) ->
      exists pid,
        0 <= pid < MAX_WINDOWS_PER_WORKSPACE
        /\ windows (active_workspace s) !! Z.to_nat i
           = Some (mk_window "template" pid 1);
  inv_snapshot : snapshot_in_sync s;
  inv_rectangles :
    length (g_prev_positions s) = 6%nat
    /\ forall i, 0 <= i < window_count (active_workspace s) ->
         exists p,
           g_prev_positions s !! Z.to_nat i = Some p
           /\ pos_pid p = win_pid (windows (active_workspace s) !!! Z.to_nat i)
           /\ window_geometry fb_width fb_height
                (window_count (active_workspace s))
                (layout (active_workspace s)) i p = p
}.

(** A call that draws a frame with the focused border. *)
Definition is_focused_frame (c : draw_call) : bool :=
  match c with
  | Call_draw_window_frame _ _ _ f => negb (f =? 0)
  | _ => false
  end.

(** A run of three new windows, a move of the focus to the first one,
    its closing and one more new window. *)
Definition sample_run : wm_state :=
  run sample_stack 640 480 640
    [Key_new_window; Key_new_window; Key_new_window;
     Key_cycle_focus_next; Key_close_window; Key_new_window].

(** ** C strings, byte by byte *)

(** [string_length] and [string_copy] on the bytes of char arrays.  A
    buffer is the list of the bytes of one array; reading or writing
    past its end is undefined in C and gives [None] here.  The loops
    run until they meet a NUL; [fuel] bounds the number of rounds and is
    chosen so that it never runs out before the end of the buffer. *)
Module CString.

Fixpoint string_length_from (fuel : nat) (s : list Z) (len : Z) : option Z :=
  match fuel with
  | O => None
  | S fuel' =>
      match s !! Z.to_nat len with
      | None => None
      | Some c =>
          if c =? 0 then Some len
          else string_length_from fuel' s (add32 len 1)
      end
  end.

Definition string_length (s : list Z) : option Z :=
  string_length_from (S (length s)) s 0.

(** [dest] and [src] advance together: [i] is the offset of both. *)
Fixpoint string_copy_from (fuel : nat) (dest src : list Z) (i : nat)
  : option (list Z) :=
  match fuel with
  | O => None
  | S fuel' =>
      match src !! i with
      | None => None
      | Some c =>
          if c =? 0 then
            if decide (i < length dest)%nat then Some (<[i := 0]> dest)
            else None
          else
            if decide (i < length dest)%nat then
              string_copy_from fuel' (<[i := c]> dest) src (S i)
            else None
      end
  end.

Definition string_copy (dest src : list Z) : option (list Z) :=
  string_copy_from (S (length src)) dest src 0.

(** The bytes before the first NUL of [s] are the [n] bytes [text]. *)
Definition holds_text (s : list Z) (text : list Z) : Prop :=
  take (length text) s = text
  /\ s !! length text = Some 0
  /\ Forall (fun c => c <> 0) text.

End CString.

(** The bytes of the literal ["template"], with its terminating NUL, and
    a [title] array of 32 bytes. *)
Definition template_bytes : list Z :=
  [116; 101; 109; 112; 108; 97; 116; 101; 0].

Definition empty_title : list Z := replicate 32 0.

(** The bytes of the characters of a string. *)
Fixpoint bytes_of (s : string) : list Z :=
  match s with
  | EmptyString => []
  | String c rest => Z.of_N (Ascii.N_of_ascii c) :: bytes_of rest
  end.

(** ** What one key press draws *)

(** The calls the log of [s'] has gained over the log of [s]. *)
Definition new_calls (s s' : wm_state) : list draw_call :=
  drop (length (draw_log s)) (draw_log s').

Definition count_calls (kind : draw_call -> bool) (l : list draw_call) : Z :=
  Z.of_nat (length (filter (fun c => kind c = true) l)).

(** How many erasing fills, window frames and empty-desktop indicators a
    list of calls holds. *)
Record call_tally : Type := mk_call_tally {
  erase_fills : Z;
  window_frames : Z;
  empty_indicators : Z
}.

Definition tally (l : list draw_call) : call_tally :=
  mk_call_tally (count_calls is_erase_fill l) (count_calls is_window_frame l)
    (count_calls is_empty_indicator l).

(** ** The top bar *)

(** A call leaves every pixel of the top bar, the first [TOP_BAR_HEIGHT]
    rows of the screen, as it was. *)
Definition spares_top_bar (fb_width fb_height fb_pitch : Z) (c : draw_call)
  : Prop :=
  forall (fb : framebuffer) (px py : Z),
    0 <= px < fb_width -> 0 <= py < TOP_BAR_HEIGHT ->
    paint_call fb_width fb_height fb_pitch c fb (py * fb_pitch + px)
    = fb (py * fb_pitch + px).

(** The thickest border [draw_window_frame] draws with the compiled-in
    configurations: that of a focused window. *)
Definition widest_border : Z :=
  mul32 DEFAULT_BORDER_SIZE FOCUSED_BORDER_MULTIPLIER.

(** A rectangle with room for two borders each way. *)
Definition roomy (p : window_position_t) : Prop :=
  2 * widest_border <= pos_width p /\ 2 * widest_border <= pos_height p.

(** ** Resetting the store *)

(** What [initialize_workspaces] makes of a window and of a workspace:
    its two loops in closed form.  The identifier of a window is not
    written. *)
Definition reset_window (w : window_t) : window_t :=
  mk_window EmptyString (win_pid w) 0.

Definition reset_workspace (ws : workspace_t) : workspace_t :=
  mk_workspace (reset_window <$> windows ws) 0 (DEFAULT_LAYOUTS LAYOUT_GRID) 0.

(** The store has its declared sizes: [WORKSPACE_COUNT] workspaces of
    [MAX_WINDOWS_PER_WORKSPACE] windows. *)
Definition store_shaped (s : wm_state) : Prop :=
  length (g_workspaces s) = 4%nat
  /\ Forall (fun ws => length (windows ws) = 6%nat) (g_workspaces s).

(** * Verification *)

(** ** Arithmetic *)

Lemma u32_small (z : Z) : is_u32 z -> u32 z = z.
Proof. unfold is_u32, u32. intros Hz. apply Z.mod_small. exact Hz. Qed.

Lemma u32_range (z : Z) : is_u32 (u32 z).
Proof. unfold is_u32, u32. apply Z.mod_pos_bound. reflexivity. Qed.

Lemma u32_idemp (z : Z) : u32 (u32 z) = u32 z.
Proof. apply u32_small, u32_range. Qed.

(** Unfold the 32-bit operators down to [mod] and [/] on literals, which
    is the fragment [lia] decides. *)
Ltac unfold_u32 :=
  unfold add32, sub32, mul32, div32, mod32, u32, is_u32, u32_modulus,
    MAX_WINDOWS_PER_WORKSPACE, WORKSPACE_COUNT, TOP_BAR_HEIGHT,
    DEFAULT_GAP_SIZE, DEFAULT_BORDER_SIZE, FOCUSED_BORDER_MULTIPLIER,
    MASTER_RATIO_DEFAULT, MASTER_RATIO_MASTER_STACK, LAYOUT_COUNT in *;
  change (2 ^ 32) with 4294967296 in *.

(** Closed numerals. *)
Ltac is_pos_literal p :=
  lazymatch p with
  | xH => idtac
  | xO ?q => is_pos_literal q
  | xI ?q => is_pos_literal q
  end.

Ltac is_Z_literal z :=
  lazymatch z with
  | Z0 => idtac
  | Zpos ?p => is_pos_literal p
  | Zneg ?p => is_pos_literal p
  end.

(** Evaluate every operation whose two operands are numerals. *)
Ltac eval_literals :=
  repeat match goal with
    | |- context [?a + ?b] =>
        is_Z_literal a; is_Z_literal b;
        let v := eval vm_compute in (a + b) in change (a + b) with v
    | |- context [?a - ?b] =>
        is_Z_literal a; is_Z_literal b;
        let v := eval vm_compute in (a - b) in change (a - b) with v
    | |- context [?a * ?b] =>
        is_Z_literal a; is_Z_literal b;
        let v := eval vm_compute in (a * b) in change (a * b) with v
    | |- context [?a / ?b] =>
        is_Z_literal a; is_Z_literal b;
        let v := eval vm_compute in (a / b) in change (a / b) with v
    | |- context [?a mod ?b] =>
        is_Z_literal a; is_Z_literal b;
        let v := eval vm_compute in (a mod b) in change (a mod b) with v
    end.

(** Remove, innermost first, every reduction modulo [2^32] of a value
    that is shown to be in range. *)
Ltac u32_small_all :=
  unfold_u32; eval_literals;
  repeat match goal with
    | |- context [?a mod 4294967296] =>
        rewrite (Z.mod_small a 4294967296)
          by (Z.div_mod_to_equations; lia)
    end.

Ltac u32_lia := u32_small_all; Z.div_mod_to_equations; lia.

(** ** Loops over arrays *)

Lemma for_loop_invariant {S : Type} (P : S -> Prop) (body : Z -> S -> S) :
  (forall i s, P s -> P (body i s)) ->
  forall n i s, P s -> P (for_loop i n body s).
Proof.
  intros Hbody n. induction n as [|n IH]; intros i s Hs; simpl.
  - exact Hs.
  - apply IH, Hbody, Hs.
Qed.

Lemma for_range_invariant {S : Type} (P : S -> Prop) (body : Z -> S -> S) lo hi s :
  (forall i s, P s -> P (body i s)) -> P s -> P (for_range lo hi body s).
Proof. intros Hbody Hs. unfold for_range. now apply for_loop_invariant. Qed.

(** A loop whose [i]-th round rewrites element [i] only. *)
Lemma for_loop_alter_lookup {A : Type} (f : Z -> A -> A) (n : nat) :
  forall (lo : Z) (l : list A) (j : nat),
    0 <= lo ->
    for_loop lo n (fun i l => alter (f i) (Z.to_nat i) l) l !! j
    = if bool_decide (lo <= Z.of_nat j < lo + Z.of_nat n)
      then f (Z.of_nat j) <$> l !! j
      else l !! j.
Proof.
  induction n as [|n IH]; intros lo l j Hlo.
  - simpl. rewrite bool_decide_eq_false_2 by lia. reflexivity.
  - cbn [for_loop]. rewrite IH by lia.
    destruct (decide (Z.to_nat lo = j)) as [<-|Hne].
    + rewrite bool_decide_eq_false_2 by lia.
      rewrite bool_decide_eq_true_2 by lia.
      rewrite list_lookup_alter_eq. now rewrite Z2Nat.id by lia.
    + rewrite list_lookup_alter_ne by exact Hne.
      destruct (bool_decide_reflect (lo + 1 <= Z.of_nat j < lo + 1 + Z.of_nat n)).
      * now rewrite bool_decide_eq_true_2 by lia.
      * now rewrite bool_decide_eq_false_2 by lia.
Qed.

Lemma for_range_alter_lookup {A : Type} (f : Z -> A -> A) (lo hi : Z)
    (l : list A) (j : nat) :
  0 <= lo ->
  for_range lo hi (fun i l => alter (f i) (Z.to_nat i) l) l !! j
  = if bool_decide (lo <= Z.of_nat j < hi)
    then f (Z.of_nat j) <$> l !! j
    else l !! j.
Proof.
  intros Hlo. unfold for_range. rewrite for_loop_alter_lookup by exact Hlo.
  destruct (bool_decide_reflect (lo <= Z.of_nat j < hi)).
  - now rewrite bool_decide_eq_true_2 by lia.
  - now rewrite bool_decide_eq_false_2 by lia.
Qed.

Lemma for_range_alter_length {A : Type} (f : Z -> A -> A) (lo hi : Z) (l : list A) :
  length (for_range lo hi (fun i l => alter (f i) (Z.to_nat i) l) l) = length l.
Proof.
  apply (for_range_invariant (fun l' => length l' = length l)); [|reflexivity].
  intros i l' Hl'. now rewrite length_alter.
Qed.

(** ** Layout engine: what each rectangle is *)

Lemma set_geometry_set_geometry x y w h x' y' w' h' p :
  set_geometry x y w h (set_geometry x' y' w' h' p) = set_geometry x y w h p.
Proof. reflexivity. Qed.

Lemma fmap_set_geometry x y w h x' y' w' h' (o : option window_position_t) :
  set_geometry x y w h <$> (set_geometry x' y' w' h' <$> o)
  = set_geometry x y w h <$> o.
Proof. now destruct o. Qed.

Lemma compute_window_positions_lookup W H stack count config (j : nat) :
  0 < count ->
  compute_window_positions W H stack count config !! j
  = if bool_decide (Z.of_nat j < count)
    then window_geometry W H count config (Z.of_nat j) <$> stack !! j
    else stack !! j.
Proof.
  intros Hcount.
  unfold compute_window_positions, window_geometry.
  rewrite (proj2 (Z.eqb_neq count 0)) by lia.
  destruct (cfg_type config).
  - unfold calculate_horizontal_layout, assign_geometry.
    rewrite !for_range_alter_lookup by lia.
    destruct (bool_decide_reflect (0 <= Z.of_nat j < count)).
    + rewrite bool_decide_eq_true_2 by lia. apply fmap_set_geometry.
    + now rewrite bool_decide_eq_false_2 by lia.
  - unfold calculate_vertical_layout, assign_geometry.
    rewrite !for_range_alter_lookup by lia.
    destruct (bool_decide_reflect (0 <= Z.of_nat j < count)).
    + rewrite bool_decide_eq_true_2 by lia. apply fmap_set_geometry.
    + now rewrite bool_decide_eq_false_2 by lia.
  - unfold calculate_grid_layout, assign_geometry.
    rewrite !for_range_alter_lookup by lia.
    destruct (bool_decide_reflect (0 <= Z.of_nat j < count)).
    + rewrite bool_decide_eq_true_2 by lia. apply fmap_set_geometry.
    + now rewrite bool_decide_eq_false_2 by lia.
  - unfold calculate_fullscreen_layout, assign_geometry.
    rewrite !for_range_alter_lookup by lia.
    destruct (bool_decide_reflect (0 <= Z.of_nat j < count)).
    + rewrite bool_decide_eq_true_2 by lia. apply fmap_set_geometry.
    + now rewrite bool_decide_eq_false_2 by lia.
  - unfold calculate_master_stack_layout, assign_geometry.
    destruct (Z.eqb_spec count 1) as [->|Hne].
    + destruct j as [|j].
      * rewrite list_lookup_alter_eq, for_range_alter_lookup by lia.
        rewrite !bool_decide_eq_true_2 by lia. apply fmap_set_geometry.
      * rewrite list_lookup_alter_ne by lia.
        rewrite for_range_alter_lookup by lia.
        now rewrite !bool_decide_eq_false_2 by lia.
    + rewrite for_range_alter_lookup by lia.
      destruct j as [|j].
      * rewrite bool_decide_eq_false_2 by lia.
        rewrite list_lookup_alter_eq, for_range_alter_lookup by lia.
        rewrite !bool_decide_eq_true_2 by lia. apply fmap_set_geometry.
      * rewrite list_lookup_alter_ne by lia.
        rewrite for_range_alter_lookup by lia.
        destruct (bool_decide_reflect (1 <= Z.of_nat (S j) < count)).
        -- rewrite !bool_decide_eq_true_2 by lia.
           rewrite (proj2 (Z.eqb_neq (Z.of_nat (S j)) 0)) by lia.
           apply fmap_set_geometry.
        -- now rewrite !bool_decide_eq_false_2 by lia.
Qed.

Lemma compute_window_positions_length W H stack count config :
  length (compute_window_positions W H stack count config) = length stack.
Proof.
  unfold compute_window_positions.
  set (l0 := for_range 0 count _ stack).
  assert (Hl0 : length l0 = length stack).
  { subst l0. unfold assign_geometry. apply for_range_alter_length. }
  destruct (count =? 0); [exact Hl0|].
  destruct (cfg_type config);
    unfold calculate_horizontal_layout, calculate_vertical_layout,
      calculate_grid_layout, calculate_fullscreen_layout,
      calculate_master_stack_layout, assign_geometry;
    try destruct (count =? 1);
    rewrite ?for_range_alter_length, ?length_alter; exact Hl0.
Qed.

Lemma window_geometry_well_placed W H count t i p :
  34 <= W <= 71582788 -> 62 <= H < 2 ^ 32 ->
  1 <= count <= 6 -> 0 <= i < count ->
  well_placed W H (window_geometry W H count (DEFAULT_LAYOUTS t) i p).
Proof.
  intros HW HH Hc Hi.
  assert (Hcases : count = 1 \/ count = 2 \/ count = 3 \/ count = 4
                   \/ count = 5 \/ count = 6) by lia.
  assert (Hicases : i = 0 \/ i = 1 \/ i = 2 \/ i = 3 \/ i = 4 \/ i = 5) by lia.
  unfold well_placed.
  destruct t; destruct Hcases as [->|[->|[->|[->|[->| ->]]]]];
    destruct Hicases as [->|[->|[->|[->|[->| ->]]]]]; try lia;
    cbn [window_geometry DEFAULT_LAYOUTS cfg_type gap_size master_ratio
         set_geometry pos_x pos_y pos_width pos_height Z.eqb Pos.eqb];
    u32_lia.
Qed.

Lemma well_placedb_spec W H p : well_placedb W H p = true <-> well_placed W H p.
Proof.
  unfold well_placedb, well_placed.
  rewrite !andb_true_iff, !Z.ltb_lt, !Z.leb_le. tauto.
Qed.

(** ** Claim C1: the rectangles lie on the screen *)

(** C1, as amended.  On every screen from 34 to 71582788 pixels wide and
    at least 62 pixels high, for every window count from 1 to 6 and each of
    the five compiled-in layouts, [compute_window_positions] stores
    exactly [count] rectangles (the array keeps its length and its entries
    from [count] on), each of positive width and height, each within
    [0, g_fb_width) horizontally and [TOP_BAR_HEIGHT, g_fb_height)
    vertically. *)
Theorem compute_window_positions_well_placed
    (W H : Z) (stack : list window_position_t) (count : Z) (t : layout_type_t) :
  34 <= W <= 71582788 ->
  62 <= H -> is_u32 H ->
  1 <= count <= MAX_WINDOWS_PER_WORKSPACE ->
  length stack = 6%nat ->
  let ps := compute_window_positions W H stack count (DEFAULT_LAYOUTS t) in
  length ps = 6%nat
  /\ all_well_placed W H count ps
  /\ (forall j : nat, count <= Z.of_nat j -> ps !! j = stack !! j).
Proof.
  intros HW HH1 HH2 Hcount Hlen ps. subst ps.
  unfold MAX_WINDOWS_PER_WORKSPACE in Hcount.
  split; [|split].
  - now rewrite compute_window_positions_length.
  - intros i Hi.
    rewrite compute_window_positions_lookup by lia.
    rewrite bool_decide_eq_true_2 by lia.
    destruct (lookup_lt_is_Some_2 stack (Z.to_nat i)) as [p0 Hp0]; [lia|].
    rewrite Hp0. cbn [fmap option_fmap option_map].
    eexists; split; [reflexivity|].
    rewrite Z2Nat.id by lia.
    apply window_geometry_well_placed; unfold is_u32, u32_modulus in HH2; lia.
  - intros j Hj.
    rewrite compute_window_positions_lookup by lia.
    now rewrite bool_decide_eq_false_2 by lia.
Qed.

(** C1, as the specification states it, fails on a small screen: on a
    framebuffer 32 pixels wide, six windows in the Horizontal layout get
    rectangles of width 0. *)
Lemma compute_window_positions_narrow_screen :
  ~ all_well_placed 32 480 6
      (compute_window_positions 32 480 (replicate 6 inhabitant) 6
         (DEFAULT_LAYOUTS LAYOUT_HORIZONTAL)).
Proof.
  intros Hall. destruct (Hall 0) as (p & Hp & Hwp); [lia|].
  vm_compute in Hp. injection Hp as <-.
  destruct Hwp as [Hw _]. cbn in Hw. lia.
Qed.

Lemma compute_window_positions_nth W H stack count config (i : Z) :
  0 < count -> 0 <= i < count ->
  (Z.to_nat i < length stack)%nat ->
  exists p0,
    stack !! Z.to_nat i = Some p0
    /\ compute_window_positions W H stack count config !! Z.to_nat i
       = Some (window_geometry W H count config i p0).
Proof.
  intros Hcount Hi Hlen.
  destruct (lookup_lt_is_Some_2 stack (Z.to_nat i) Hlen) as [p0 Hp0].
  exists p0. split; [exact Hp0|].
  rewrite compute_window_positions_lookup by lia.
  rewrite bool_decide_eq_true_2 by lia.
  rewrite Hp0, Z2Nat.id by lia. reflexivity.
Qed.

(** ** Claim C3: Master-Stack *)

(** C3, as amended.  In the Master-Stack layout, where no operation of
    the program's unsigned 32-bit arithmetic wraps (the gap and the ratio
    are not negative, [g_fb_width * ratio] is below [2^32], the master
    width [g_fb_width * ratio / 100 - 2 * gap] and the stack width are
    not negative, and the screen is high enough for the top bar and two
    gaps), as equations between integers: with one window the rectangle
    is x = gap, y = TOP_BAR_HEIGHT + gap, width = g_fb_width - 2*gap,
    height = usable_height - gap; with 2 to 6 windows the master width is
    g_fb_width*ratio/100 - 2*gap, and master width + stack width + 3*gap
    is g_fb_width, for every stack window. *)
Theorem master_stack_geometry
    (W H : Z) (stack : list window_position_t) (count : Z)
    (config : layout_config_t) :
  cfg_type config = LAYOUT_MASTER_STACK ->
  length stack = 6%nat ->
  1 <= count <= MAX_WINDOWS_PER_WORKSPACE ->
  let gap := gap_size config in
  let ratio := master_ratio config in
  is_u32 W -> is_u32 H ->
  0 <= gap -> 0 <= ratio ->
  W * ratio < u32_modulus ->
  2 * gap <= W * ratio / 100 ->
  W * ratio / 100 + gap <= W ->
  TOP_BAR_HEIGHT + 2 * gap <= H ->
  let usable_height := H - TOP_BAR_HEIGHT - gap in
  let ps := compute_window_positions W H stack count config in
  exists m,
    ps !! 0%nat = Some m
    /\ (count = 1 ->
        pos_x m = gap
        /\ pos_y m = TOP_BAR_HEIGHT + gap
        /\ pos_width m = W - 2 * gap
        /\ pos_height m = usable_height - gap)
    /\ (2 <= count ->
        pos_width m = W * ratio / 100 - 2 * gap
        /\ forall i, 1 <= i < count ->
             exists p,
               ps !! Z.to_nat i = Some p
               /\ pos_width m + pos_width p + 3 * gap = W).
Proof.
  intros Hty Hlen Hcount gap ratio HW HH Hgap Hratio Hnowrap Hlo Hhi Hhigh
    usable_height ps.
  unfold MAX_WINDOWS_PER_WORKSPACE in Hcount.
  unfold is_u32 in HW, HH.
  assert (Hq : 0 <= W * ratio / 100 <= W * ratio).
  { split; [apply Z.div_pos; lia|]. apply Z.div_le_upper_bound; lia. }
  assert (Hmaster : sub32 (div32 (mul32 W ratio) 100) (mul32 gap 2)
                    = W * ratio / 100 - 2 * gap).
  { unfold sub32, div32, mul32.
    rewrite (u32_small (W * ratio)) by (unfold is_u32; lia).
    rewrite (u32_small (gap * 2)) by (unfold is_u32; lia).
    rewrite u32_small by (unfold is_u32; lia). lia. }
  destruct (compute_window_positions_nth W H stack count config 0)
    as (m0 & _ & Hm); [lia | lia | rewrite Hlen; simpl; lia |].
  change (Z.to_nat 0) with 0%nat in Hm.
  exists (window_geometry W H count config 0 m0).
  split; [exact Hm|]. split.
  - intros ->. unfold window_geometry. rewrite Hty. cbn.
    fold gap. subst usable_height. unfold TOP_BAR_HEIGHT in *.
    split; [reflexivity|].
    unfold add32, sub32, mul32.
    rewrite (u32_small (gap * 2)) by (unfold is_u32; lia).
    rewrite (u32_small (H - 24)) by (unfold is_u32; lia).
    rewrite (u32_small (H - 24 - gap)) by (unfold is_u32; lia).
    rewrite !u32_small by (unfold is_u32; lia).
    repeat split; lia.
  - intros H2. unfold window_geometry at 1. rewrite Hty.
    rewrite (proj2 (Z.eqb_neq count 1)) by lia. cbn.
    fold gap ratio. split; [exact Hmaster|].
    intros i Hi.
    destruct (compute_window_positions_nth W H stack count config i)
      as (p0 & _ & Hp); [lia | lia | rewrite Hlen; lia |].
    exists (window_geometry W H count config i p0).
    split; [exact Hp|].
    unfold window_geometry. rewrite Hty.
    rewrite (proj2 (Z.eqb_neq count 1)) by lia.
    rewrite (proj2 (Z.eqb_neq i 0)) by lia. cbn.
    fold gap ratio. rewrite Hmaster.
    unfold sub32, mul32.
    rewrite (u32_small (gap * 3)) by (unfold is_u32; lia).
    rewrite (u32_small (W - _)) by (unfold is_u32; lia).
    rewrite u32_small by (unfold is_u32; lia).
    lia.
Qed.

(** C3, as the specification states it, fails on a narrow screen: on a
    framebuffer 10 pixels wide, with the compiled-in gap 4 and ratio 60,
    [10 * 60 / 100 - 2 * 4] is negative and the master width wraps to
    [2^32 - 2]; the stack width is 0, and master width + stack width +
    3 * gap is [2^32 + 10], not 10. *)
Lemma master_stack_narrow_screen :
  exists m p,
    compute_window_positions 10 480 (replicate 6 inhabitant) 2
      (DEFAULT_LAYOUTS LAYOUT_MASTER_STACK) !! 0%nat = Some m
    /\ compute_window_positions 10 480 (replicate 6 inhabitant) 2
         (DEFAULT_LAYOUTS LAYOUT_MASTER_STACK) !! 1%nat = Some p
    /\ pos_width m = 4294967294
    /\ pos_width p = 0
    /\ pos_width m <> 10 * 60 / 100 - 2 * 4
    /\ pos_width m + pos_width p + 3 * 4 <> 10.
Proof.
  eexists _, _.
  split; [vm_compute; reflexivity|]. split; [vm_compute; reflexivity|].
  cbn [pos_width].
  split; [reflexivity|]. split; [reflexivity|].
  split; vm_compute; discriminate.
Qed.

(** In the unsigned 32-bit arithmetic of the program the identities of
    the Master-Stack layout hold on every screen: master width + stack
    width + 3*gap is g_fb_width modulo [2^32]. *)
Lemma master_stack_widths_modulo
    (W H : Z) (stack : list window_position_t) (count : Z)
    (config : layout_config_t) :
  is_u32 W ->
  cfg_type config = LAYOUT_MASTER_STACK ->
  length stack = 6%nat ->
  2 <= count <= MAX_WINDOWS_PER_WORKSPACE ->
  let gap := gap_size config in
  let ratio := master_ratio config in
  let ps := compute_window_positions W H stack count config in
  exists m,
    ps !! 0%nat = Some m
    /\ pos_width m = sub32 (div32 (mul32 W ratio) 100) (mul32 gap 2)
    /\ forall i, 1 <= i < count ->
         exists p,
           ps !! Z.to_nat i = Some p
           /\ add32 (add32 (pos_width m) (pos_width p)) (mul32 gap 3) = W.
Proof.
  intros HW Hty Hlen Hcount gap ratio ps.
  unfold MAX_WINDOWS_PER_WORKSPACE in Hcount.
  destruct (compute_window_positions_nth W H stack count config 0)
    as (m0 & _ & Hm); [lia | lia | rewrite Hlen; simpl; lia |].
  change (Z.to_nat 0) with 0%nat in Hm.
  exists (window_geometry W H count config 0 m0).
  split; [exact Hm|].
  unfold window_geometry at 1. rewrite Hty.
  rewrite (proj2 (Z.eqb_neq count 1)) by lia. cbn.
  split; [reflexivity|].
  intros i Hi.
  destruct (compute_window_positions_nth W H stack count config i)
    as (p0 & _ & Hp); [lia | lia | rewrite Hlen; lia |].
  exists (window_geometry W H count config i p0).
  split; [exact Hp|].
  unfold window_geometry. rewrite Hty.
  rewrite (proj2 (Z.eqb_neq count 1)) by lia.
  rewrite (proj2 (Z.eqb_neq i 0)) by lia. cbn.
  fold gap ratio.
  clear - HW. generalize (W * ratio). intros n.
  unfold_u32. generalize (gap * 2) (gap * 3). intros a b.
  Z.div_mod_to_equations. lia.
Qed.

(** ** Claim C6: Grid *)

(** The grid cell of window [i] where nothing wraps: the compiled-in gap
    on a screen of at least 34 by 62 pixels. *)
Lemma grid_geometry_plain W H count i p :
  34 <= W -> is_u32 W -> 62 <= H -> is_u32 H ->
  1 <= count <= 6 -> 0 <= i < count ->
  let q := window_geometry W H count (DEFAULT_LAYOUTS LAYOUT_GRID) i p in
  let rows := (count + 1) / 2 in
  let cell_width := (W - 12) / 2 in
  let cell_height := (H - 28 - 4 * (rows + 1)) / rows in
  0 < cell_width /\ 0 < cell_height
  /\ pos_x q = 4 + (i mod 2) * (cell_width + 4)
  /\ pos_y q = 28 + (i / 2) * (cell_height + 4).
Proof.
  intros HW1 HW2 HH1 HH2 Hc Hi.
  assert (Hcases : count = 1 \/ count = 2 \/ count = 3 \/ count = 4
                   \/ count = 5 \/ count = 6) by lia.
  assert (Hicases : i = 0 \/ i = 1 \/ i = 2 \/ i = 3 \/ i = 4 \/ i = 5) by lia.
  destruct Hcases as [->|[->|[->|[->|[->| ->]]]]];
    destruct Hicases as [->|[->|[->|[->|[->| ->]]]]]; try lia;
    cbn [window_geometry DEFAULT_LAYOUTS cfg_type gap_size master_ratio
         set_geometry pos_x pos_y pos_width pos_height];
    cbv zeta; u32_lia.
Qed.

(** C6.  The Grid layout has 2 columns and ceil(count/2) rows for every
    count from 1 to 6; window [i] is in column [i mod 2] and row [i / 2],
    and every cell has the size computed from the full number of rows.
    With five windows there are 3 rows and window 4 is the only one in
    row 2.  On a screen of at least 34 by 62 pixels with the compiled-in
    gap, two windows have the same [y] exactly when they are in the same
    row and the same [x] exactly when they are in the same column. *)
Theorem grid_geometry
    (W H : Z) (stack : list window_position_t) (count : Z)
    (config : layout_config_t) :
  cfg_type config = LAYOUT_GRID ->
  length stack = 6%nat ->
  1 <= count <= MAX_WINDOWS_PER_WORKSPACE ->
  let gap := gap_size config in
  let usable_height := sub32 (sub32 H TOP_BAR_HEIGHT) gap in
  let cols := 2 in
  let rows := div32 (add32 count 1) 2 in
  let cell_width := div32 (sub32 W (mul32 gap (add32 cols 1))) cols in
  let cell_height := div32 (sub32 usable_height (mul32 gap (add32 rows 1))) rows in
  let ps := compute_window_positions W H stack count config in
  (2 * (rows - 1) < count <= 2 * rows)
  /\ (forall i, 0 <= i < count ->
        exists p,
          ps !! Z.to_nat i = Some p
          /\ 0 <= i mod 2 < cols /\ 0 <= i / 2 < rows
          /\ pos_x p = add32 gap (mul32 (i mod 2) (add32 cell_width gap))
          /\ pos_y p = add32 (add32 TOP_BAR_HEIGHT gap)
                         (mul32 (i / 2) (add32 cell_height gap))
          /\ pos_width p = cell_width
          /\ pos_height p = cell_height)
  /\ (count = 5 ->
        rows = 3 /\ forall i, 0 <= i < count -> (i / 2 = 2 <-> i = 4))
  /\ (config = DEFAULT_LAYOUTS LAYOUT_GRID ->
      34 <= W -> is_u32 W -> 62 <= H -> is_u32 H ->
      forall i j p q,
        0 <= i < count -> 0 <= j < count ->
        ps !! Z.to_nat i = Some p -> ps !! Z.to_nat j = Some q ->
        (pos_y p = pos_y q <-> i / 2 = j / 2)
        /\ (pos_x p = pos_x q <-> i mod 2 = j mod 2)).
Proof.
  intros Hty Hlen Hcount gap usable_height cols rows cell_width cell_height ps.
  unfold MAX_WINDOWS_PER_WORKSPACE in Hcount.
  assert (Hrows : rows = (count + 1) / 2).
  { subst rows. unfold div32, add32, u32, u32_modulus.
    rewrite Z.mod_small by lia. reflexivity. }
  split; [|split; [|split]].
  - rewrite Hrows. Z.div_mod_to_equations. lia.
  - intros i Hi.
    destruct (compute_window_positions_nth W H stack count config i)
      as (p0 & _ & Hp); [lia | lia | rewrite Hlen; lia |].
    exists (window_geometry W H count config i p0).
    split; [exact Hp|].
    split; [subst cols; Z.div_mod_to_equations; lia|].
    split; [rewrite Hrows; Z.div_mod_to_equations; lia|].
    unfold window_geometry. rewrite Hty. cbn. auto.
  - intros ->. split; [rewrite Hrows; reflexivity|].
    intros i Hi. Z.div_mod_to_equations. lia.
  - intros -> HW1 HW2 HH1 HH2 i j p q Hi Hj Hp Hq.
    destruct (compute_window_positions_nth W H stack count
                (DEFAULT_LAYOUTS LAYOUT_GRID) i)
      as (p0 & _ & Hp'); [lia | lia | rewrite Hlen; lia |].
    destruct (compute_window_positions_nth W H stack count
                (DEFAULT_LAYOUTS LAYOUT_GRID) j)
      as (q0 & _ & Hq'); [lia | lia | rewrite Hlen; lia |].
    fold ps in Hp', Hq'.
    assert (p = window_geometry W H count (DEFAULT_LAYOUTS LAYOUT_GRID) i p0)
      as -> by congruence.
    assert (q = window_geometry W H count (DEFAULT_LAYOUTS LAYOUT_GRID) j q0)
      as -> by congruence.
    destruct (grid_geometry_plain W H count i p0)
      as (Hcw & Hch & Hxi & Hyi); try assumption.
    destruct (grid_geometry_plain W H count j q0)
      as (_ & _ & Hxj & Hyj); try assumption.
    rewrite Hxi, Hyi, Hxj, Hyj. split; split; intros Heq; try (rewrite Heq; reflexivity).
    + assert (Hmul : (i / 2 - j / 2) * ((H - 28 - 4 * ((count + 1) / 2 + 1))
                                          / ((count + 1) / 2) + 4) = 0) by lia.
      apply Z.mul_eq_0 in Hmul. lia.
    + assert (Hmul : (i mod 2 - j mod 2) * ((W - 12) / 2 + 4) = 0) by lia.
      apply Z.mul_eq_0 in Hmul. lia.
Qed.

(** ** The differ leaves the workspace store alone *)

Lemma same_store_refl s : same_store s s.
Proof. repeat split. Qed.

Lemma same_store_trans s1 s2 s3 :
  same_store s1 s2 -> same_store s2 s3 -> same_store s1 s3.
Proof. unfold same_store. intuition congruence. Qed.

Lemma same_store_emit c s : same_store s (emit c s).
Proof. repeat split. Qed.

Lemma for_loop_snoc {S : Type} (body : Z -> S -> S) (n : nat) :
  forall lo s,
    for_loop lo (Datatypes.S n) body s
    = body (lo + Z.of_nat n) (for_loop lo n body s).
Proof.
  induction n as [|n IH]; intros lo s.
  - simpl. now rewrite Z.add_0_r.
  - change (for_loop lo (Datatypes.S (Datatypes.S n)) body s)
      with (for_loop (lo + 1) (Datatypes.S n) body (body lo s)).
    rewrite IH. cbn [for_loop]. f_equal. lia.
Qed.

Lemma erase_previous_same_store s : same_store s (erase_previous s).
Proof.
  unfold erase_previous.
  apply (for_range_invariant (same_store s)); [|apply same_store_refl].
  intros i s' Hs'. eapply same_store_trans; [exact Hs'|apply same_store_emit].
Qed.

Lemma erase_previous_nothing s :
  g_prev_window_count s = 0 -> erase_previous s = s.
Proof. intros Hz. unfold erase_previous. rewrite Hz. reflexivity. Qed.

Lemma draw_all_windows_same_store ws positions s :
  same_store s (snd (draw_all_windows ws positions s)).
Proof.
  unfold draw_all_windows.
  apply (for_range_invariant (fun ps => same_store s (snd ps)));
    [|apply same_store_refl].
  intros i [ps s'] Hs'. exact Hs'.
Qed.

Lemma same_store_set_snapshot s s' c l f :
  same_store s s' ->
  same_store s
    (set_g_prev_focused f (set_g_prev_layout l (set_g_prev_window_count c s'))).
Proof. intros Hs. exact Hs. Qed.

Lemma redraw_incremental_same_store stack s :
  same_store s (redraw_incremental stack s).
Proof.
  unfold redraw_incremental.
  destruct (negb _ || negb _).
  - apply same_store_set_snapshot.
    apply (same_store_trans _ _ _ (erase_previous_same_store s)).
    destruct (window_count (active_workspace s) =? 0).
    + apply same_store_emit.
    + apply draw_all_windows_same_store.
  - destruct (negb _); repeat split.
Qed.

Lemma redraw_incremental_active stack s :
  active_workspace (redraw_incremental stack s) = active_workspace s.
Proof.
  destruct (redraw_incremental_same_store stack s) as (Hw & Ha & _).
  unfold active_workspace. now rewrite Hw, Ha.
Qed.

(** ** The structural repaint, call by call *)

(** The state [draw_all_windows] reaches after [n] rounds. *)
Lemma draw_all_windows_rounds ws positions s (n : nat) :
  (n <= length positions)%nat ->
  let r :=
    for_loop 0 n (fun i '(positions, s) =>
      let positions :=
        alter (set_pos_pid (win_pid (windows ws !!! Z.to_nat i)))
          (Z.to_nat i) positions in
      let s :=
        emit (Call_draw_window_frame (positions !!! Z.to_nat i)
                (border_size (layout ws)) (border_color (layout ws))
                (if i =? focused_window_index ws then 1 else 0)) s in
      let s :=
        set_g_prev_positions
          (<[Z.to_nat i := positions !!! Z.to_nat i]> (g_prev_positions s)) s in
      (positions, s)) (positions, s) in
  length (fst r) = length positions
  /\ (forall j : nat, (n <= j)%nat -> fst r !! j = positions !! j)
  /\ draw_log (snd r)
     = draw_log s
       ++ ((fun k : nat => window_frame_call ws positions (Z.of_nat k))
             <$> seq 0 n)
  /\ g_prev_window_count (snd r) = g_prev_window_count s
  /\ g_prev_layout (snd r) = g_prev_layout s
  /\ g_prev_focused (snd r) = g_prev_focused s.
Proof.
  induction n as [|n IH]; intros Hn.
  - cbn. rewrite app_nil_r. repeat split; reflexivity.
  - rewrite for_loop_snoc. rewrite Z.add_0_l, Nat2Z.id.
    specialize (IH ltac:(lia)). cbv zeta in IH.
    destruct (for_loop 0 n _ (positions, s)) as [ps s'].
    cbn [fst snd] in IH. destruct IH as (Hlen & Hrest & Hlog & Hc & Hl & Hf).
    cbn [fst snd].
    split; [now rewrite length_alter|].
    split; [intros j Hj; rewrite list_lookup_alter_ne by lia; apply Hrest; lia|].
    split; [|auto].
    cbn [draw_log emit set_g_prev_positions].
    rewrite Hlog, seq_S, fmap_app, app_assoc. cbn [fmap list_fmap].
    f_equal. f_equal. unfold window_frame_call. f_equal.
    rewrite Nat2Z.id.
    rewrite list_lookup_total_alter_eq by lia.
    f_equal.
    apply list_lookup_total_correct.
    rewrite Hrest by lia.
    apply list_lookup_lookup_total_lt. lia.
Qed.

Lemma draw_all_windows_log ws positions s :
  0 <= window_count ws ->
  (Z.to_nat (window_count ws) <= length positions)%nat ->
  let s' := snd (draw_all_windows ws positions s) in
  draw_log s' = draw_log s ++ window_frame_calls ws positions
  /\ g_prev_window_count s' = g_prev_window_count s
  /\ g_prev_layout s' = g_prev_layout s
  /\ g_prev_focused s' = g_prev_focused s.
Proof.
  intros Hc Hlen.
  unfold draw_all_windows, for_range, window_frame_calls.
  rewrite Z.sub_0_r.
  destruct (draw_all_windows_rounds ws positions s
              (Z.to_nat (window_count ws)) Hlen) as (_ & _ & Hlog & Hrest).
  cbv zeta. split; [exact Hlog|exact Hrest].
Qed.

(** ** What a drawing call leaves untouched *)

Lemma for_loop_invariant_in_range {S : Type} (P : S -> Prop)
    (body : Z -> S -> S) (n : nat) :
  forall lo s,
    (forall i s, lo <= i < lo + Z.of_nat n -> P s -> P (body i s)) ->
    P s -> P (for_loop lo n body s).
Proof.
  induction n as [|n IH]; intros lo s Hbody Hs; simpl.
  - exact Hs.
  - apply IH.
    + intros i s' Hi. apply Hbody. lia.
    + apply Hbody; [lia|exact Hs].
Qed.

Lemma for_range_invariant_in_range {S : Type} (P : S -> Prop)
    (body : Z -> S -> S) lo hi s :
  (forall i s, lo <= i < hi -> P s -> P (body i s)) ->
  P s -> P (for_range lo hi body s).
Proof.
  intros Hbody Hs. unfold for_range.
  apply for_loop_invariant_in_range; [|exact Hs].
  intros i s' Hi. apply Hbody. lia.
Qed.

Section PaintFacts.

Variables W H pitch : Z.

Lemma set_pixel_other x y color fb k :
  ~ (x < W /\ y < H /\ k = add32 (mul32 y pitch) x) ->
  set_pixel W H pitch x y color fb k = fb k.
Proof.
  intros Hno. unfold set_pixel, store_pixel.
  destruct (Z.ltb_spec x W); destruct (Z.ltb_spec y H); cbn; try reflexivity.
  destruct (Z.eqb_spec k (add32 (mul32 y pitch) x)); [|reflexivity].
  exfalso. apply Hno. auto.
Qed.

Lemma fill_rect_untouched x y w h color fb k :
  ~ fill_touches W H pitch x y w h k ->
  fill_rect W H pitch x y w h color fb k = fb k.
Proof.
  intros Hno. unfold fill_rect.
  apply (for_range_invariant_in_range (fun fb' => fb' k = fb k));
    [|reflexivity].
  intros dy fb1 Hdy Hfb1.
  apply (for_range_invariant_in_range (fun fb' => fb' k = fb k));
    [|exact Hfb1].
  intros dx fb2 Hdx Hfb2.
  rewrite set_pixel_other; [exact Hfb2|].
  intros (Hx & Hy & Hk). apply Hno. exists dx, dy. auto.
Qed.

Lemma paint_call_untouched c fb k :
  ~ call_touches W H pitch c k -> paint_call W H pitch c fb k = fb k.
Proof.
  destruct c as [x y w h color| |p bs bc f]; cbn [paint_call call_touches].
  - apply fill_rect_untouched.
  - intros Hno. unfold draw_empty_desktop_indicator.
    apply (for_range_invariant_in_range (fun fb' => fb' k = fb k));
      [|reflexivity].
    intros i fb1 Hi Hfb1.
    rewrite fill_rect_untouched; [exact Hfb1|].
    intros Ht. apply Hno. exists i. auto.
  - cbv zeta. intros Hno. unfold draw_window_frame.
    rewrite !fill_rect_untouched; tauto.
Qed.

Lemma paint_log_untouched log : forall fb k,
  (forall c, c ∈ log -> ~ call_touches W H pitch c k) ->
  paint_log W H pitch log fb k = fb k.
Proof.
  induction log as [|c log IH]; intros fb k Hno; [reflexivity|].
  change (paint_log W H pitch (c :: log) fb k)
    with (paint_log W H pitch log (paint_call W H pitch c fb) k).
  rewrite IH.
  - apply paint_call_untouched, Hno. left.
  - intros c' Hc'. apply Hno. now right.
Qed.

End PaintFacts.

(** ** Claim C4: a change of focus only *)

(** C4.  When the window count and the layout variant of the active
    workspace equal those of the snapshot and the focus index differs,
    [redraw_incremental] makes exactly two calls into the drawing layer,
    both of [draw_window_frame]: first the rectangle of the old focus
    index with the plain border, then the rectangle of the new focus
    index with the border multiplied by three.  Of the snapshot it writes
    [g_prev_focused] only; no erase fill and no indicator is drawn. *)
Theorem redraw_incremental_focus_only
    (stack : list window_position_t) (s : wm_state) :
  let ws := active_workspace s in
  window_count ws = g_prev_window_count s ->
  cfg_type (layout ws) = g_prev_layout s ->
  focused_window_index ws <> g_prev_focused s ->
  let positions :=
    compute_window_positions (g_fb_width s) (g_fb_height s) stack
      (window_count ws) (layout ws) in
  let bs := border_size (layout ws) in
  let bc := border_color (layout ws) in
  let old_frame :=
    Call_draw_window_frame (positions !!! Z.to_nat (g_prev_focused s)) bs bc 0 in
  let new_frame :=
    Call_draw_window_frame
      (positions !!! Z.to_nat (focused_window_index ws)) bs bc 1 in
  let s' := redraw_incremental stack s in
  draw_log s' = draw_log s ++ [old_frame; new_frame]
  /\ frame_border bs 0 = bs
  /\ frame_border bs 1 = mul32 bs FOCUSED_BORDER_MULTIPLIER
  /\ g_prev_focused s' = focused_window_index ws
  /\ g_prev_positions s' = g_prev_positions s
  /\ g_prev_window_count s' = g_prev_window_count s
  /\ g_prev_layout s' = g_prev_layout s
  /\ same_store s s'.
Proof.
  intros ws Hcount Hlayout Hfocus positions bs bc old_frame new_frame s'.
  subst s'. unfold redraw_incremental. fold ws.
  rewrite (proj2 (Z.eqb_eq _ _) Hcount).
  unfold layout_type_eqb. rewrite Hlayout, Z.eqb_refl.
  rewrite (proj2 (Z.eqb_neq _ _) Hfocus).
  cbn [negb orb]. fold positions bs bc old_frame new_frame.
  cbn [draw_log g_prev_focused g_prev_positions g_prev_window_count
       g_prev_layout set_g_prev_focused emit].
  rewrite <- app_assoc.
  repeat split; reflexivity.
Qed.

(** ** Claim C8: adding at capacity *)

(** C8.  With six windows in the active workspace,
    [add_window_to_current_workspace] returns the state it was given:
    workspace, snapshot and the log of drawing calls are unchanged,
    whatever the snapshot holds. *)
Theorem add_window_at_capacity
    (stack : list window_position_t) (title : string) (s : wm_state) :
  window_count (active_workspace s) = MAX_WINDOWS_PER_WORKSPACE ->
  add_window_to_current_workspace stack title s = s.
Proof.
  intros Hfull. unfold add_window_to_current_workspace.
  rewrite Hfull. reflexivity.
Qed.

(** ** Claim C9: nothing is drawn at start-up *)

(** The state in which [_start] calls [redraw_incremental]. *)
Lemma start_setup_value (fb_width fb_height fb_pitch : Z) :
  start_setup fb_width fb_height fb_pitch
  = mk_wm_state
      (replicate 4
         (mk_workspace (replicate 6 (mk_window EmptyString 0 0)) 0
            (DEFAULT_LAYOUTS LAYOUT_GRID) 0))
      0 fb_width fb_height fb_pitch
      (replicate 6 (mk_window_position 0 0 0 0 0))
      0 LAYOUT_GRID 0
      [Call_fill_rect 0 0 0 0 COLOR_BAR_BG].
Proof. vm_compute. reflexivity. Qed.

(** C9.  After [_start] has initialised the workspaces and the snapshot,
    every workspace is empty with the Grid layout and focus 0, the
    snapshot holds count 0, Grid, focus 0, and the call of
    [redraw_incremental] returns the state unchanged: it makes no call
    into the drawing layer, so no indicator is drawn.  The only call
    [_start] has made is the [clear_screen] of a 0 by 0 area. *)
Theorem start_draws_nothing
    (stack : list window_position_t) (fb_width fb_height fb_pitch : Z) :
  let s := start_setup fb_width fb_height fb_pitch in
  Forall (fun ws =>
            window_count ws = 0
            /\ layout ws = DEFAULT_LAYOUTS LAYOUT_GRID
            /\ focused_window_index ws = 0) (g_workspaces s)
  /\ length (g_workspaces s) = 4%nat
  /\ g_prev_window_count s = 0
  /\ g_prev_layout s = LAYOUT_GRID
  /\ g_prev_focused s = 0
  /\ redraw_incremental stack s = s
  /\ draw_log (_start stack fb_width fb_height fb_pitch)
     = [Call_fill_rect 0 0 0 0 COLOR_BAR_BG]
  /\ forall fb : framebuffer,
       paint_log fb_width fb_height fb_pitch
         (draw_log (_start stack fb_width fb_height fb_pitch)) fb = fb.
Proof.
  cbv zeta. unfold _start. rewrite start_setup_value.
  split; [repeat constructor|].
  do 4 (split; [vm_compute; reflexivity|]).
  split; [vm_compute; reflexivity|].
  split; [vm_compute; reflexivity|].
  intros fb. vm_compute. reflexivity.
Qed.

(** ** Claim C10: from an empty workspace to a non-empty one *)

Lemma filter_none {A : Type} (P : A -> Prop) `{forall x, Decision (P x)}
    (l : list A) :
  Forall (fun x => ~ P x) l -> filter P l = [].
Proof.
  induction 1 as [|x l Hx Hl IH]; [reflexivity|].
  rewrite filter_cons_False by exact Hx. exact IH.
Qed.

Lemma window_frame_calls_frames ws positions :
  Forall (fun c => is_window_frame c = true) (window_frame_calls ws positions).
Proof.
  unfold window_frame_calls. apply Forall_fmap, Forall_forall.
  intros n _. reflexivity.
Qed.

(** C10.  When the snapshot holds window count 0 and the active
    workspace has windows, [redraw_incremental] takes the structural
    path, its erase loop makes no call, and the calls it makes are the
    frames of the windows and nothing else.  So a framebuffer cell that
    none of these frames writes keeps its content, whatever was drawn
    there before (the indicator of the empty workspace included). *)
Theorem redraw_incremental_from_empty
    (stack : list window_position_t) (s : wm_state) :
  let ws := active_workspace s in
  g_prev_window_count s = 0 ->
  0 < window_count ws <= MAX_WINDOWS_PER_WORKSPACE ->
  length stack = 6%nat ->
  let positions :=
    compute_window_positions (g_fb_width s) (g_fb_height s) stack
      (window_count ws) (layout ws) in
  let frames := window_frame_calls ws positions in
  let s' := redraw_incremental stack s in
  erase_previous s = s
  /\ draw_log s' = draw_log s ++ frames
  /\ length frames = Z.to_nat (window_count ws)
  /\ filter (fun c => is_erase_fill c = true) frames = []
  /\ filter (fun c => is_empty_indicator c = true) frames = []
  /\ g_prev_window_count s' = window_count ws
  /\ forall (fb : framebuffer) (k : Z),
       (forall c, c ∈ frames ->
          ~ call_touches (g_fb_width s) (g_fb_height s) (g_fb_pitch_pixels s)
              c k) ->
       paint_log (g_fb_width s) (g_fb_height s) (g_fb_pitch_pixels s)
         frames fb k = fb k.
Proof.
  intros ws Hprev Hcount Hlen positions frames s'.
  unfold MAX_WINDOWS_PER_WORKSPACE in Hcount.
  pose proof (erase_previous_nothing s Hprev) as Herase.
  pose proof (window_frame_calls_frames ws positions) as Hframes.
  fold frames in Hframes.
  split; [exact Herase|].
  assert (Hs' : s' = set_g_prev_focused (focused_window_index ws)
                  (set_g_prev_layout (cfg_type (layout ws))
                     (set_g_prev_window_count (window_count ws)
                        (snd (draw_all_windows ws positions s))))).
  { subst s'. unfold redraw_incremental. fold ws.
    rewrite Hprev, (proj2 (Z.eqb_neq _ _)) by lia.
    cbn [negb orb]. rewrite Herase. reflexivity. }
  destruct (draw_all_windows_log ws positions s) as (Hlog & _); [lia| |].
  { subst positions. rewrite compute_window_positions_length, Hlen. lia. }
  split; [rewrite Hs'; exact Hlog|].
  split; [unfold frames, window_frame_calls;
          now rewrite length_fmap, length_seq|].
  split.
  { apply filter_none. eapply Forall_impl; [exact Hframes|].
    intros [] Hc; cbn in *; congruence. }
  split.
  { apply filter_none. eapply Forall_impl; [exact Hframes|].
    intros [] Hc; cbn in *; congruence. }
  split; [rewrite Hs'; reflexivity|].
  intros fb k Hno. now apply paint_log_untouched.
Qed.

(** ** Workspace store *)

Lemma active_workspace_set ws s :
  active_in_range s -> active_workspace (set_active_workspace ws s) = ws.
Proof.
  intros [_ Hlt]. unfold active_workspace, set_active_workspace.
  cbn [g_workspaces g_active_workspace set_g_workspaces].
  now apply list_lookup_total_insert_eq.
Qed.

Lemma set_active_workspace_out_of_range ws s :
  (length (g_workspaces s) <= Z.to_nat (g_active_workspace s))%nat ->
  set_active_workspace ws s = s.
Proof.
  intros Hge. unfold set_active_workspace.
  rewrite list_insert_ge by exact Hge. now destruct s.
Qed.

Lemma active_workspace_out_of_range s :
  (length (g_workspaces s) <= Z.to_nat (g_active_workspace s))%nat ->
  active_workspace s = inhabitant.
Proof.
  intros Hge. unfold active_workspace.
  rewrite list_lookup_total_alt, lookup_ge_None_2 by exact Hge. reflexivity.
Qed.

Lemma ws_inv_inhabitant : ws_inv (inhabitant : workspace_t).
Proof. unfold ws_inv, MAX_WINDOWS_PER_WORKSPACE. cbn. lia. Qed.

(** The active workspace after a write: the value written, or, when
    [g_active_workspace] designates no workspace, the value before. *)
Lemma active_workspace_set_cases ws s :
  active_workspace (set_active_workspace ws s) = ws
  \/ active_workspace (set_active_workspace ws s) = active_workspace s.
Proof.
  destruct (decide (Z.to_nat (g_active_workspace s) < length (g_workspaces s))%nat)
    as [Hlt|Hge].
  - left. unfold active_workspace, set_active_workspace.
    cbn [g_workspaces g_active_workspace set_g_workspaces].
    now apply list_lookup_total_insert_eq.
  - right. rewrite set_active_workspace_out_of_range by lia. reflexivity.
Qed.

Lemma wm_inv_set_active ws s :
  ws_inv ws -> wm_inv s -> wm_inv (set_active_workspace ws s).
Proof.
  intros Hws Hs. unfold wm_inv, set_active_workspace.
  cbn [g_workspaces set_g_workspaces].
  now apply Forall_insert.
Qed.

Lemma wm_inv_active s : wm_inv s -> ws_inv (active_workspace s).
Proof.
  intros Hs. unfold active_workspace.
  destruct (decide (Z.to_nat (g_active_workspace s) < length (g_workspaces s))%nat)
    as [Hlt|Hge].
  - eapply Forall_lookup_1; [exact Hs|].
    apply list_lookup_lookup_total_lt, Hlt.
  - rewrite list_lookup_total_alt, lookup_ge_None_2 by lia.
    apply ws_inv_inhabitant.
Qed.

Lemma wm_inv_redraw stack s : wm_inv s -> wm_inv (redraw_incremental stack s).
Proof.
  unfold wm_inv.
  destruct (redraw_incremental_same_store stack s) as (-> & _). auto.
Qed.

Lemma add_window_unfold stack title s :
  add_window_to_current_workspace stack title s
  = if MAX_WINDOWS_PER_WORKSPACE <=? window_count (active_workspace s) then s
    else redraw_incremental stack
           (set_active_workspace (added_workspace title (active_workspace s)) s).
Proof. reflexivity. Qed.

Lemma close_current_window_unfold stack s :
  close_current_window stack s
  = if window_count (active_workspace s) =? 0 then s
    else redraw_incremental stack
           (set_active_workspace (closed_workspace (active_workspace s)) s).
Proof.
  unfold close_current_window, closed_workspace.
  destruct (window_count (active_workspace s) =? 0); [reflexivity|].
  cbn [window_count set_window_count set_windows].
  destruct (sub32 (window_count (active_workspace s)) 1 =? 0); [reflexivity|].
  destruct (sub32 (window_count (active_workspace s)) 1
            <=? focused_window_index (active_workspace s)); reflexivity.
Qed.

Lemma cycle_focus_unfold stack direction s :
  cycle_focus stack direction s
  = if window_count (active_workspace s) =? 0 then s
    else redraw_incremental stack
           (set_active_workspace
              (refocused_workspace direction (active_workspace s)) s).
Proof.
  unfold cycle_focus, refocused_workspace.
  destruct (window_count (active_workspace s) =? 0); [reflexivity|].
  destruct (0 <? direction); reflexivity.
Qed.

Lemma cycle_layout_unfold stack s :
  cycle_layout stack s
  = redraw_incremental stack
      (set_active_workspace (relaid_workspace (active_workspace s)) s).
Proof. reflexivity. Qed.

Lemma ws_inv_added title ws :
  ws_inv ws -> window_count ws < MAX_WINDOWS_PER_WORKSPACE ->
  ws_inv (added_workspace title ws).
Proof.
  unfold ws_inv, added_workspace, MAX_WINDOWS_PER_WORKSPACE.
  cbn [window_count focused_window_index set_focused_window_index
       set_window_count set_windows].
  intros [Hc _] Hlt. u32_lia.
Qed.

Lemma ws_inv_closed ws :
  ws_inv ws -> window_count ws <> 0 -> ws_inv (closed_workspace ws).
Proof.
  unfold ws_inv, closed_workspace, MAX_WINDOWS_PER_WORKSPACE.
  cbn [window_count focused_window_index].
  intros [Hc Hf] Hne. specialize (Hf ltac:(lia)).
  assert (Hsub : sub32 (window_count ws) 1 = window_count ws - 1).
  { unfold sub32. apply u32_small. unfold is_u32, u32_modulus. lia. }
  rewrite Hsub.
  destruct (Z.eqb_spec (window_count ws - 1) 0); [lia|].
  destruct (Z.leb_spec (window_count ws - 1) (focused_window_index ws)).
  - unfold sub32. rewrite u32_small by (unfold is_u32, u32_modulus; lia). lia.
  - lia.
Qed.

Lemma ws_inv_refocused direction ws :
  ws_inv ws -> window_count ws <> 0 -> ws_inv (refocused_workspace direction ws).
Proof.
  unfold ws_inv, refocused_workspace, MAX_WINDOWS_PER_WORKSPACE.
  cbn [window_count focused_window_index set_focused_window_index].
  intros [Hc Hf] Hne. split; [exact Hc|]. intros _.
  unfold mod32. destruct (0 <? direction); apply Z.mod_pos_bound; lia.
Qed.

Lemma ws_inv_relaid ws : ws_inv ws -> ws_inv (relaid_workspace ws).
Proof. intros Hws. exact Hws. Qed.

(** ** Claim C2: the workspace invariant *)

(** C2.  The invariant (window_count <= 6, and focused_window_index <
    window_count whenever window_count > 0) holds of every workspace when
    [_start] has run, and each of [add_window_to_current_workspace],
    [close_current_window], [cycle_focus] and [cycle_layout] preserves it:
    of the active workspace, from any state whose active workspace
    satisfies it, and of the whole store. *)
Theorem workspace_invariant
    (stack : list window_position_t) (title : string) (direction : Z)
    (fb_width fb_height fb_pitch : Z) :
  wm_inv (_start stack fb_width fb_height fb_pitch)
  /\ (forall s : wm_state,
        ws_inv (active_workspace s) ->
        ws_inv (active_workspace
                  (add_window_to_current_workspace stack title s))
        /\ ws_inv (active_workspace (close_current_window stack s))
        /\ ws_inv (active_workspace (cycle_focus stack direction s))
        /\ ws_inv (active_workspace (cycle_layout stack s)))
  /\ (forall s : wm_state,
        wm_inv s ->
        wm_inv (add_window_to_current_workspace stack title s)
        /\ wm_inv (close_current_window stack s)
        /\ wm_inv (cycle_focus stack direction s)
        /\ wm_inv (cycle_layout stack s)).
Proof.
  split; [|split].
  - unfold wm_inv.
    set (l := g_workspaces _). vm_compute in l. subst l.
    repeat (constructor;
            [unfold ws_inv, MAX_WINDOWS_PER_WORKSPACE; cbn; lia|]).
    constructor.
  - intros s Hs.
    assert (Hset : forall ws, ws_inv ws ->
              ws_inv (active_workspace (set_active_workspace ws s))).
    { intros ws Hws.
      destruct (active_workspace_set_cases ws s) as [-> | ->]; assumption. }
    rewrite add_window_unfold, close_current_window_unfold,
      cycle_focus_unfold, cycle_layout_unfold.
    split; [|split; [|split]].
    + destruct (Z.leb_spec MAX_WINDOWS_PER_WORKSPACE
                  (window_count (active_workspace s))); [exact Hs|].
      rewrite redraw_incremental_active.
      apply Hset, ws_inv_added; assumption.
    + destruct (Z.eqb_spec (window_count (active_workspace s)) 0); [exact Hs|].
      rewrite redraw_incremental_active.
      apply Hset, ws_inv_closed; assumption.
    + destruct (Z.eqb_spec (window_count (active_workspace s)) 0); [exact Hs|].
      rewrite redraw_incremental_active.
      apply Hset, ws_inv_refocused; assumption.
    + rewrite redraw_incremental_active.
      apply Hset, ws_inv_relaid; assumption.
  - intros s Hs. pose proof (wm_inv_active s Hs) as Ha.
    rewrite add_window_unfold, close_current_window_unfold,
      cycle_focus_unfold, cycle_layout_unfold.
    split; [|split; [|split]].
    + destruct (Z.leb_spec MAX_WINDOWS_PER_WORKSPACE
                  (window_count (active_workspace s))); [exact Hs|].
      apply wm_inv_redraw, wm_inv_set_active; [|exact Hs].
      apply ws_inv_added; assumption.
    + destruct (Z.eqb_spec (window_count (active_workspace s)) 0); [exact Hs|].
      apply wm_inv_redraw, wm_inv_set_active; [|exact Hs].
      apply ws_inv_closed; assumption.
    + destruct (Z.eqb_spec (window_count (active_workspace s)) 0); [exact Hs|].
      apply wm_inv_redraw, wm_inv_set_active; [|exact Hs].
      apply ws_inv_refocused; assumption.
    + apply wm_inv_redraw, wm_inv_set_active; [|exact Hs].
      apply ws_inv_relaid; assumption.
Qed.

(** ** Claim C5: closing the focused window *)

(** The loop [windows[i] = windows[i + 1]]: each round reads an element
    that no earlier round has written. *)
Lemma for_loop_shift_lookup {A : Type} `{!Inhabited A} (n : nat) :
  forall (lo : Z) (l : list A) (j : nat),
    0 <= lo ->
    lo + Z.of_nat n < Z.of_nat (length l) ->
    Z.of_nat (length l) < u32_modulus ->
    for_loop lo n
      (fun i l => <[Z.to_nat i := l !!! Z.to_nat (add32 i 1)]> l) l !! j
    = if bool_decide (lo <= Z.of_nat j < lo + Z.of_nat n)
      then l !! S j
      else l !! j.
Proof.
  induction n as [|n IH]; intros lo l j Hlo Hhi Hlen.
  - simpl. now rewrite bool_decide_eq_false_2 by lia.
  - cbn [for_loop]. rewrite IH; rewrite ?length_insert; try lia.
    assert (Hnext : Z.to_nat (add32 lo 1) = S (Z.to_nat lo)).
    { unfold add32. rewrite u32_small by (unfold is_u32; lia). lia. }
    rewrite Hnext.
    destruct (decide (Z.to_nat lo = j)) as [<-|Hne].
    + rewrite bool_decide_eq_false_2 by lia.
      rewrite bool_decide_eq_true_2 by lia.
      rewrite list_lookup_insert_eq by lia.
      symmetry. apply list_lookup_lookup_total_lt. lia.
    + destruct (bool_decide_reflect (lo + 1 <= Z.of_nat j < lo + 1 + Z.of_nat n)).
      * rewrite bool_decide_eq_true_2 by lia.
        now rewrite list_lookup_insert_ne by lia.
      * rewrite bool_decide_eq_false_2 by lia.
        now rewrite list_lookup_insert_ne by exact Hne.
Qed.

Lemma shift_windows_left_lookup focused count (wins : list window_t) (j : nat) :
  0 <= focused < count ->
  count <= Z.of_nat (length wins) ->
  Z.of_nat (length wins) < u32_modulus ->
  shift_windows_left focused count wins !! j
  = if bool_decide (focused <= Z.of_nat j < count - 1)
    then wins !! S j
    else wins !! j.
Proof.
  intros Hf Hc Hlen. unfold shift_windows_left, for_range.
  assert (Hsub : sub32 count 1 = count - 1).
  { unfold sub32. apply u32_small. unfold is_u32. lia. }
  rewrite Hsub, for_loop_shift_lookup by lia.
  destruct (bool_decide_reflect (focused <= Z.of_nat j < count - 1)).
  - now rewrite bool_decide_eq_true_2 by lia.
  - now rewrite bool_decide_eq_false_2 by lia.
Qed.

Lemma shift_windows_left_length focused count (wins : list window_t) :
  length (shift_windows_left focused count wins) = length wins.
Proof.
  unfold shift_windows_left.
  apply (for_range_invariant (fun l => length l = length wins)); [|reflexivity].
  intros i l Hl. now rewrite length_insert.
Qed.

(** C5.  On a non-empty workspace that satisfies the invariant,
    [close_current_window] moves every window after the focused one a
    slot to the left, so that the first [count - 1] slots are the old
    ones with the focused slot deleted, in the same order; the count
    goes down by one; the focus index becomes 0 when no window is left,
    the new last index when the old index is not below the new
    count, and stays otherwise.  With 3 windows and focus 1, the old
    windows 0 and 2 end at indices 0 and 1. *)
Theorem close_current_window_compacts
    (stack : list window_position_t) (s : wm_state) :
  let ws := active_workspace s in
  let ws' := active_workspace (close_current_window stack s) in
  let count := window_count ws in
  let focus := focused_window_index ws in
  active_in_range s ->
  ws_inv ws ->
  0 < count ->
  length (windows ws) = 6%nat ->
  window_count ws' = count - 1
  /\ (forall i, 0 <= i < focus ->
        windows ws' !! Z.to_nat i = windows ws !! Z.to_nat i)
  /\ (forall i, focus <= i < count - 1 ->
        windows ws' !! Z.to_nat i = windows ws !! Z.to_nat (i + 1))
  /\ take (Z.to_nat (count - 1)) (windows ws')
     = delete (Z.to_nat focus) (take (Z.to_nat count) (windows ws))
  /\ focused_window_index ws'
     = (if count - 1 =? 0 then 0
        else if count - 1 <=? focus then count - 2
        else focus)
  /\ layout ws' = layout ws
  /\ (count = 3 -> focus = 1 ->
      window_count ws' = 2
      /\ focused_window_index ws' = 1
      /\ windows ws' !! 0%nat = windows ws !! 0%nat
      /\ windows ws' !! 1%nat = windows ws !! 2%nat).
Proof.
  intros ws ws' count focus Hrange [Hc Hf] Hpos Hlen.
  fold count in Hc, Hf. fold focus in Hf.
  unfold MAX_WINDOWS_PER_WORKSPACE in Hc. specialize (Hf Hpos).
  assert (Hws' : ws' = closed_workspace ws).
  { subst ws'. rewrite close_current_window_unfold. fold ws count.
    rewrite (proj2 (Z.eqb_neq count 0)) by lia.
    rewrite redraw_incremental_active. now apply active_workspace_set. }
  assert (Hsub : sub32 count 1 = count - 1).
  { unfold sub32. apply u32_small. unfold is_u32, u32_modulus. lia. }
  assert (Hlook : forall j : nat,
            windows ws' !! j
            = if bool_decide (focus <= Z.of_nat j < count - 1)
              then windows ws !! S j else windows ws !! j).
  { intros j. rewrite Hws'. unfold closed_workspace. cbn [windows].
    apply shift_windows_left_lookup; fold count focus;
      rewrite ?Hlen; unfold u32_modulus; lia. }
  assert (Hcount' : window_count ws' = count - 1).
  { rewrite Hws'. unfold closed_workspace. cbn [window_count].
    fold count. exact Hsub. }
  assert (Hfocus' : focused_window_index ws'
                    = (if count - 1 =? 0 then 0
                       else if count - 1 <=? focus then count - 2
                       else focus)).
  { rewrite Hws'. unfold closed_workspace. cbn [focused_window_index].
    fold count focus. rewrite Hsub.
    destruct (Z.eqb_spec (count - 1) 0); [reflexivity|].
    destruct (count - 1 <=? focus); [|reflexivity].
    unfold sub32. rewrite u32_small by (unfold is_u32, u32_modulus; lia). lia. }
  assert (Hlow : forall i, 0 <= i < focus ->
            windows ws' !! Z.to_nat i = windows ws !! Z.to_nat i).
  { intros i Hi. rewrite Hlook. now rewrite bool_decide_eq_false_2 by lia. }
  assert (Hhigh : forall i, focus <= i < count - 1 ->
            windows ws' !! Z.to_nat i = windows ws !! Z.to_nat (i + 1)).
  { intros i Hi. rewrite Hlook. rewrite bool_decide_eq_true_2 by lia.
    f_equal. lia. }
  split; [exact Hcount'|]. split; [exact Hlow|]. split; [exact Hhigh|].
  split.
  { apply list_eq. intros j.
    destruct (decide (j < Z.to_nat (count - 1))%nat) as [Hj|Hj].
    - rewrite lookup_take_lt by exact Hj. rewrite Hlook.
      destruct (decide (j < Z.to_nat focus)%nat) as [Hjf|Hjf].
      + rewrite bool_decide_eq_false_2 by lia.
        rewrite list_lookup_delete_lt by exact Hjf.
        now rewrite lookup_take_lt by lia.
      + rewrite bool_decide_eq_true_2 by lia.
        rewrite list_lookup_delete_ge by lia.
        now rewrite lookup_take_lt by lia.
    - rewrite lookup_take_ge by lia. symmetry.
      apply lookup_ge_None_2.
      rewrite length_delete.
      + rewrite length_take. lia.
      + apply lookup_lt_is_Some_2. rewrite length_take. lia. }
  split; [exact Hfocus'|].
  split; [rewrite Hws'; reflexivity|].
  intros H3 H1. rewrite Hcount', Hfocus', H3, H1. cbn.
  split; [reflexivity|]. split; [reflexivity|]. split.
  - apply (Hlow 0). lia.
  - apply (Hhigh 1). lia.
Qed.

(** ** Claim C7: cycling the layout *)

Lemma layout_successor t :
  layout_of_index (mod32 (add32 (layout_index t) 1) LAYOUT_COUNT)
  = next_layout_in_order t.
Proof. destruct t; reflexivity. Qed.

Lemma cycle_layout_active stack s :
  active_in_range s ->
  active_workspace (cycle_layout stack s)
  = set_layout
      (DEFAULT_LAYOUTS (next_layout_in_order (cfg_type (layout (active_workspace s)))))
      (active_workspace s).
Proof.
  intros Hrange. rewrite cycle_layout_unfold, redraw_incremental_active.
  rewrite active_workspace_set by exact Hrange.
  unfold relaid_workspace. now rewrite layout_successor.
Qed.

Lemma cycle_layout_in_range stack s :
  active_in_range s -> active_in_range (cycle_layout stack s).
Proof.
  unfold active_in_range. rewrite cycle_layout_unfold.
  destruct (redraw_incremental_same_store stack
              (set_active_workspace (relaid_workspace (active_workspace s)) s))
    as (-> & -> & _).
  unfold set_active_workspace. cbn [g_workspaces g_active_workspace set_g_workspaces].
  now rewrite length_insert.
Qed.

(** C7.  [cycle_layout] replaces the layout configuration of the active
    workspace by the compiled-in configuration of the variant that
    follows the current one in the order Horizontal, Vertical, Grid,
    Fullscreen, Master-Stack, Horizontal, whatever gap, border and ratio
    the configuration held; windows, count and focus stay.  After five
    calls the configuration is the compiled-in one of the variant the
    workspace started with. *)
Theorem cycle_layout_order
    (k1 k2 k3 k4 k5 : list window_position_t) (s : wm_state) :
  active_in_range s ->
  let ws := active_workspace s in
  let t := cfg_type (layout ws) in
  next_layout_in_order LAYOUT_HORIZONTAL = LAYOUT_VERTICAL
  /\ next_layout_in_order LAYOUT_VERTICAL = LAYOUT_GRID
  /\ next_layout_in_order LAYOUT_GRID = LAYOUT_FULLSCREEN
  /\ next_layout_in_order LAYOUT_FULLSCREEN = LAYOUT_MASTER_STACK
  /\ next_layout_in_order LAYOUT_MASTER_STACK = LAYOUT_HORIZONTAL
  /\ layout (active_workspace (cycle_layout k1 s))
     = DEFAULT_LAYOUTS (next_layout_in_order t)
  /\ cfg_type (layout (active_workspace (cycle_layout k1 s)))
     = next_layout_in_order t
  /\ windows (active_workspace (cycle_layout k1 s)) = windows ws
  /\ window_count (active_workspace (cycle_layout k1 s)) = window_count ws
  /\ focused_window_index (active_workspace (cycle_layout k1 s))
     = focused_window_index ws
  /\ layout (active_workspace
               (cycle_layout k5 (cycle_layout k4 (cycle_layout k3
                  (cycle_layout k2 (cycle_layout k1 s))))))
     = DEFAULT_LAYOUTS t.
Proof.
  intros Hrange ws t.
  do 5 (split; [reflexivity|]).
  pose proof (cycle_layout_in_range k1 s Hrange) as Hr1.
  pose proof (cycle_layout_in_range k2 _ Hr1) as Hr2.
  pose proof (cycle_layout_in_range k3 _ Hr2) as Hr3.
  pose proof (cycle_layout_in_range k4 _ Hr3) as Hr4.
  rewrite (cycle_layout_active k5) by exact Hr4.
  rewrite (cycle_layout_active k4) by exact Hr3.
  rewrite (cycle_layout_active k3) by exact Hr2.
  rewrite (cycle_layout_active k2) by exact Hr1.
  rewrite (cycle_layout_active k1) by exact Hrange.
  fold ws t. cbn [layout set_layout windows window_count focused_window_index].
  split; [reflexivity|].
  split; [destruct t; reflexivity|].
  do 3 (split; [reflexivity|]).
  destruct t; reflexivity.
Qed.

(** ** The theorems at sample inputs *)

Lemma compute_window_positions_well_placed_witness :
  34 <= 640 <= 71582788
  /\ 62 <= 480 /\ is_u32 480
  /\ 1 <= 5 <= MAX_WINDOWS_PER_WORKSPACE
  /\ length sample_stack = 6%nat
  /\ length (compute_window_positions 640 480 sample_stack 5
               (DEFAULT_LAYOUTS LAYOUT_GRID)) = 6%nat
  /\ all_well_placed 640 480 5
       (compute_window_positions 640 480 sample_stack 5
          (DEFAULT_LAYOUTS LAYOUT_GRID)).
Proof.
  assert (H1 : 34 <= 640 <= 71582788) by lia.
  assert (H2 : 62 <= 480) by lia.
  assert (H3 : is_u32 480) by (unfold is_u32, u32_modulus; lia).
  assert (H4 : 1 <= 5 <= MAX_WINDOWS_PER_WORKSPACE)
    by (unfold MAX_WINDOWS_PER_WORKSPACE; lia).
  assert (H5 : length sample_stack = 6%nat) by (vm_compute; reflexivity).
  split; [exact H1|]. split; [exact H2|]. split; [exact H3|].
  split; [exact H4|]. split; [exact H5|].
  destruct (compute_window_positions_well_placed 640 480 sample_stack 5
              LAYOUT_GRID H1 H2 H3 H4 H5) as (Hlen & Hall & _).
  split; [exact Hlen | exact Hall].
Defined.

Lemma master_stack_geometry_witness :
  cfg_type (DEFAULT_LAYOUTS LAYOUT_MASTER_STACK) = LAYOUT_MASTER_STACK
  /\ length sample_stack = 6%nat
  /\ 1 <= 3 <= MAX_WINDOWS_PER_WORKSPACE
  /\ is_u32 640 /\ is_u32 480
  /\ 640 * 60 < u32_modulus
  /\ 2 * 4 <= 640 * 60 / 100
  /\ 640 * 60 / 100 + 4 <= 640
  /\ TOP_BAR_HEIGHT + 2 * 4 <= 480
  /\ exists m p,
       compute_window_positions 640 480 sample_stack 3
         (DEFAULT_LAYOUTS LAYOUT_MASTER_STACK) !! 0%nat = Some m
       /\ compute_window_positions 640 480 sample_stack 3
            (DEFAULT_LAYOUTS LAYOUT_MASTER_STACK) !! 2%nat = Some p
       /\ pos_width m = 376
       /\ pos_width m + pos_width p + 3 * 4 = 640.
Proof.
  assert (H1 : is_u32 640) by (unfold is_u32, u32_modulus; lia).
  assert (H2 : is_u32 480) by (unfold is_u32, u32_modulus; lia).
  assert (H3 : 1 <= 3 <= MAX_WINDOWS_PER_WORKSPACE)
    by (unfold MAX_WINDOWS_PER_WORKSPACE; lia).
  assert (H4 : 640 * 60 < u32_modulus) by (vm_compute; reflexivity).
  assert (H5 : 2 * 4 <= 640 * 60 / 100) by (vm_compute; discriminate).
  assert (H6 : 640 * 60 / 100 + 4 <= 640) by (vm_compute; discriminate).
  assert (H7 : TOP_BAR_HEIGHT + 2 * 4 <= 480) by (vm_compute; discriminate).
  split; [vm_compute; reflexivity|]. split; [vm_compute; reflexivity|].
  split; [exact H3|]. split; [exact H1|]. split; [exact H2|].
  split; [exact H4|]. split; [exact H5|]. split; [exact H6|].
  split; [exact H7|].
  destruct (master_stack_geometry 640 480 sample_stack 3
              (DEFAULT_LAYOUTS LAYOUT_MASTER_STACK) eq_refl eq_refl H3 H1 H2
              ltac:(vm_compute; discriminate) ltac:(vm_compute; discriminate)
              H4 H5 H6 H7)
    as (m & Hm & _ & Hmany).
  destruct (Hmany ltac:(lia)) as [Hw Hstack].
  destruct (Hstack 2 ltac:(lia)) as (p & Hp & Hsum).
  exists m, p. split; [exact Hm|]. split; [exact Hp|].
  split; [rewrite Hw; vm_compute; reflexivity | exact Hsum].
Defined.

Lemma grid_geometry_witness :
  cfg_type (DEFAULT_LAYOUTS LAYOUT_GRID) = LAYOUT_GRID
  /\ length sample_stack = 6%nat
  /\ 1 <= 5 <= MAX_WINDOWS_PER_WORKSPACE
  /\ exists p,
       compute_window_positions 640 480 sample_stack 5
         (DEFAULT_LAYOUTS LAYOUT_GRID) !! 4%nat = Some p
       /\ pos_x p = 4 /\ pos_y p = 326
       /\ pos_width p = 314 /\ pos_height p = 145.
Proof.
  assert (H3 : 1 <= 5 <= MAX_WINDOWS_PER_WORKSPACE)
    by (unfold MAX_WINDOWS_PER_WORKSPACE; lia).
  split; [vm_compute; reflexivity|]. split; [vm_compute; reflexivity|].
  split; [exact H3|].
  destruct (grid_geometry 640 480 sample_stack 5
              (DEFAULT_LAYOUTS LAYOUT_GRID) eq_refl eq_refl H3)
    as (_ & Hcells & _).
  destruct (Hcells 4 ltac:(lia)) as (p & Hp & _ & _ & Hx & Hy & Hw & Hh).
  exists p. split; [exact Hp|].
  rewrite Hx, Hy, Hw, Hh. vm_compute. repeat split; reflexivity.
Defined.

Lemma redraw_incremental_focus_only_witness :
  let ws := active_workspace sample_focus_moved in
  window_count ws = g_prev_window_count sample_focus_moved
  /\ cfg_type (layout ws) = g_prev_layout sample_focus_moved
  /\ focused_window_index ws <> g_prev_focused sample_focus_moved
  /\ draw_log (redraw_incremental sample_stack sample_focus_moved)
     = draw_log sample_focus_moved
       ++ [Call_draw_window_frame (mk_window_position 4 252 314 220 0) 2
             COLOR_BORDER_NORMAL 0;
           Call_draw_window_frame (mk_window_position 4 28 314 220 0) 2
             COLOR_BORDER_NORMAL 1].
Proof.
  cbv zeta.
  assert (H1 : window_count (active_workspace sample_focus_moved)
               = g_prev_window_count sample_focus_moved) by (vm_compute; reflexivity).
  assert (H2 : cfg_type (layout (active_workspace sample_focus_moved))
               = g_prev_layout sample_focus_moved) by (vm_compute; reflexivity).
  assert (H3 : focused_window_index (active_workspace sample_focus_moved)
               <> g_prev_focused sample_focus_moved)
    by (vm_compute; discriminate).
  split; [exact H1|]. split; [exact H2|]. split; [exact H3|].
  destruct (redraw_incremental_focus_only sample_stack sample_focus_moved
              H1 H2 H3) as [Hlog _].
  rewrite Hlog. vm_compute. reflexivity.
Defined.

Lemma close_current_window_compacts_witness :
  let ws := active_workspace sample_three_middle in
  let ws' :=
    active_workspace (close_current_window sample_stack sample_three_middle) in
  active_in_range sample_three_middle
  /\ ws_inv ws
  /\ 0 < window_count ws
  /\ length (windows ws) = 6%nat
  /\ window_count ws' = 2
  /\ focused_window_index ws' = 1
  /\ windows ws' !! 0%nat = windows ws !! 0%nat
  /\ windows ws' !! 1%nat = windows ws !! 2%nat.
Proof.
  cbv zeta.
  assert (H1 : active_in_range sample_three_middle)
    by (split; [vm_compute; discriminate | vm_compute; lia]).
  assert (H2 : ws_inv (active_workspace sample_three_middle))
    by (vm_compute; intuition discriminate).
  assert (H3 : 0 < window_count (active_workspace sample_three_middle))
    by (vm_compute; reflexivity).
  assert (H4 : length (windows (active_workspace sample_three_middle)) = 6%nat)
    by (vm_compute; reflexivity).
  split; [exact H1|]. split; [exact H2|]. split; [exact H3|].
  split; [exact H4|].
  destruct (close_current_window_compacts sample_stack sample_three_middle
              H1 H2 H3 H4) as (_ & _ & _ & _ & _ & _ & Hex).
  assert (H5 : window_count (active_workspace sample_three_middle) = 3)
    by (vm_compute; reflexivity).
  assert (H6 : focused_window_index (active_workspace sample_three_middle) = 1)
    by (vm_compute; reflexivity).
  exact (Hex H5 H6).
Defined.

Lemma cycle_layout_order_witness :
  active_in_range sample_started
  /\ cfg_type (layout (active_workspace sample_started)) = LAYOUT_GRID
  /\ layout (active_workspace (cycle_layout sample_stack sample_started))
     = DEFAULT_LAYOUTS LAYOUT_FULLSCREEN
  /\ layout (active_workspace
               (cycle_layout sample_stack
                  (cycle_layout sample_stack
                     (cycle_layout sample_stack
                        (cycle_layout sample_stack
                           (cycle_layout sample_stack sample_started))))))
     = DEFAULT_LAYOUTS LAYOUT_GRID.
Proof.
  assert (H1 : active_in_range sample_started)
    by (split; [vm_compute; discriminate | vm_compute; lia]).
  split; [exact H1|]. split; [vm_compute; reflexivity|].
  destruct (cycle_layout_order sample_stack sample_stack sample_stack
              sample_stack sample_stack sample_started H1)
    as (_ & _ & _ & _ & _ & Hnext & _ & _ & _ & _ & Hfive).
  split; [exact Hnext | exact Hfive].
Defined.

Lemma add_window_at_capacity_witness :
  window_count (active_workspace sample_full) = MAX_WINDOWS_PER_WORKSPACE
  /\ add_window_to_current_workspace sample_stack "template" sample_full
     = sample_full.
Proof.
  assert (H1 : window_count (active_workspace sample_full)
               = MAX_WINDOWS_PER_WORKSPACE) by (vm_compute; reflexivity).
  split; [exact H1|].
  exact (add_window_at_capacity sample_stack "template" sample_full H1).
Defined.

Lemma redraw_incremental_from_empty_witness :
  let ws := active_workspace sample_first_window in
  g_prev_window_count sample_first_window = 0
  /\ 0 < window_count ws <= MAX_WINDOWS_PER_WORKSPACE
  /\ length sample_stack = 6%nat
  /\ draw_log (redraw_incremental sample_stack sample_first_window)
     = draw_log sample_first_window
       ++ [Call_draw_window_frame (mk_window_position 4 28 314 444 0) 2
             COLOR_BORDER_NORMAL 1].
Proof.
  cbv zeta.
  assert (H1 : g_prev_window_count sample_first_window = 0) by (vm_compute; reflexivity).
  assert (H2 : 0 < window_count (active_workspace sample_first_window)
               <= MAX_WINDOWS_PER_WORKSPACE)
    by (split; [vm_compute; reflexivity | vm_compute; discriminate]).
  split; [exact H1|]. split; [exact H2|].
  split; [vm_compute; reflexivity|].
  destruct (redraw_incremental_from_empty sample_stack sample_first_window
              H1 H2 (eq_refl : length sample_stack = 6%nat)) as (_ & Hlog & _).
  rewrite Hlog. vm_compute. reflexivity.
Defined.

(** ** The bounds of C1 are the least ones *)

(** One pixel less in width or in height, or one pixel more in width,
    and some window of some layout is not well placed. *)
Lemma screen_bounds_sharp :
  ~ all_well_placed 33 62 6
      (compute_window_positions 33 62 sample_stack 6
         (DEFAULT_LAYOUTS LAYOUT_HORIZONTAL))
  /\ ~ all_well_placed 34 61 6
         (compute_window_positions 34 61 sample_stack 6
            (DEFAULT_LAYOUTS LAYOUT_VERTICAL))
  /\ ~ all_well_placed 71582789 62 2
         (compute_window_positions 71582789 62 sample_stack 2
            (DEFAULT_LAYOUTS LAYOUT_MASTER_STACK)).
Proof.
  split; [|split]; intros Hall; destruct (Hall 0) as (p & Hp & Hwp); try lia;
    vm_compute in Hp; injection Hp as <-;
    unfold well_placed in Hwp; cbn in Hwp; lia.
Qed.

(** ** A pixel of the indicator that outlives the next window *)

(** On a 64 by 64 screen: open a window, close it (the indicator of the
    empty workspace is drawn at x = 28..35, y = 28..35), open a window
    again.  The frame of the new window ends at x = 29, and the pixel
    (32, 30) still shows the indicator. *)
Example stale_indicator_pixel :
  let s :=
    add_window_to_current_workspace sample_stack "template"
      (close_current_window sample_stack
         (add_window_to_current_workspace sample_stack "template"
            (_start sample_stack 64 64 64))) in
  paint_log 64 64 64 (draw_log s) (fun _ => 0) (30 * 64 + 32)
  = COLOR_EMPTY_DESKTOP
  /\ paint_log 64 64 64 (draw_log s) (fun _ => 0) (30 * 64 + 28)
     = COLOR_BORDER_NORMAL.
Proof. cbv zeta. split; vm_compute; reflexivity. Qed.

(** ** Further properties of the workspace store and of the differ *)

(** [cycle_focus] moves the focus index one step round the windows of a
    non-empty workspace, forward when [direction > 0] and backward
    otherwise, and changes nothing else of the workspace.  With one
    window the index stays 0; forward from index 3 of 4 windows it
    becomes 0. *)
Theorem cycle_focus_wraps
    (stack : list window_position_t) (direction : Z) (s : wm_state) :
  let ws := active_workspace s in
  let ws' := active_workspace (cycle_focus stack direction s) in
  let count := window_count ws in
  let focus := focused_window_index ws in
  active_in_range s ->
  ws_inv ws ->
  0 < count ->
  focused_window_index ws'
  = (if 0 <? direction then (focus + 1) mod count
     else (focus + count - 1) mod count)
  /\ windows ws' = windows ws
  /\ window_count ws' = count
  /\ layout ws' = layout ws
  /\ (count = 1 -> focused_window_index ws' = focus)
  /\ (0 < direction -> count = 4 -> focus = 3 -> focused_window_index ws' = 0).
Proof.
  intros ws ws' count focus Hrange [Hc Hf] Hpos.
  fold count in Hc, Hf. fold focus in Hf.
  unfold MAX_WINDOWS_PER_WORKSPACE in Hc. specialize (Hf Hpos).
  assert (Hws' : ws' = refocused_workspace direction ws).
  { subst ws'. rewrite cycle_focus_unfold. fold ws count.
    rewrite (proj2 (Z.eqb_neq count 0)) by lia.
    rewrite redraw_incremental_active. now apply active_workspace_set. }
  assert (Hfocus' : focused_window_index ws'
                    = (if 0 <? direction then (focus + 1) mod count
                       else (focus + count - 1) mod count)).
  { rewrite Hws'. unfold refocused_workspace.
    cbn [focused_window_index set_focused_window_index]. fold count focus.
    unfold mod32, add32, sub32.
    rewrite (u32_small (focus + 1)) by (unfold is_u32, u32_modulus; lia).
    rewrite (u32_small (focus + count)) by (unfold is_u32, u32_modulus; lia).
    rewrite (u32_small (focus + count - 1))
      by (unfold is_u32, u32_modulus; lia).
    reflexivity. }
  split; [exact Hfocus'|].
  do 3 (split; [rewrite Hws'; reflexivity|]).
  split.
  - intros H1. rewrite Hfocus', H1.
    destruct (0 <? direction); rewrite Z.mod_1_r; lia.
  - intros Hdir H4 H3. rewrite Hfocus', H4, H3.
    rewrite (proj2 (Z.ltb_lt 0 direction) Hdir). reflexivity.
Qed.

Lemma cycle_focus_wraps_witness :
  let ws := active_workspace sample_three in
  active_in_range sample_three
  /\ ws_inv ws
  /\ 0 < window_count ws
  /\ focused_window_index ws = 2
  /\ focused_window_index
       (active_workspace (cycle_focus sample_stack 1 sample_three)) = 0.
Proof.
  cbv zeta.
  assert (H1 : active_in_range sample_three)
    by (split; [vm_compute; discriminate | vm_compute; lia]).
  assert (H2 : ws_inv (active_workspace sample_three))
    by (vm_compute; intuition discriminate).
  assert (H3 : 0 < window_count (active_workspace sample_three))
    by (vm_compute; reflexivity).
  split; [exact H1|]. split; [exact H2|]. split; [exact H3|].
  split; [vm_compute; reflexivity|].
  destruct (cycle_focus_wraps sample_stack 1 sample_three H1 H2 H3)
    as (Hfocus & _).
  rewrite Hfocus. vm_compute. reflexivity.
Defined.

(** Below capacity, and for a title that fits the field
    [char title[32]], [add_window_to_current_workspace] stores the new
    window in the first free slot, with the title given, the old count as
    its identifier and the open flag set; the other slots and the layout
    stay, the count grows by one and the new window has focus. *)
Theorem add_window_appends
    (stack : list window_position_t) (title : string) (s : wm_state) :
  let ws := active_workspace s in
  let ws' := active_workspace (add_window_to_current_workspace stack title s) in
  let count := window_count ws in
  title_fits title ->
  active_in_range s ->
  0 <= count < MAX_WINDOWS_PER_WORKSPACE ->
  length (windows ws) = 6%nat ->
  window_count ws' = count + 1
  /\ focused_window_index ws' = count
  /\ windows ws' !! Z.to_nat count = Some (mk_window title count 1)
  /\ (forall j : nat, j <> Z.to_nat count -> windows ws' !! j = windows ws !! j)
  /\ layout ws' = layout ws.
Proof.
  intros ws ws' count [Hnul _] Hrange Hc Hlen.
  unfold MAX_WINDOWS_PER_WORKSPACE in Hc.
  assert (Hws' : ws' = added_workspace title ws).
  { subst ws'. rewrite add_window_unfold. fold ws count.
    unfold MAX_WINDOWS_PER_WORKSPACE.
    rewrite (proj2 (Z.leb_gt 6 count)) by lia.
    rewrite redraw_incremental_active. now apply active_workspace_set. }
  rewrite Hws'. unfold added_workspace.
  cbn [window_count focused_window_index windows layout
       set_focused_window_index set_window_count set_windows].
  fold count. rewrite Hnul. unfold add32, sub32.
  rewrite (u32_small (count + 1)) by (unfold is_u32, u32_modulus; lia).
  rewrite u32_small by (unfold is_u32, u32_modulus; lia).
  split; [reflexivity|]. split; [lia|]. split.
  - rewrite list_lookup_alter_eq.
    destruct (lookup_lt_is_Some_2 (windows ws) (Z.to_nat count)) as [w Hw];
      [lia|].
    now rewrite Hw.
  - split; [|reflexivity].
    intros j Hj. now rewrite list_lookup_alter_ne by lia.
Qed.

Lemma add_window_appends_witness :
  let ws := active_workspace sample_three in
  let ws' :=
    active_workspace
      (add_window_to_current_workspace sample_stack "term" sample_three) in
  title_fits "term"
  /\ active_in_range sample_three
  /\ 0 <= window_count ws < MAX_WINDOWS_PER_WORKSPACE
  /\ length (windows ws) = 6%nat
  /\ window_count ws' = 4
  /\ focused_window_index ws' = 3
  /\ windows ws' !! 3%nat = Some (mk_window "term" 3 1).
Proof.
  cbv zeta.
  assert (H0 : title_fits "term")
    by (split; [reflexivity | vm_compute; reflexivity]).
  split; [exact H0|].
  assert (H1 : active_in_range sample_three)
    by (split; [vm_compute; discriminate | vm_compute; lia]).
  assert (H2 : 0 <= window_count (active_workspace sample_three)
               < MAX_WINDOWS_PER_WORKSPACE)
    by (split; [vm_compute; discriminate | vm_compute; reflexivity]).
  assert (H3 : length (windows (active_workspace sample_three)) = 6%nat)
    by (vm_compute; reflexivity).
  split; [exact H1|]. split; [exact H2|]. split; [exact H3|].
  destruct (add_window_appends sample_stack "term" sample_three H0 H1 H2 H3)
    as (Hcount & Hfocus & Hslot & _).
  assert (H4 : window_count (active_workspace sample_three) = 3)
    by (vm_compute; reflexivity).
  rewrite H4 in Hcount, Hfocus, Hslot.
  split; [exact Hcount|]. split; [exact Hfocus|exact Hslot].
Defined.

Lemma layout_type_eqb_eq a b : layout_type_eqb a b = true <-> a = b.
Proof.
  split; [|intros ->; unfold layout_type_eqb; apply Z.eqb_refl].
  destruct a, b; intros Heq; try reflexivity; discriminate Heq.
Qed.

(** When count, variant and focus of the active workspace are those of
    the snapshot, [redraw_incremental] changes nothing and draws
    nothing. *)
Theorem redraw_incremental_in_sync
    (stack : list window_position_t) (s : wm_state) :
  snapshot_in_sync s -> redraw_incremental stack s = s.
Proof.
  intros (Hc & Hl & Hf). unfold redraw_incremental.
  rewrite Hc, Hl, Hf, !Z.eqb_refl.
  rewrite (proj2 (layout_type_eqb_eq _ _) eq_refl). reflexivity.
Qed.

Lemma redraw_incremental_in_sync_witness :
  snapshot_in_sync sample_three
  /\ redraw_incremental sample_stack sample_three = sample_three.
Proof.
  assert (H1 : snapshot_in_sync sample_three)
    by (unfold snapshot_in_sync; split; [|split]; vm_compute; reflexivity).
  split; [exact H1|].
  exact (redraw_incremental_in_sync sample_stack sample_three H1).
Defined.

(** Whatever the state, a call of [redraw_incremental] leaves the
    snapshot in sync with the active workspace, so that a second call
    changes nothing and draws nothing. *)
Theorem redraw_incremental_settles
    (stack stack' : list window_position_t) (s : wm_state) :
  snapshot_in_sync (redraw_incremental stack s)
  /\ redraw_incremental stack' (redraw_incremental stack s)
     = redraw_incremental stack s.
Proof.
  assert (Hsync : snapshot_in_sync (redraw_incremental stack s)).
  { unfold snapshot_in_sync. rewrite redraw_incremental_active.
    unfold redraw_incremental.
    destruct (Z.eqb_spec (window_count (active_workspace s))
                (g_prev_window_count s)) as [Hc|Hc]; cbn [negb orb].
    - destruct (layout_type_eqb (cfg_type (layout (active_workspace s)))
                  (g_prev_layout s)) eqn:Hl; cbn [negb].
      + apply layout_type_eqb_eq in Hl.
        destruct (Z.eqb_spec (focused_window_index (active_workspace s))
                    (g_prev_focused s)) as [Hf|Hf]; cbn [negb].
        * repeat split; congruence.
        * repeat split; cbn; congruence.
      + repeat split.
    - repeat split. }
  split; [exact Hsync|].
  destruct Hsync as (Hc & Hl & Hf).
  unfold redraw_incremental at 1.
  rewrite Hc, Hl, Hf, !Z.eqb_refl.
  rewrite (proj2 (layout_type_eqb_eq _ _) eq_refl). reflexivity.
Qed.

(** In the Fullscreen layout every window gets the same rectangle. *)
Theorem fullscreen_same_rectangle
    (W H : Z) (stack : list window_position_t) (count : Z)
    (config : layout_config_t) (i j : Z) (p q : window_position_t) :
  cfg_type config = LAYOUT_FULLSCREEN ->
  length stack = 6%nat ->
  0 <= i < count -> 0 <= j < count -> count <= MAX_WINDOWS_PER_WORKSPACE ->
  let ps := compute_window_positions W H stack count config in
  ps !! Z.to_nat i = Some p ->
  ps !! Z.to_nat j = Some q ->
  pos_x p = pos_x q /\ pos_y p = pos_y q
  /\ pos_width p = pos_width q /\ pos_height p = pos_height q
  /\ pos_x p = gap_size config
  /\ pos_y p = add32 TOP_BAR_HEIGHT (gap_size config)
  /\ pos_width p = sub32 W (mul32 (gap_size config) 2)
  /\ pos_height p
     = sub32 (sub32 (sub32 H TOP_BAR_HEIGHT) (gap_size config)) (gap_size config).
Proof.
  intros Hty Hlen Hi Hj Hc ps Hp Hq.
  unfold MAX_WINDOWS_PER_WORKSPACE in Hc.
  destruct (compute_window_positions_nth W H stack count config i)
    as (p0 & _ & Hp'); [lia | lia | rewrite Hlen; lia |].
  destruct (compute_window_positions_nth W H stack count config j)
    as (q0 & _ & Hq'); [lia | lia | rewrite Hlen; lia |].
  fold ps in Hp', Hq'.
  assert (p = window_geometry W H count config i p0) as -> by congruence.
  assert (q = window_geometry W H count config j q0) as -> by congruence.
  unfold window_geometry. rewrite Hty. cbn. repeat split.
Qed.

Lemma fullscreen_same_rectangle_witness :
  let ps :=
    compute_window_positions 640 480 sample_stack 3
      (DEFAULT_LAYOUTS LAYOUT_FULLSCREEN) in
  ps !! 0%nat = Some (mk_window_position 4 28 632 448 0)
  /\ ps !! 2%nat = Some (mk_window_position 4 28 632 448 0)
  /\ pos_width (mk_window_position 4 28 632 448 0)
     = sub32 640 (mul32 (gap_size (DEFAULT_LAYOUTS LAYOUT_FULLSCREEN)) 2).
Proof.
  cbv zeta.
  assert (H0 : compute_window_positions 640 480 sample_stack 3
                 (DEFAULT_LAYOUTS LAYOUT_FULLSCREEN) !! Z.to_nat 0
               = Some (mk_window_position 4 28 632 448 0))
    by (vm_compute; reflexivity).
  assert (H2 : compute_window_positions 640 480 sample_stack 3
                 (DEFAULT_LAYOUTS LAYOUT_FULLSCREEN) !! Z.to_nat 2
               = Some (mk_window_position 4 28 632 448 0))
    by (vm_compute; reflexivity).
  split; [exact H0|]. split; [exact H2|].
  destruct (fullscreen_same_rectangle 640 480 sample_stack 3
              (DEFAULT_LAYOUTS LAYOUT_FULLSCREEN) 0 2 _ _
              eq_refl eq_refl ltac:(lia) ltac:(lia)
              ltac:(unfold MAX_WINDOWS_PER_WORKSPACE; lia) H0 H2)
    as (_ & _ & _ & _ & _ & _ & Hw & _).
  exact Hw.
Defined.


(** ** Drawing primitives, pixel by pixel *)

Lemma for_loop_reaches {S : Type} (Q : S -> Prop) (body : Z -> S -> S)
    (n : nat) :
  forall lo s i0,
    lo <= i0 < lo + Z.of_nat n ->
    (forall s, Q (body i0 s)) ->
    (forall i s, lo <= i < lo + Z.of_nat n -> Q s -> Q (body i s)) ->
    Q (for_loop lo n body s).
Proof.
  induction n as [|n IH]; intros lo s i0 Hi0 Hhit Hkeep; [lia|].
  cbn [for_loop].
  destruct (Z.eq_dec i0 lo) as [->|Hne].
  - apply for_loop_invariant_in_range; [|apply Hhit].
    intros i s' Hi. apply Hkeep. lia.
  - apply (IH (lo + 1) (body lo s) i0); [lia|exact Hhit|].
    intros i s' Hi. apply Hkeep. lia.
Qed.

Lemma for_range_reaches {S : Type} (Q : S -> Prop) (body : Z -> S -> S)
    lo hi s i0 :
  lo <= i0 < hi ->
  (forall s, Q (body i0 s)) ->
  (forall i s, lo <= i < hi -> Q s -> Q (body i s)) ->
  Q (for_range lo hi body s).
Proof.
  intros Hi0 Hhit Hkeep. unfold for_range.
  apply (for_loop_reaches Q body _ lo s i0); [lia|exact Hhit|].
  intros i s' Hi. apply Hkeep. lia.
Qed.

(** Two pixels of the screen that share a cell are the same pixel. *)
Lemma pixel_cell_injective W H pitch px py qx qy :
  fb_geometry_ok W H pitch ->
  0 <= px < W -> 0 <= qx < W ->
  py * pitch + px = qy * pitch + qx ->
  px = qx /\ py = qy.
Proof.
  intros ((HW & HWp) & _) Hpx Hqx Heq.
  assert (Hy : py = qy) by nia. subst. lia.
Qed.

(** The cell of an on-screen pixel, as [set_pixel] computes it. *)
Lemma pixel_cell_no_wrap W H pitch x y :
  fb_geometry_ok W H pitch ->
  0 <= x < W -> 0 <= y < H ->
  add32 (mul32 y pitch) x = y * pitch + x.
Proof.
  intros ((HW & HWp) & HH & Hfit) Hx Hy.
  assert (Hcell : 0 <= y * pitch + x < u32_modulus) by nia.
  assert (Hrow : 0 <= y * pitch < u32_modulus) by nia.
  unfold add32, mul32. rewrite (u32_small (y * pitch)) by exact Hrow.
  now apply u32_small.
Qed.

Section PixelFacts.

Variables W H pitch : Z.
Hypothesis Hgeo : fb_geometry_ok W H pitch.

Lemma set_pixel_keeps_color x y color fb k :
  fb k = color -> set_pixel W H pitch x y color fb k = color.
Proof.
  intros Hk. unfold set_pixel, store_pixel.
  destruct ((x <? W) && (y <? H)); [|exact Hk].
  destruct (k =? add32 (mul32 y pitch) x); [reflexivity|exact Hk].
Qed.

Lemma set_pixel_hit x y color fb :
  0 <= x < W -> 0 <= y < H ->
  set_pixel W H pitch x y color fb (y * pitch + x) = color.
Proof.
  intros Hx Hy. unfold set_pixel, store_pixel.
  rewrite (proj2 (Z.ltb_lt x W)), (proj2 (Z.ltb_lt y H)) by lia.
  cbn [andb]. rewrite (pixel_cell_no_wrap W H pitch) by assumption.
  now rewrite Z.eqb_refl.
Qed.

(** A cell a fill writes is a pixel of the screen. *)
Lemma fill_touches_is_pixel x y w h k :
  fill_touches W H pitch x y w h k ->
  exists px py, is_pixel W H pitch k px py.
Proof.
  intros (dx & dy & Hdx & Hdy & Hx & Hy & Hk).
  exists (add32 x dx), (add32 y dy).
  assert (Hx0 : 0 <= add32 x dx) by (apply u32_range).
  assert (Hy0 : 0 <= add32 y dy) by (apply u32_range).
  split; [lia|]. split; [lia|].
  rewrite Hk. apply (pixel_cell_no_wrap W H pitch); [exact Hgeo|lia|lia].
Qed.

(** [fill_rect] where the rectangle does not wrap round [2^32]: a pixel
    of the screen takes the colour when it lies in the rectangle and
    keeps its own otherwise.  The part of the rectangle off the screen is
    clipped. *)
Lemma fill_rect_pixel x y w h color fb px py :
  0 <= x -> 0 <= y -> x + w <= u32_modulus -> y + h <= u32_modulus ->
  0 <= px < W -> 0 <= py < H ->
  fill_rect W H pitch x y w h color fb (py * pitch + px)
  = if bool_decide (in_rect x y w h px py) then color
    else fb (py * pitch + px).
Proof.
  intros Hx Hy Hxw Hyh Hpx Hpy.
  destruct (bool_decide_reflect (in_rect x y w h px py)) as [Hin|Hout].
  - destruct Hin as [Hinx Hiny]. unfold fill_rect.
    apply (for_range_reaches (fun fb' => fb' (py * pitch + px) = color)
             _ 0 h fb (py - y)); [lia| |].
    + intros fb1.
      apply (for_range_reaches (fun fb' => fb' (py * pitch + px) = color)
               _ 0 w fb1 (px - x)); [lia| |].
      * intros fb2. unfold add32.
        rewrite !u32_small by (unfold is_u32; lia).
        replace (x + (px - x)) with px by lia.
        replace (y + (py - y)) with py by lia.
        now apply set_pixel_hit.
      * intros dx fb2 _. apply set_pixel_keeps_color.
    + intros dy fb1 _ Hfb1.
      apply (for_range_invariant (fun fb' => fb' (py * pitch + px) = color));
        [|exact Hfb1].
      intros dx fb2. apply set_pixel_keeps_color.
  - apply fill_rect_untouched.
    intros (dx & dy & Hdx & Hdy & Hsx & Hsy & Hk). apply Hout.
    unfold add32 in Hsx, Hsy, Hk.
    rewrite (u32_small (x + dx)) in Hsx, Hk by (unfold is_u32; lia).
    rewrite (u32_small (y + dy)) in Hsy, Hk by (unfold is_u32; lia).
    fold (add32 (mul32 (y + dy) pitch) (x + dx)) in Hk.
    rewrite (pixel_cell_no_wrap W H pitch) in Hk by (try exact Hgeo; lia).
    destruct (pixel_cell_injective W H pitch px py (x + dx) (y + dy))
      as [-> ->]; [exact Hgeo|lia|lia|exact Hk|].
    unfold in_rect. lia.
Qed.

Lemma call_touches_is_pixel c k :
  call_touches W H pitch c k -> exists px py, is_pixel W H pitch k px py.
Proof.
  destruct c as [x y w h color| |p bs bc f]; cbn [call_touches].
  - apply fill_touches_is_pixel.
  - intros (i & _ & Ht). eapply fill_touches_is_pixel, Ht.
  - cbv zeta. intros [Ht|[Ht|[Ht|[Ht|Ht]]]];
      eapply fill_touches_is_pixel, Ht.
Qed.

End PixelFacts.

(** Whatever calls are made into the drawing layer, with whatever
    arguments, the only cells of the framebuffer that change are pixels
    of the screen: no cell before the buffer or after its last row, and
    no cell of the padding between [fb_width] and [fb_pitch]. *)
Theorem paint_log_stays_on_screen
    (W H pitch : Z) (log : list draw_call) (fb : framebuffer) (k : Z) :
  fb_geometry_ok W H pitch ->
  k < 0 \/ H * pitch <= k \/ W <= k mod pitch ->
  paint_log W H pitch log fb k = fb k.
Proof.
  intros Hgeo Hoff. apply paint_log_untouched.
  intros c _ Ht.
  destruct (call_touches_is_pixel W H pitch Hgeo c k Ht)
    as (px & py & Hpx & Hpy & ->).
  destruct Hgeo as ((HW & HWp) & HH & Hfit).
  destruct Hoff as [Hneg|[Hbig|Hpad]]; [nia|nia|].
  rewrite Z.add_comm, Z.mod_add, Z.mod_small in Hpad by lia. lia.
Qed.

Lemma paint_log_stays_on_screen_witness :
  fb_geometry_ok 64 64 80
  /\ (64 <= (30 * 80 + 70) mod 80)
  /\ paint_log 64 64 80
       [Call_fill_rect 60 30 20 4 COLOR_BAR_BG] (fun _ => 7) (30 * 80 + 70)
     = 7.
Proof.
  assert (H1 : fb_geometry_ok 64 64 80)
    by (unfold fb_geometry_ok, u32_modulus; lia).
  assert (H2 : 64 <= (30 * 80 + 70) mod 80) by (vm_compute; discriminate).
  split; [exact H1|]. split; [exact H2|].
  exact (paint_log_stays_on_screen 64 64 80
           [Call_fill_rect 60 30 20 4 COLOR_BAR_BG] (fun _ => 7)
           (30 * 80 + 70) H1 (or_intror (or_intror H2))).
Defined.

(** [fill_rect] on a rectangle that does not wrap round [2^32] gives
    every pixel of the screen inside the rectangle the colour and leaves
    every other pixel and every cell that is no pixel; the part of the
    rectangle off the screen is clipped. *)
Theorem fill_rect_paints
    (W H pitch x y w h color : Z) (fb : framebuffer) :
  fb_geometry_ok W H pitch ->
  0 <= x -> 0 <= y -> x + w <= u32_modulus -> y + h <= u32_modulus ->
  let fb' := fill_rect W H pitch x y w h color fb in
  (forall px py, 0 <= px < W -> 0 <= py < H ->
     fb' (py * pitch + px)
     = if bool_decide (in_rect x y w h px py) then color
       else fb (py * pitch + px))
  /\ (forall k, (forall px py, ~ is_pixel W H pitch k px py) -> fb' k = fb k).
Proof.
  intros Hgeo Hx Hy Hxw Hyh fb'. split.
  - intros px py Hpx Hpy. now apply fill_rect_pixel.
  - intros k Hno. apply fill_rect_untouched. intros Ht.
    destruct (fill_touches_is_pixel W H pitch Hgeo x y w h k Ht)
      as (px & py & Hp).
    exact (Hno px py Hp).
Qed.

Lemma fill_rect_paints_witness :
  fb_geometry_ok 64 64 64
  /\ 0 <= 60 /\ 0 <= 30
  /\ 60 + 20 <= u32_modulus /\ 30 + 4 <= u32_modulus
  /\ fill_rect 64 64 64 60 30 20 4 COLOR_BAR_BG (fun _ => 7) (31 * 64 + 62)
     = COLOR_BAR_BG
  /\ fill_rect 64 64 64 60 30 20 4 COLOR_BAR_BG (fun _ => 7) (31 * 64 + 2)
     = 7.
Proof.
  assert (H1 : fb_geometry_ok 64 64 64)
    by (unfold fb_geometry_ok, u32_modulus; lia).
  assert (H2 : 0 <= 60) by lia.
  assert (H3 : 0 <= 30) by lia.
  assert (H4 : 60 + 20 <= u32_modulus) by (unfold u32_modulus; lia).
  assert (H5 : 30 + 4 <= u32_modulus) by (unfold u32_modulus; lia).
  split; [exact H1|]. split; [exact H2|]. split; [exact H3|].
  split; [exact H4|]. split; [exact H5|].
  destruct (fill_rect_paints 64 64 64 60 30 20 4 COLOR_BAR_BG (fun _ => 7)
              H1 H2 H3 H4 H5) as [Hpix _].
  split.
  - rewrite (Hpix 62 31) by lia. vm_compute. reflexivity.
  - rewrite (Hpix 2 31) by lia. vm_compute. reflexivity.
Defined.




(** On a screen at least 8 pixels wide and high,
    [draw_empty_desktop_indicator] paints one square of 8 by 8 pixels in
    [COLOR_EMPTY_DESKTOP] and nothing else; the square is centred: its
    margins to the left and right differ by at most one pixel, and so
    do those above and below. *)
Theorem draw_empty_desktop_indicator_paints
    (W H pitch : Z) (fb : framebuffer) (px py : Z) :
  fb_geometry_ok W H pitch ->
  8 <= W -> 8 <= H -> W < u32_modulus -> H < u32_modulus ->
  0 <= px < W -> 0 <= py < H ->
  let x := (W - 8) / 2 in
  let y := H / 2 - 4 in
  draw_empty_desktop_indicator W H pitch fb (py * pitch + px)
  = (if bool_decide (in_rect x y 8 8 px py) then COLOR_EMPTY_DESKTOP
     else fb (py * pitch + px))
  /\ 0 <= x /\ x + 8 <= W /\ 0 <= (W - (x + 8)) - x <= 1
  /\ 0 <= y /\ y + 8 <= H /\ 0 <= (H - (y + 8)) - y <= 1.
Proof.
  intros Hgeo HW HH HW' HH' Hpx Hpy x y.
  assert (Hx : 0 <= x /\ x + 8 <= W /\ 0 <= (W - (x + 8)) - x <= 1)
    by (subst x; Z.div_mod_to_equations; lia).
  assert (Hy : 0 <= y /\ y + 8 <= H /\ 0 <= (H - (y + 8)) - y <= 1)
    by (subst y; Z.div_mod_to_equations; lia).
  split; [|tauto].
  unfold draw_empty_desktop_indicator, for_range.
  change (Z.to_nat (string_length "~" - 0)) with 1%nat.
  cbn [for_loop].
  assert (Ex : add32 (div32 (sub32 W (mul32 (string_length "~") SYMBOL_WIDTH)) 2)
                 (mul32 0 SYMBOL_WIDTH) = x).
  { subst x. change (mul32 (string_length "~") SYMBOL_WIDTH) with 8.
    change (mul32 0 SYMBOL_WIDTH) with 0.
    unfold add32, div32, sub32.
    rewrite (u32_small (W - 8)) by (unfold is_u32; lia).
    rewrite Z.add_0_r. apply u32_small. unfold is_u32.
    Z.div_mod_to_equations. lia. }
  assert (Ey : sub32 (div32 H 2) (SYMBOL_HEIGHT / 2) = y).
  { subst y. change (SYMBOL_HEIGHT / 2) with 4.
    unfold sub32, div32. apply u32_small. unfold is_u32.
    Z.div_mod_to_equations. lia. }
  rewrite Ex, Ey.
  apply (fill_rect_pixel W H pitch Hgeo); unfold SYMBOL_WIDTH, SYMBOL_HEIGHT; lia.
Qed.

Lemma draw_empty_desktop_indicator_paints_witness :
  fb_geometry_ok 64 64 64
  /\ 8 <= 64 /\ 64 < u32_modulus
  /\ draw_empty_desktop_indicator 64 64 64 (fun _ => 0) (30 * 64 + 32)
     = COLOR_EMPTY_DESKTOP
  /\ draw_empty_desktop_indicator 64 64 64 (fun _ => 0) (30 * 64 + 27) = 0.
Proof.
  assert (H1 : fb_geometry_ok 64 64 64)
    by (unfold fb_geometry_ok, u32_modulus; lia).
  assert (H2 : 8 <= 64) by lia.
  assert (H3 : 64 < u32_modulus) by (unfold u32_modulus; lia).
  split; [exact H1|]. split; [exact H2|]. split; [exact H3|].
  split.
  - destruct (draw_empty_desktop_indicator_paints 64 64 64 (fun _ => 0)
                32 30 H1 H2 H2 H3 H3 ltac:(lia) ltac:(lia)) as [Hpix _].
    rewrite Hpix. vm_compute. reflexivity.
  - destruct (draw_empty_desktop_indicator_paints 64 64 64 (fun _ => 0)
                27 30 H1 H2 H2 H3 H3 ltac:(lia) ltac:(lia)) as [Hpix _].
    rewrite Hpix. vm_compute. reflexivity.
Defined.


(** ** A frame narrower than its borders *)

(** A pixel of the screen that some round of [fill_rect] addresses takes
    the colour, also when the rectangle wraps round [2^32]. *)
Lemma fill_rect_hits W H pitch x y w h color fb px py dx dy :
  fb_geometry_ok W H pitch ->
  0 <= dx < w -> 0 <= dy < h ->
  add32 x dx = px -> add32 y dy = py ->
  0 <= px < W -> 0 <= py < H ->
  fill_rect W H pitch x y w h color fb (py * pitch + px) = color.
Proof.
  intros Hgeo Hdx Hdy Hx Hy Hpx Hpy. unfold fill_rect.
  apply (for_range_reaches (fun fb' => fb' (py * pitch + px) = color)
           _ 0 h fb dy); [lia| |].
  - intros fb1.
    apply (for_range_reaches (fun fb' => fb' (py * pitch + px) = color)
             _ 0 w fb1 dx); [lia| |].
    + intros fb2. rewrite Hx, Hy. now apply (set_pixel_hit W H pitch Hgeo).
    + intros dx' fb2 _. apply set_pixel_keeps_color.
  - intros dy' fb1 _ Hfb1.
    apply (for_range_invariant (fun fb' => fb' (py * pitch + px) = color));
      [|exact Hfb1].
    intros dx' fb2. apply set_pixel_keeps_color.
Qed.

(** [draw_window_frame] has no guard for a rectangle narrower than two
    borders: the width of the inner fill, [w - 2 * border], wraps round
    [2^32], and on every row of the inner fill the pixels to the right
    of the rectangle are painted over, as far as the edge of the screen:
    with the window background, except for the pixels the left border
    covers when it is wider than the rectangle itself, which take the
    border colour. *)
Theorem draw_window_frame_narrow_floods
    (W H pitch : Z) (p : window_position_t) (bs bc f : Z) (fb : framebuffer)
    (px py : Z) :
  let x := pos_x p in
  let y := pos_y p in
  let w := pos_width p in
  let h := pos_height p in
  let border := frame_border bs f in
  fb_geometry_ok W H pitch ->
  0 <= x -> 0 <= y -> 0 <= w -> x + w <= W -> y + h <= H ->
  W < u32_modulus -> H < u32_modulus ->
  w < 2 * border -> border <= x + w -> 2 * border <= h ->
  x + w <= px < W ->
  y + border <= py < y + h - border ->
  sub32 w (mul32 border 2) = u32_modulus + w - 2 * border
  /\ ~ in_rect x y w h px py
  /\ draw_window_frame W H pitch p bs bc f fb (py * pitch + px)
     = if bool_decide (px < x + border) then bc else COLOR_WINDOW_BG.
Proof.
  intros x y w h border Hgeo Hx Hy Hw Hxw Hyh HW HH Hnarrow Hbx Hbh Hpx Hpy.
  assert (Hb : 0 <= border < u32_modulus) by lia.
  assert (E2 : add32 y border = y + border)
    by (unfold add32; apply u32_small; unfold is_u32; lia).
  assert (E3 : mul32 border 2 = 2 * border).
  { unfold mul32. rewrite u32_small by (unfold is_u32; lia). lia. }
  assert (E4 : sub32 w (2 * border) = u32_modulus + w - 2 * border).
  { unfold sub32, u32.
    rewrite <- (Z.mod_add (w - 2 * border) 1 u32_modulus)
      by (unfold u32_modulus; lia).
    rewrite Z.mod_small by lia. lia. }
  assert (E5 : sub32 h (2 * border) = h - 2 * border)
    by (unfold sub32; apply u32_small; unfold is_u32; lia).
  assert (E6 : sub32 (add32 y h) border = y + h - border).
  { unfold sub32, add32. rewrite (u32_small (y + h)) by (unfold is_u32; lia).
    apply u32_small. unfold is_u32. lia. }
  assert (E7 : sub32 (add32 x w) border = x + w - border).
  { unfold sub32, add32. rewrite (u32_small (x + w)) by (unfold is_u32; lia).
    apply u32_small. unfold is_u32. lia. }
  split; [now rewrite E3|].
  split; [unfold in_rect; lia|].
  unfold draw_window_frame. fold x y w h border.
  rewrite E2, E3, E4, E5, E6, E7.
  rewrite (fill_rect_pixel W H pitch Hgeo (x + w - border)) by lia.
  rewrite bool_decide_eq_false_2 by (unfold in_rect; lia).
  destruct (bool_decide_reflect (px < x + border)) as [Hleft|Hright].
  - (* under the left border, which is drawn after the inner fill *)
    apply (fill_rect_hits W H pitch _ _ _ _ _ _ px py (px - x) (py - y) Hgeo);
      try lia.
    + unfold add32. rewrite u32_small by (unfold is_u32; lia). lia.
    + unfold add32. rewrite u32_small by (unfold is_u32; lia). lia.
  - (* right of every border: the inner fill, wrapped, is what remains *)
    assert (E1 : add32 x border = x + border)
      by (unfold add32; apply u32_small; unfold is_u32; lia).
    rewrite E1.
    rewrite !(fill_rect_pixel W H pitch Hgeo) by lia.
    rewrite !bool_decide_eq_false_2 by (unfold in_rect; lia).
    apply (fill_rect_hits W H pitch _ _ _ _ _ _ px py
             (px - (x + border)) (py - (y + border)) Hgeo); try lia.
    + unfold add32. rewrite u32_small by (unfold is_u32; lia). lia.
    + unfold add32. rewrite u32_small by (unfold is_u32; lia). lia.
Qed.

Lemma draw_window_frame_narrow_floods_witness :
  fb_geometry_ok 50 128 50
  /\ 3 < 2 * frame_border 2 1
  /\ frame_border 2 1 <= 4 + 3
  /\ 2 * frame_border 2 1 <= 96
  /\ ~ in_rect 4 28 3 96 8 40
  /\ ~ in_rect 4 28 3 96 20 40
  /\ draw_window_frame 50 128 50 (mk_window_position 4 28 3 96 0) 2
       COLOR_BORDER_NORMAL 1 (fun _ => 0) (40 * 50 + 8)
     = COLOR_BORDER_NORMAL
  /\ draw_window_frame 50 128 50 (mk_window_position 4 28 3 96 0) 2
       COLOR_BORDER_NORMAL 1 (fun _ => 0) (40 * 50 + 20)
     = COLOR_WINDOW_BG.
Proof.
  assert (H1 : fb_geometry_ok 50 128 50)
    by (unfold fb_geometry_ok, u32_modulus; lia).
  assert (H2 : 3 < 2 * frame_border 2 1) by (vm_compute; reflexivity).
  assert (H3 : frame_border 2 1 <= 4 + 3) by (vm_compute; discriminate).
  assert (H4 : 2 * frame_border 2 1 <= 96) by (vm_compute; discriminate).
  split; [exact H1|]. split; [exact H2|]. split; [exact H3|].
  split; [exact H4|].
  destruct (draw_window_frame_narrow_floods 50 128 50
              (mk_window_position 4 28 3 96 0) 2 COLOR_BORDER_NORMAL 1
              (fun _ => 0) 8 40 H1
              ltac:(cbn; lia) ltac:(cbn; lia) ltac:(cbn; lia)
              ltac:(cbn; lia) ltac:(cbn; lia)
              ltac:(unfold u32_modulus; lia) ltac:(unfold u32_modulus; lia)
              H2 H3 H4
              ltac:(vm_compute; split; [discriminate|reflexivity])
              ltac:(vm_compute; split; [discriminate|reflexivity]))
    as (_ & Hout1 & Hborder).
  destruct (draw_window_frame_narrow_floods 50 128 50
              (mk_window_position 4 28 3 96 0) 2 COLOR_BORDER_NORMAL 1
              (fun _ => 0) 20 40 H1
              ltac:(cbn; lia) ltac:(cbn; lia) ltac:(cbn; lia)
              ltac:(cbn; lia) ltac:(cbn; lia)
              ltac:(unfold u32_modulus; lia) ltac:(unfold u32_modulus; lia)
              H2 H3 H4
              ltac:(vm_compute; split; [discriminate|reflexivity])
              ltac:(vm_compute; split; [discriminate|reflexivity]))
    as (_ & Hout2 & Hflood).
  split; [exact Hout1|]. split; [exact Hout2|].
  split; [exact Hborder | exact Hflood].
Defined.


(** ** Tiling: the rectangles next to each other *)

Lemma window_geometry_separated W H count t i j p q :
  t <> LAYOUT_FULLSCREEN ->
  34 <= W <= 71582788 -> 62 <= H < 2 ^ 32 ->
  1 <= count <= 6 -> 0 <= i < j -> j < count ->
  separated DEFAULT_GAP_SIZE
    (window_geometry W H count (DEFAULT_LAYOUTS t) i p)
    (window_geometry W H count (DEFAULT_LAYOUTS t) j q).
Proof.
  intros Ht HW HH Hc Hi Hj.
  assert (Hcases : count = 1 \/ count = 2 \/ count = 3 \/ count = 4
                   \/ count = 5 \/ count = 6) by lia.
  assert (Hicases : i = 0 \/ i = 1 \/ i = 2 \/ i = 3 \/ i = 4) by lia.
  assert (Hjcases : j = 1 \/ j = 2 \/ j = 3 \/ j = 4 \/ j = 5) by lia.
  unfold separated.
  destruct t; try congruence;
    destruct Hcases as [->|[->|[->|[->|[->| ->]]]]];
    destruct Hicases as [->|[->|[->|[->| ->]]]];
    destruct Hjcases as [->|[->|[->|[->| ->]]]]; try lia;
    cbn [window_geometry DEFAULT_LAYOUTS cfg_type gap_size master_ratio
         set_geometry pos_x pos_y pos_width pos_height Z.eqb Pos.eqb];
    u32_lia.
Qed.

Lemma separated_sym gap p q : separated gap p q -> separated gap q p.
Proof. unfold separated. tauto. Qed.

(** In the four tiling layouts (every layout but Fullscreen), on a
    screen of the range of C1, any two windows of a workspace are at
    least the gap of 4 pixels apart, so no two rectangles overlap. *)
Theorem tiles_separated
    (W H : Z) (stack : list window_position_t) (count : Z)
    (t : layout_type_t) (i j : Z) (p q : window_position_t) :
  t <> LAYOUT_FULLSCREEN ->
  34 <= W <= 71582788 ->
  62 <= H -> is_u32 H ->
  1 <= count <= MAX_WINDOWS_PER_WORKSPACE ->
  length stack = 6%nat ->
  0 <= i < count -> 0 <= j < count -> i <> j ->
  let ps := compute_window_positions W H stack count (DEFAULT_LAYOUTS t) in
  ps !! Z.to_nat i = Some p ->
  ps !! Z.to_nat j = Some q ->
  separated DEFAULT_GAP_SIZE p q.
Proof.
  intros Ht HW HH1 HH2 Hc Hlen Hi Hj Hne ps Hp Hq.
  unfold MAX_WINDOWS_PER_WORKSPACE in Hc.
  unfold is_u32, u32_modulus in HH2.
  destruct (compute_window_positions_nth W H stack count (DEFAULT_LAYOUTS t) i)
    as (p0 & _ & Hp'); [lia | lia | rewrite Hlen; lia |].
  destruct (compute_window_positions_nth W H stack count (DEFAULT_LAYOUTS t) j)
    as (q0 & _ & Hq'); [lia | lia | rewrite Hlen; lia |].
  fold ps in Hp', Hq'.
  assert (p = window_geometry W H count (DEFAULT_LAYOUTS t) i p0)
    as -> by congruence.
  assert (q = window_geometry W H count (DEFAULT_LAYOUTS t) j q0)
    as -> by congruence.
  destruct (Z.lt_ge_cases i j).
  - apply window_geometry_separated; lia || assumption.
  - apply separated_sym, window_geometry_separated; lia || assumption.
Qed.

Lemma tiles_separated_witness :
  LAYOUT_GRID <> LAYOUT_FULLSCREEN
  /\ 34 <= 640 <= 71582788
  /\ 62 <= 480
  /\ length sample_stack = 6%nat
  /\ compute_window_positions 640 480 sample_stack 3
       (DEFAULT_LAYOUTS LAYOUT_GRID) !! 0%nat
     = Some (mk_window_position 4 28 314 220 0)
  /\ compute_window_positions 640 480 sample_stack 3
       (DEFAULT_LAYOUTS LAYOUT_GRID) !! 2%nat
     = Some (mk_window_position 4 252 314 220 0)
  /\ separated DEFAULT_GAP_SIZE (mk_window_position 4 28 314 220 0)
       (mk_window_position 4 252 314 220 0).
Proof.
  assert (H6 : length sample_stack = 6%nat) by (vm_compute; reflexivity).
  assert (Hp : compute_window_positions 640 480 sample_stack 3
                 (DEFAULT_LAYOUTS LAYOUT_GRID) !! Z.to_nat 0
               = Some (mk_window_position 4 28 314 220 0))
    by (vm_compute; reflexivity).
  assert (Hq : compute_window_positions 640 480 sample_stack 3
                 (DEFAULT_LAYOUTS LAYOUT_GRID) !! Z.to_nat 2
               = Some (mk_window_position 4 252 314 220 0))
    by (vm_compute; reflexivity).
  split; [discriminate|]. split; [lia|]. split; [lia|]. split; [exact H6|].
  split; [exact Hp|]. split; [exact Hq|].
  apply (tiles_separated 640 480 sample_stack 3 LAYOUT_GRID 0 2
           (mk_window_position 4 28 314 220 0)
           (mk_window_position 4 252 314 220 0));
    try exact H6; try exact Hp; try exact Hq;
    try discriminate; try (unfold MAX_WINDOWS_PER_WORKSPACE; lia);
    try (unfold is_u32, u32_modulus; lia); lia.
Defined.


(** The Horizontal layout for any gap, where nothing wraps: the columns
    have one width, the largest that leaves a gap before, between and
    after them; they start a gap below the top bar and end a gap above
    the bottom of the screen; each column starts a gap after the one
    before; the pixels left over by the division (fewer than [count])
    all go to the right margin. *)
Theorem horizontal_layout_columns
    (W H : Z) (stack : list window_position_t) (count : Z)
    (config : layout_config_t) :
  cfg_type config = LAYOUT_HORIZONTAL ->
  length stack = 6%nat ->
  1 <= count <= MAX_WINDOWS_PER_WORKSPACE ->
  let gap := gap_size config in
  0 <= gap ->
  gap * (count + 1) + count <= W -> is_u32 W ->
  TOP_BAR_HEIGHT + 2 * gap < H -> is_u32 H ->
  let ps := compute_window_positions W H stack count config in
  let w := (W - gap * (count + 1)) / count in
  0 < w
  /\ (forall i, 0 <= i < count ->
        exists p,
          ps !! Z.to_nat i = Some p
          /\ pos_x p = gap + i * (w + gap)
          /\ pos_y p = TOP_BAR_HEIGHT + gap
          /\ pos_width p = w
          /\ pos_height p = H - TOP_BAR_HEIGHT - 2 * gap)
  /\ gap <= W - (gap + (count - 1) * (w + gap) + w) < gap + count.
Proof.
  intros Hty Hlen Hc gap Hgap HW1 HW2 HH1 HH2 ps w.
  unfold MAX_WINDOWS_PER_WORKSPACE in Hc.
  assert (Hcases : count = 1 \/ count = 2 \/ count = 3 \/ count = 4
                   \/ count = 5 \/ count = 6) by lia.
  split; [|split].
  - subst w. destruct Hcases as [->|[->|[->|[->|[->| ->]]]]];
      Z.div_mod_to_equations; lia.
  - intros i Hi.
    destruct (compute_window_positions_nth W H stack count config i)
      as (p0 & _ & Hp); [lia | lia | rewrite Hlen; lia |].
    exists (window_geometry W H count config i p0).
    split; [exact Hp|].
    unfold window_geometry. rewrite Hty.
    cbn [set_geometry pos_x pos_y pos_width pos_height].
    fold gap. subst w.
    assert (Hicases : i = 0 \/ i = 1 \/ i = 2 \/ i = 3 \/ i = 4 \/ i = 5)
      by lia.
    clear Hp ps.
    destruct Hcases as [->|[->|[->|[->|[->| ->]]]]];
      destruct Hicases as [->|[->|[->|[->|[->| ->]]]]]; try lia;
      repeat split; u32_lia.
  - subst w. destruct Hcases as [->|[->|[->|[->|[->| ->]]]]];
      Z.div_mod_to_equations; lia.
Qed.

Lemma horizontal_layout_columns_witness :
  cfg_type (DEFAULT_LAYOUTS LAYOUT_HORIZONTAL) = LAYOUT_HORIZONTAL
  /\ length sample_stack = 6%nat
  /\ 1 <= 3 <= MAX_WINDOWS_PER_WORKSPACE
  /\ 0 <= gap_size (DEFAULT_LAYOUTS LAYOUT_HORIZONTAL)
  /\ gap_size (DEFAULT_LAYOUTS LAYOUT_HORIZONTAL) * (3 + 1) + 3 <= 640
  /\ is_u32 640
  /\ TOP_BAR_HEIGHT + 2 * gap_size (DEFAULT_LAYOUTS LAYOUT_HORIZONTAL) < 480
  /\ is_u32 480
  /\ exists p,
       compute_window_positions 640 480 sample_stack 3
         (DEFAULT_LAYOUTS LAYOUT_HORIZONTAL) !! 2%nat = Some p
       /\ pos_x p = 428 /\ pos_width p = 208.
Proof.
  assert (H1 : cfg_type (DEFAULT_LAYOUTS LAYOUT_HORIZONTAL) = LAYOUT_HORIZONTAL)
    by reflexivity.
  assert (H2 : length sample_stack = 6%nat) by (vm_compute; reflexivity).
  assert (H3 : 1 <= 3 <= MAX_WINDOWS_PER_WORKSPACE)
    by (unfold MAX_WINDOWS_PER_WORKSPACE; lia).
  assert (H4 : 0 <= gap_size (DEFAULT_LAYOUTS LAYOUT_HORIZONTAL))
    by (vm_compute; discriminate).
  assert (H5 : gap_size (DEFAULT_LAYOUTS LAYOUT_HORIZONTAL) * (3 + 1) + 3 <= 640)
    by (vm_compute; discriminate).
  assert (H6 : is_u32 640) by (unfold is_u32, u32_modulus; lia).
  assert (H7 : TOP_BAR_HEIGHT + 2 * gap_size (DEFAULT_LAYOUTS LAYOUT_HORIZONTAL)
               < 480) by (vm_compute; reflexivity).
  assert (H8 : is_u32 480) by (unfold is_u32, u32_modulus; lia).
  split; [exact H1|]. split; [exact H2|]. split; [exact H3|].
  split; [exact H4|]. split; [exact H5|]. split; [exact H6|].
  split; [exact H7|]. split; [exact H8|].
  destruct (horizontal_layout_columns 640 480 sample_stack 3
              (DEFAULT_LAYOUTS LAYOUT_HORIZONTAL) H1 H2 H3 H4 H5 H6 H7 H8)
    as (_ & Hcols & _).
  destruct (Hcols 2 ltac:(lia)) as (p & Hp & Hx & _ & Hw & _).
  exists p. split; [exact Hp|].
  rewrite Hx, Hw. vm_compute. split; reflexivity.
Defined.

(** The Vertical layout for any gap, where nothing wraps: the rows have
    one height and the full width between two gaps; each row starts a
    gap below the one before, the first a gap below the top bar.  The
    usable height has lost a gap before the rows are sized, so the
    margin under the last row is two gaps, plus the pixels left over by
    the division (fewer than [count]). *)
Theorem vertical_layout_rows
    (W H : Z) (stack : list window_position_t) (count : Z)
    (config : layout_config_t) :
  cfg_type config = LAYOUT_VERTICAL ->
  length stack = 6%nat ->
  1 <= count <= MAX_WINDOWS_PER_WORKSPACE ->
  let gap := gap_size config in
  0 <= gap ->
  2 * gap < W -> is_u32 W ->
  TOP_BAR_HEIGHT + gap + gap * (count + 1) + count <= H -> is_u32 H ->
  let ps := compute_window_positions W H stack count config in
  let h := (H - TOP_BAR_HEIGHT - gap - gap * (count + 1)) / count in
  0 < h
  /\ (forall i, 0 <= i < count ->
        exists p,
          ps !! Z.to_nat i = Some p
          /\ pos_x p = gap
          /\ pos_y p = TOP_BAR_HEIGHT + gap + i * (h + gap)
          /\ pos_width p = W - 2 * gap
          /\ pos_height p = h)
  /\ 2 * gap
     <= H - (TOP_BAR_HEIGHT + gap + (count - 1) * (h + gap) + h)
     < 2 * gap + count.
Proof.
  intros Hty Hlen Hc gap Hgap HW1 HW2 HH1 HH2 ps h.
  unfold MAX_WINDOWS_PER_WORKSPACE in Hc. unfold TOP_BAR_HEIGHT in *.
  assert (Hcases : count = 1 \/ count = 2 \/ count = 3 \/ count = 4
                   \/ count = 5 \/ count = 6) by lia.
  split; [|split].
  - subst h. destruct Hcases as [->|[->|[->|[->|[->| ->]]]]];
      Z.div_mod_to_equations; lia.
  - intros i Hi.
    destruct (compute_window_positions_nth W H stack count config i)
      as (p0 & _ & Hp); [lia | lia | rewrite Hlen; lia |].
    exists (window_geometry W H count config i p0).
    split; [exact Hp|].
    unfold window_geometry. rewrite Hty.
    cbn [set_geometry pos_x pos_y pos_width pos_height].
    fold gap. subst h.
    assert (Hicases : i = 0 \/ i = 1 \/ i = 2 \/ i = 3 \/ i = 4 \/ i = 5)
      by lia.
    clear Hp ps.
    destruct Hcases as [->|[->|[->|[->|[->| ->]]]]];
      destruct Hicases as [->|[->|[->|[->|[->| ->]]]]]; try lia;
      repeat split; u32_lia.
  - subst h. destruct Hcases as [->|[->|[->|[->|[->| ->]]]]];
      Z.div_mod_to_equations; lia.
Qed.

Lemma vertical_layout_rows_witness :
  cfg_type (DEFAULT_LAYOUTS LAYOUT_VERTICAL) = LAYOUT_VERTICAL
  /\ length sample_stack = 6%nat
  /\ 1 <= 2 <= MAX_WINDOWS_PER_WORKSPACE
  /\ 0 <= gap_size (DEFAULT_LAYOUTS LAYOUT_VERTICAL)
  /\ 2 * gap_size (DEFAULT_LAYOUTS LAYOUT_VERTICAL) < 640
  /\ is_u32 640
  /\ TOP_BAR_HEIGHT + gap_size (DEFAULT_LAYOUTS LAYOUT_VERTICAL)
     + gap_size (DEFAULT_LAYOUTS LAYOUT_VERTICAL) * (2 + 1) + 2 <= 480
  /\ is_u32 480
  /\ exists p,
       compute_window_positions 640 480 sample_stack 2
         (DEFAULT_LAYOUTS LAYOUT_VERTICAL) !! 1%nat = Some p
       /\ pos_y p = 252 /\ pos_height p = 220.
Proof.
  assert (H1 : cfg_type (DEFAULT_LAYOUTS LAYOUT_VERTICAL) = LAYOUT_VERTICAL)
    by reflexivity.
  assert (H2 : length sample_stack = 6%nat) by (vm_compute; reflexivity).
  assert (H3 : 1 <= 2 <= MAX_WINDOWS_PER_WORKSPACE)
    by (unfold MAX_WINDOWS_PER_WORKSPACE; lia).
  assert (H4 : 0 <= gap_size (DEFAULT_LAYOUTS LAYOUT_VERTICAL))
    by (vm_compute; discriminate).
  assert (H5 : 2 * gap_size (DEFAULT_LAYOUTS LAYOUT_VERTICAL) < 640)
    by (vm_compute; reflexivity).
  assert (H6 : is_u32 640) by (unfold is_u32, u32_modulus; lia).
  assert (H7 : TOP_BAR_HEIGHT + gap_size (DEFAULT_LAYOUTS LAYOUT_VERTICAL)
               + gap_size (DEFAULT_LAYOUTS LAYOUT_VERTICAL) * (2 + 1) + 2
               <= 480) by (vm_compute; discriminate).
  assert (H8 : is_u32 480) by (unfold is_u32, u32_modulus; lia).
  split; [exact H1|]. split; [exact H2|]. split; [exact H3|].
  split; [exact H4|]. split; [exact H5|]. split; [exact H6|].
  split; [exact H7|]. split; [exact H8|].
  destruct (vertical_layout_rows 640 480 sample_stack 2
              (DEFAULT_LAYOUTS LAYOUT_VERTICAL) H1 H2 H3 H4 H5 H6 H7 H8)
    as (_ & Hrows & _).
  destruct (Hrows 1 ltac:(lia)) as (p & Hp & _ & Hy & _ & Hh).
  exists p. split; [exact Hp|].
  rewrite Hy, Hh. vm_compute. split; reflexivity.
Defined.


(** ** The workspace after each operation *)

Lemma set_active_workspace_in_range ws s :
  active_in_range s -> active_in_range (set_active_workspace ws s).
Proof.
  unfold active_in_range, set_active_workspace.
  cbn [g_workspaces g_active_workspace set_g_workspaces].
  now rewrite length_insert.
Qed.

Lemma redraw_incremental_in_range stack s :
  active_in_range s -> active_in_range (redraw_incremental stack s).
Proof.
  unfold active_in_range.
  destruct (redraw_incremental_same_store stack s) as (-> & -> & _). auto.
Qed.

Lemma add_window_active stack title s :
  active_in_range s ->
  window_count (active_workspace s) < MAX_WINDOWS_PER_WORKSPACE ->
  active_workspace (add_window_to_current_workspace stack title s)
  = added_workspace title (active_workspace s).
Proof.
  intros Hrange Hlt. rewrite add_window_unfold.
  rewrite (proj2 (Z.leb_gt _ _) Hlt).
  rewrite redraw_incremental_active. now apply active_workspace_set.
Qed.

Lemma close_current_window_active stack s :
  active_in_range s ->
  window_count (active_workspace s) <> 0 ->
  active_workspace (close_current_window stack s)
  = closed_workspace (active_workspace s).
Proof.
  intros Hrange Hne. rewrite close_current_window_unfold.
  rewrite (proj2 (Z.eqb_neq _ _) Hne).
  rewrite redraw_incremental_active. now apply active_workspace_set.
Qed.

Lemma cycle_focus_active stack direction s :
  active_in_range s ->
  window_count (active_workspace s) <> 0 ->
  active_workspace (cycle_focus stack direction s)
  = refocused_workspace direction (active_workspace s).
Proof.
  intros Hrange Hne. rewrite cycle_focus_unfold.
  rewrite (proj2 (Z.eqb_neq _ _) Hne).
  rewrite redraw_incremental_active. now apply active_workspace_set.
Qed.

Lemma add_window_in_range stack title s :
  active_in_range s ->
  active_in_range (add_window_to_current_workspace stack title s).
Proof.
  intros Hrange. rewrite add_window_unfold.
  destruct (_ <=? _); [exact Hrange|].
  now apply redraw_incremental_in_range, set_active_workspace_in_range.
Qed.

Lemma close_current_window_in_range stack s :
  active_in_range s -> active_in_range (close_current_window stack s).
Proof.
  intros Hrange. rewrite close_current_window_unfold.
  destruct (_ =? _); [exact Hrange|].
  now apply redraw_incremental_in_range, set_active_workspace_in_range.
Qed.

Lemma cycle_focus_in_range stack direction s :
  active_in_range s -> active_in_range (cycle_focus stack direction s).
Proof.
  intros Hrange. rewrite cycle_focus_unfold.
  destruct (_ =? _); [exact Hrange|].
  now apply redraw_incremental_in_range, set_active_workspace_in_range.
Qed.

(** ** Edge cases and round trips of the workspace store *)

(** Opening a window, with a title that fits the field
    [char title[32]], and closing it at once gives back the windows the
    workspace had, in their slots, with the same count and layout; the
    focus does not come back: it ends on the last window (index 0 when
    no window is left). *)
Theorem add_then_close
    (stack stack' : list window_position_t) (title : string) (s : wm_state) :
  let ws := active_workspace s in
  let ws' :=
    active_workspace
      (close_current_window stack'
         (add_window_to_current_workspace stack title s)) in
  let count := window_count ws in
  title_fits title ->
  active_in_range s ->
  0 <= count < MAX_WINDOWS_PER_WORKSPACE ->
  length (windows ws) = 6%nat ->
  window_count ws' = count
  /\ (forall i, 0 <= i < count ->
        windows ws' !! Z.to_nat i = windows ws !! Z.to_nat i)
  /\ layout ws' = layout ws
  /\ focused_window_index ws' = (if count =? 0 then 0 else count - 1).
Proof.
  intros ws ws' count _ Hrange Hc Hlen.
  unfold MAX_WINDOWS_PER_WORKSPACE in Hc.
  assert (Hadd : active_workspace (add_window_to_current_workspace stack title s)
                 = added_workspace title ws)
    by (apply add_window_active; [exact Hrange|fold ws count; unfold MAX_WINDOWS_PER_WORKSPACE; lia]).
  assert (E1 : add32 count 1 = count + 1)
    by (unfold add32; apply u32_small; unfold is_u32, u32_modulus; lia).
  assert (E2 : sub32 (count + 1) 1 = count).
  { unfold sub32. rewrite u32_small by (unfold is_u32, u32_modulus; lia). lia. }
  assert (Hws' : ws' = closed_workspace (added_workspace title ws)).
  { subst ws'. rewrite close_current_window_active.
    - now rewrite Hadd.
    - now apply add_window_in_range.
    - rewrite Hadd. unfold added_workspace.
      cbn [window_count set_focused_window_index set_window_count].
      fold count. rewrite E1. lia. }
  rewrite Hws'. unfold closed_workspace, added_workspace.
  cbn [window_count focused_window_index windows layout
       set_focused_window_index set_window_count set_windows].
  fold count. rewrite E1, E2.
  split; [reflexivity|]. split; [|split; [reflexivity|]].
  - intros i Hi.
    rewrite shift_windows_left_lookup;
      rewrite ?length_alter, ?Hlen; unfold u32_modulus; try lia.
    rewrite bool_decide_eq_false_2 by lia.
    now rewrite list_lookup_alter_ne by lia.
  - destruct (Z.eqb_spec count 0) as [->|Hne]; [reflexivity|].
    rewrite (proj2 (Z.leb_le count count)) by lia.
    unfold sub32. apply u32_small. unfold is_u32, u32_modulus. lia.
Qed.

Lemma add_then_close_witness :
  let ws := active_workspace sample_three_middle in
  let ws' :=
    active_workspace
      (close_current_window sample_stack
         (add_window_to_current_workspace sample_stack "term"
            sample_three_middle)) in
  title_fits "term"
  /\ active_in_range sample_three_middle
  /\ 0 <= window_count ws < MAX_WINDOWS_PER_WORKSPACE
  /\ length (windows ws) = 6%nat
  /\ focused_window_index ws = 1
  /\ window_count ws' = 3
  /\ focused_window_index ws' = 2.
Proof.
  cbv zeta.
  assert (H0 : title_fits "term")
    by (split; [reflexivity | vm_compute; reflexivity]).
  split; [exact H0|].
  assert (H1 : active_in_range sample_three_middle)
    by (split; [vm_compute; discriminate | vm_compute; lia]).
  assert (H2 : 0 <= window_count (active_workspace sample_three_middle)
               < MAX_WINDOWS_PER_WORKSPACE)
    by (split; [vm_compute; discriminate | vm_compute; reflexivity]).
  assert (H3 : length (windows (active_workspace sample_three_middle)) = 6%nat)
    by (vm_compute; reflexivity).
  split; [exact H1|]. split; [exact H2|]. split; [exact H3|].
  split; [vm_compute; reflexivity|].
  destruct (add_then_close sample_stack sample_stack "term"
              sample_three_middle H0 H1 H2 H3) as (Hcount & _ & _ & Hfocus).
  assert (H4 : window_count (active_workspace sample_three_middle) = 3)
    by (vm_compute; reflexivity).
  rewrite H4 in Hcount, Hfocus.
  split; [exact Hcount | exact Hfocus].
Defined.

(** [cycle_focus] backwards undoes [cycle_focus] forwards, and the other
    way round: the workspace is the one before. *)
Theorem cycle_focus_there_and_back
    (stack stack' : list window_position_t) (d : Z) (s : wm_state) :
  let ws := active_workspace s in
  active_in_range s ->
  ws_inv ws ->
  0 < window_count ws ->
  0 < d ->
  active_workspace (cycle_focus stack' (- d) (cycle_focus stack d s)) = ws
  /\ active_workspace (cycle_focus stack' d (cycle_focus stack (- d) s)) = ws.
Proof.
  intros ws Hrange [Hc Hf] Hpos Hd.
  unfold MAX_WINDOWS_PER_WORKSPACE in Hc. specialize (Hf Hpos).
  assert (Hstep : forall k e e',
            active_workspace (cycle_focus k e' (cycle_focus stack e s))
            = refocused_workspace e' (refocused_workspace e ws)).
  { intros k e e'.
    rewrite cycle_focus_active;
      [ | now apply cycle_focus_in_range | ].
    - rewrite cycle_focus_active; [reflexivity|exact Hrange|fold ws; lia].
    - rewrite cycle_focus_active; [|exact Hrange|fold ws; lia].
      cbn. fold ws. lia. }
  rewrite !Hstep. unfold refocused_workspace.
  cbn [focused_window_index window_count set_focused_window_index].
  rewrite (proj2 (Z.ltb_lt 0 d)) by lia.
  rewrite (proj2 (Z.ltb_ge 0 (- d))) by lia.
  set (n := window_count ws) in *. set (f := focused_window_index ws) in *.
  assert (Hn : n = 1 \/ n = 2 \/ n = 3 \/ n = 4 \/ n = 5 \/ n = 6) by lia.
  assert (Hfc : f = 0 \/ f = 1 \/ f = 2 \/ f = 3 \/ f = 4 \/ f = 5) by lia.
  assert (Hback : mod32 (sub32 (add32 (mod32 (add32 f 1) n) n) 1) n = f).
  { clear Hstep. destruct Hn as [->|[->|[->|[->|[->| ->]]]]];
      destruct Hfc as [->|[->|[->|[->|[->| ->]]]]]; try lia; reflexivity. }
  assert (Hforth : mod32 (add32 (mod32 (sub32 (add32 f n) 1) n) 1) n = f).
  { clear Hstep. destruct Hn as [->|[->|[->|[->|[->| ->]]]]];
      destruct Hfc as [->|[->|[->|[->|[->| ->]]]]]; try lia; reflexivity. }
  rewrite Hback, Hforth. subst f. destruct ws; split; reflexivity.
Qed.

Lemma cycle_focus_there_and_back_witness :
  active_in_range sample_three
  /\ ws_inv (active_workspace sample_three)
  /\ 0 < window_count (active_workspace sample_three)
  /\ 0 < 1
  /\ active_workspace
       (cycle_focus sample_stack (- (1)) (cycle_focus sample_stack 1 sample_three))
     = active_workspace sample_three.
Proof.
  assert (H1 : active_in_range sample_three)
    by (split; [vm_compute; discriminate | vm_compute; lia]).
  assert (H2 : ws_inv (active_workspace sample_three))
    by (vm_compute; intuition discriminate).
  assert (H3 : 0 < window_count (active_workspace sample_three))
    by (vm_compute; reflexivity).
  assert (H4 : 0 < 1) by lia.
  split; [exact H1|]. split; [exact H2|]. split; [exact H3|].
  split; [exact H4|].
  exact (proj1 (cycle_focus_there_and_back sample_stack sample_stack 1
                  sample_three H1 H2 H3 H4)).
Defined.


(** ** The snapshot after a redraw *)

Lemma redraw_incremental_snapshot stack s :
  snapshot_in_sync (redraw_incremental stack s).
Proof.
  unfold snapshot_in_sync. rewrite redraw_incremental_active.
  unfold redraw_incremental.
  destruct (Z.eqb_spec (window_count (active_workspace s))
              (g_prev_window_count s)) as [Hc|Hc]; cbn [negb orb].
  - destruct (layout_type_eqb (cfg_type (layout (active_workspace s)))
                (g_prev_layout s)) eqn:Hl; cbn [negb].
    + apply layout_type_eqb_eq in Hl.
      destruct (Z.eqb_spec (focused_window_index (active_workspace s))
                  (g_prev_focused s)) as [Hf|Hf]; cbn [negb].
      * split; [|split]; congruence.
      * split; [|split]; cbn; congruence.
    + split; [|split]; reflexivity.
  - split; [|split]; reflexivity.
Qed.

Lemma erase_previous_positions s :
  g_prev_positions (erase_previous s) = g_prev_positions s.
Proof.
  unfold erase_previous.
  apply (for_range_invariant
           (fun s' => g_prev_positions s' = g_prev_positions s));
    [|reflexivity].
  intros i s' Hs'. exact Hs'.
Qed.

(** The rectangles [draw_all_windows] has copied into the snapshot after
    [n] rounds. *)
Lemma draw_all_windows_rounds_snapshot ws positions s (n : nat) :
  (n <= length positions)%nat ->
  (n <= length (g_prev_positions s))%nat ->
  let r :=
    for_loop 0 n (fun i '(positions, s) =>
      let positions :=
        alter (set_pos_pid (win_pid (windows ws !!! Z.to_nat i)))
          (Z.to_nat i) positions in
      let s :=
        emit (Call_draw_window_frame (positions !!! Z.to_nat i)
                (border_size (layout ws)) (border_color (layout ws))
                (if i =? focused_window_index ws then 1 else 0)) s in
      let s :=
        set_g_prev_positions
          (<[Z.to_nat i := positions !!! Z.to_nat i]> (g_prev_positions s)) s in
      (positions, s)) (positions, s) in
  length (fst r) = length positions
  /\ (forall j : nat, (n <= j)%nat -> fst r !! j = positions !! j)
  /\ length (g_prev_positions (snd r)) = length (g_prev_positions s)
  /\ (forall j : nat, (n <= j)%nat ->
        g_prev_positions (snd r) !! j = g_prev_positions s !! j)
  /\ (forall j : nat, (j < n)%nat ->
        g_prev_positions (snd r) !! j
        = Some (set_pos_pid (win_pid (windows ws !!! j)) (positions !!! j))).
Proof.
  induction n as [|n IH]; intros Hn Hm.
  - cbn. repeat split; try reflexivity. intros j Hj. lia.
  - rewrite for_loop_snoc. rewrite Z.add_0_l, Nat2Z.id.
    specialize (IH ltac:(lia) ltac:(lia)). cbv zeta in IH.
    destruct (for_loop 0 n _ (positions, s)) as [ps s'].
    cbn [fst snd] in IH.
    destruct IH as (Hlen & Hrest & Hplen & Hprest & Hpdone).
    cbn [fst snd g_prev_positions emit set_g_prev_positions].
    split; [now rewrite length_alter|].
    split; [intros j Hj; rewrite list_lookup_alter_ne by lia; apply Hrest; lia|].
    split; [now rewrite length_insert|].
    split; [intros j Hj; rewrite list_lookup_insert_ne by lia; apply Hprest; lia|].
    intros j Hj.
    destruct (decide (j = n)) as [->|Hne].
    + rewrite list_lookup_insert_eq by lia. f_equal.
      rewrite list_lookup_total_alter_eq by lia. f_equal.
      apply list_lookup_total_correct.
      rewrite Hrest by lia.
      apply list_lookup_lookup_total_lt. lia.
    + rewrite list_lookup_insert_ne by lia. apply Hpdone. lia.
Qed.

Lemma window_geometry_again W H count config i p q :
  q = set_pos_pid (pos_pid q) (window_geometry W H count config i p) ->
  window_geometry W H count config i q = q.
Proof.
  intros Hq. rewrite Hq at 2. unfold window_geometry.
  destruct (cfg_type config); try reflexivity.
  destruct (count =? 1); [reflexivity|].
  destruct (i =? 0); reflexivity.
Qed.

Lemma structural_change_test s :
  negb (window_count (active_workspace s) =? g_prev_window_count s)
  || negb (layout_type_eqb (cfg_type (layout (active_workspace s)))
             (g_prev_layout s))
  = bool_decide (structural_change s).
Proof.
  unfold structural_change.
  destruct (Z.eqb_spec (window_count (active_workspace s))
              (g_prev_window_count s)) as [Hc|Hc]; cbn [negb orb].
  - destruct (layout_type_eqb _ _) eqn:Hl; cbn [negb].
    + apply layout_type_eqb_eq in Hl.
      rewrite bool_decide_eq_false_2; [reflexivity|]. tauto.
    + rewrite bool_decide_eq_true_2; [reflexivity|]. right.
      intros Heq. apply layout_type_eqb_eq in Heq. congruence.
  - rewrite bool_decide_eq_true_2; [reflexivity|]. now left.
Qed.

Lemma redraw_incremental_structural_path stack s :
  structural_change s ->
  let ws := active_workspace s in
  redraw_incremental stack s
  = set_g_prev_focused (focused_window_index ws)
      (set_g_prev_layout (cfg_type (layout ws))
         (set_g_prev_window_count (window_count ws)
            (if window_count ws =? 0
             then emit Call_draw_empty_desktop_indicator (erase_previous s)
             else snd (draw_all_windows ws
                         (compute_window_positions (g_fb_width s)
                            (g_fb_height s) stack (window_count ws) (layout ws))
                         (erase_previous s))))).
Proof.
  intros Hch ws. subst ws. unfold redraw_incremental.
  rewrite structural_change_test, bool_decide_eq_true_2 by exact Hch.
  destruct (erase_previous_same_store s) as (_ & _ & -> & -> & _).
  reflexivity.
Qed.

Lemma redraw_incremental_quiet_path stack s :
  ~ structural_change s ->
  g_prev_positions (redraw_incremental stack s) = g_prev_positions s.
Proof.
  intros Hch. unfold redraw_incremental.
  rewrite structural_change_test, bool_decide_eq_false_2 by exact Hch.
  destruct (negb _); reflexivity.
Qed.

(** The rectangles of the snapshot after [redraw_incremental]: left as
    they were when neither count nor variant differ from the snapshot,
    and otherwise those of the windows just drawn. *)
Lemma redraw_incremental_positions stack s :
  let ws := active_workspace s in
  0 <= window_count ws <= 6 ->
  length stack = 6%nat ->
  length (g_prev_positions s) = 6%nat ->
  let s' := redraw_incremental stack s in
  length (g_prev_positions s') = 6%nat
  /\ (~ structural_change s -> g_prev_positions s' = g_prev_positions s)
  /\ (structural_change s ->
      forall i, 0 <= i < window_count ws ->
        g_prev_positions s' !! Z.to_nat i
        = Some (set_pos_pid (win_pid (windows ws !!! Z.to_nat i))
                  (window_geometry (g_fb_width s) (g_fb_height s)
                     (window_count ws) (layout ws) i
                     (stack !!! Z.to_nat i)))).
Proof.
  intros ws Hc Hstack Hprev s'. subst s'.
  destruct (decide (structural_change s)) as [Hch|Hch].
  - rewrite redraw_incremental_structural_path by exact Hch. fold ws.
    cbn [g_prev_positions set_g_prev_focused set_g_prev_layout
         set_g_prev_window_count].
    destruct (Z.eqb_spec (window_count ws) 0) as [Hz|Hz].
    + cbn [g_prev_positions emit]. rewrite erase_previous_positions.
      split; [exact Hprev|]. split; [tauto|]. intros _ i Hi. lia.
    + set (positions := compute_window_positions _ _ _ _ _).
      assert (Hplen : length positions = 6%nat)
        by (subst positions; now rewrite compute_window_positions_length).
      destruct (draw_all_windows_rounds_snapshot ws positions
                  (erase_previous s) (Z.to_nat (window_count ws)))
        as (_ & _ & Hlen & _ & Hdone);
        [lia | rewrite erase_previous_positions; lia |].
      unfold draw_all_windows, for_range. rewrite Z.sub_0_r.
      cbv zeta in Hlen, Hdone.
      split; [rewrite Hlen, erase_previous_positions; exact Hprev|].
      split; [tauto|].
      intros _ i Hi. rewrite Hdone by lia. f_equal. f_equal.
      subst positions.
      destruct (compute_window_positions_nth (g_fb_width s) (g_fb_height s)
                  stack (window_count ws) (layout ws) i)
        as (p0 & Hp0 & Hp); [lia | lia | lia |].
      apply list_lookup_total_correct. rewrite Hp. f_equal. f_equal.
      symmetry. now apply list_lookup_total_correct.
  - rewrite redraw_incremental_quiet_path by exact Hch.
    split; [exact Hprev|]. split; [reflexivity|]. tauto.
Qed.


(** ** What every state of a run satisfies *)

Lemma run_invariant_in_range W H pitch s :
  run_invariant W H pitch s -> active_in_range s.
Proof.
  intros Hinv. destruct (inv_others _ _ _ _ Hinv) as [ws Hws].
  unfold active_in_range. rewrite (inv_active _ _ _ _ Hinv), Hws.
  cbn. lia.
Qed.

Lemma run_invariant_start W H pitch stack :
  run_invariant W H pitch (_start stack W H pitch).
Proof.
  assert (Hs : _start stack W H pitch
               = mk_wm_state
                   (replicate 4 initial_workspace)
                   0 W H pitch
                   (replicate 6 (mk_window_position 0 0 0 0 0))
                   0 LAYOUT_GRID 0
                   [Call_fill_rect 0 0 0 0 COLOR_BAR_BG]).
  { unfold _start. rewrite start_setup_value. vm_compute. reflexivity. }
  rewrite Hs. constructor.
  - reflexivity.
  - repeat split.
  - exists initial_workspace. reflexivity.
  - vm_compute. intuition discriminate.
  - reflexivity.
  - reflexivity.
  - intros i Hi. vm_compute in Hi. destruct Hi as [Hi1 Hi2].
    destruct i; try discriminate; now destruct Hi1.
  - split; [|split]; reflexivity.
  - split; [reflexivity|].
    intros i Hi. vm_compute in Hi. destruct Hi as [Hi1 Hi2].
    destruct i; try discriminate; now destruct Hi1.
Qed.

(** One operation: the active workspace is replaced by [ws'] and
    [redraw_incremental] is called. *)
Lemma run_invariant_step W H pitch stack s ws' :
  run_invariant W H pitch s ->
  length stack = 6%nat ->
  ws_inv ws' ->
  length (windows ws') = 6%nat ->
  layout ws' = DEFAULT_LAYOUTS (cfg_type (layout ws')) ->
  (forall i, 0 <= i < window_count ws' ->
     exists pid,
       0 <= pid < MAX_WINDOWS_PER_WORKSPACE
       /\ windows ws' !! Z.to_nat i = Some (mk_window "template" pid 1)) ->
  (window_count ws' = window_count (active_workspace s) ->
   cfg_type (layout ws') = cfg_type (layout (active_workspace s)) ->
   windows ws' = windows (active_workspace s)
   /\ layout ws' = layout (active_workspace s)) ->
  run_invariant W H pitch
    (redraw_incremental stack (set_active_workspace ws' s)).
Proof.
  intros Hinv Hstack Hws' Hslots Hlayout Hwindows Hquiet.
  pose proof (run_invariant_in_range _ _ _ _ Hinv) as Hrange.
  set (s0 := set_active_workspace ws' s).
  assert (Hact0 : active_workspace s0 = ws')
    by (subst s0; now apply active_workspace_set).
  assert (Hact : active_workspace (redraw_incremental stack s0) = ws')
    by (now rewrite redraw_incremental_active).
  destruct (redraw_incremental_same_store stack s0)
    as (Hsw & Hsa & Hsx & Hsy & Hsp).
  destruct (inv_dimensions _ _ _ _ Hinv) as (Hdx & Hdy & Hdp).
  destruct (inv_snapshot _ _ _ _ Hinv) as (Hsc & Hsl & Hsf).
  destruct (inv_rectangles _ _ _ _ Hinv) as (Hplen & Hrects).
  constructor.
  - rewrite Hsa. subst s0. cbn. apply (inv_active _ _ _ _ Hinv).
  - rewrite Hsx, Hsy, Hsp. subst s0. cbn. auto.
  - rewrite Hsw. subst s0. unfold set_active_workspace.
    cbn [g_workspaces set_g_workspaces].
    destruct (inv_others _ _ _ _ Hinv) as [ws Hws].
    rewrite (inv_active _ _ _ _ Hinv), Hws. exists ws'. reflexivity.
  - now rewrite Hact.
  - now rewrite Hact.
  - now rewrite Hact.
  - now rewrite Hact.
  - apply redraw_incremental_snapshot.
  - rewrite Hact.
    assert (Hc : 0 <= window_count ws' <= 6)
      by (destruct Hws' as [Hc _]; exact Hc).
    destruct (redraw_incremental_positions stack s0) as (Hlen & Hsame & Hnew);
      [rewrite Hact0; exact Hc | exact Hstack | subst s0; exact Hplen |].
    cbv zeta in Hlen, Hsame, Hnew. rewrite Hact0 in Hnew.
    split; [exact Hlen|]. intros i Hi.
    destruct (decide (structural_change s0)) as [Hch|Hch].
    + rewrite (Hnew Hch i Hi). eexists. split; [reflexivity|].
      split; [reflexivity|].
      replace (g_fb_width s0) with W by (subst s0; cbn; congruence).
      replace (g_fb_height s0) with H by (subst s0; cbn; congruence).
      eapply window_geometry_again. reflexivity.
    + rewrite (Hsame Hch).
      assert (Hsamec : window_count ws' = window_count (active_workspace s)).
      { destruct (Z.eq_dec (window_count ws') (window_count (active_workspace s)))
          as [Heq|Hne]; [exact Heq|].
        exfalso. apply Hch. left. rewrite Hact0. subst s0. cbn. congruence. }
      assert (Hsamet : cfg_type (layout ws')
                       = cfg_type (layout (active_workspace s))).
      { destruct (decide (cfg_type (layout ws')
                          = cfg_type (layout (active_workspace s))))
          as [Heq|Hne]; [exact Heq|].
        exfalso. apply Hch. right. rewrite Hact0. subst s0. cbn. congruence. }
      destruct (Hquiet Hsamec Hsamet) as [Hwin Hlay].
      rewrite Hwin, Hlay, Hsamec. subst s0. cbn [g_prev_positions set_active_workspace set_g_workspaces].
      apply Hrects. lia.
Qed.

Lemma default_layout_type t : cfg_type (DEFAULT_LAYOUTS t) = t.
Proof. now destruct t. Qed.

Lemma next_layout_differs t : next_layout_in_order t <> t.
Proof. destruct t; discriminate. Qed.

Lemma run_invariant_press W H pitch stack k s :
  length stack = 6%nat ->
  run_invariant W H pitch s ->
  run_invariant W H pitch (press stack k s).
Proof.
  intros Hstack Hinv.
  pose proof (inv_workspace _ _ _ _ Hinv) as Hws.
  pose proof (inv_slots _ _ _ _ Hinv) as Hslots.
  pose proof (inv_layout _ _ _ _ Hinv) as Hlayout.
  pose proof (inv_windows _ _ _ _ Hinv) as Hwindows.
  set (ws := active_workspace s) in *.
  assert (Hc : 0 <= window_count ws <= 6) by (destruct Hws as [Hc _]; exact Hc).
  destruct k; cbn [press].
  - (* focus *)
    unfold on_cycle_focus_next. rewrite cycle_focus_unfold. fold ws.
    destruct (Z.eqb_spec (window_count ws) 0) as [Hz|Hz]; [exact Hinv|].
    apply run_invariant_step; try assumption.
    + now apply ws_inv_refocused.
    + intros _ _. split; reflexivity.
  - (* layout *)
    unfold on_cycle_layout. rewrite cycle_layout_unfold. fold ws.
    apply run_invariant_step; try assumption.
    + unfold relaid_workspace. cbn [layout set_layout].
      now rewrite layout_successor, default_layout_type.
    + intros _ Hsame. exfalso. fold ws in Hsame.
      unfold relaid_workspace in Hsame. cbn [layout set_layout] in Hsame.
      rewrite layout_successor, default_layout_type in Hsame.
      exact (next_layout_differs _ Hsame).
  - (* close *)
    unfold on_close_window. rewrite close_current_window_unfold. fold ws.
    destruct (Z.eqb_spec (window_count ws) 0) as [Hz|Hz]; [exact Hinv|].
    assert (Hsub : sub32 (window_count ws) 1 = window_count ws - 1).
    { unfold sub32. apply u32_small. unfold is_u32, u32_modulus. lia. }
    apply run_invariant_step; try assumption.
    + now apply ws_inv_closed.
    + unfold closed_workspace. cbn [windows].
      now rewrite shift_windows_left_length.
    + unfold closed_workspace. cbn [windows window_count]. rewrite Hsub.
      intros i Hi.
      destruct Hws as [_ Hf]. specialize (Hf ltac:(lia)).
      rewrite shift_windows_left_lookup;
        rewrite ?Hslots; unfold u32_modulus; try lia.
      destruct (bool_decide_reflect
                  (focused_window_index ws <= Z.of_nat (Z.to_nat i)
                   < window_count ws - 1)).
      * destruct (Hwindows (i + 1)) as (pid & Hpid & Hw); [lia|].
        exists pid. split; [exact Hpid|].
        rewrite <- Hw. f_equal. lia.
      * apply Hwindows. lia.
    + unfold closed_workspace. cbn [window_count]. rewrite Hsub.
      fold ws. lia.
  - (* new *)
    unfold on_new_window. rewrite add_window_unfold. fold ws.
    unfold MAX_WINDOWS_PER_WORKSPACE at 1.
    destruct (Z.leb_spec 6 (window_count ws)) as [Hfull|Hfree]; [exact Hinv|].
    assert (Hadd : add32 (window_count ws) 1 = window_count ws + 1).
    { unfold add32. apply u32_small. unfold is_u32, u32_modulus. lia. }
    apply run_invariant_step; try assumption.
    + apply ws_inv_added; [exact Hws|unfold MAX_WINDOWS_PER_WORKSPACE; lia].
    + unfold added_workspace. cbn [windows set_focused_window_index
                                   set_window_count set_windows].
      now rewrite length_alter.
    + unfold added_workspace. cbn [windows window_count set_focused_window_index
                                   set_window_count set_windows].
      rewrite Hadd. intros i Hi.
      destruct (Z.eq_dec i (window_count ws)) as [->|Hne].
      * exists (window_count ws).
        split; [unfold MAX_WINDOWS_PER_WORKSPACE; lia|].
        rewrite list_lookup_alter_eq.
        destruct (lookup_lt_is_Some_2 (windows ws) (Z.to_nat (window_count ws)))
          as [w0 Hw0]; [lia|].
        now rewrite Hw0.
      * rewrite list_lookup_alter_ne by lia. apply Hwindows. lia.
    + unfold added_workspace. cbn [window_count set_focused_window_index
                                   set_window_count set_windows].
      rewrite Hadd. fold ws. lia.
Qed.

(** In every state of a run: the active workspace is workspace 0 and
    the three others are as [initialize_workspaces] left them; the
    framebuffer dimensions are those read at start-up; the active
    workspace satisfies its invariant and holds one of the five
    compiled-in layout configurations; every window among the first
    [window_count] is open, titled "template", with an identifier below
    6; the snapshot holds the count, variant and focus of the workspace,
    and its first [window_count] rectangles are those the layout gives
    the windows, each with the identifier of its window. *)
Theorem reachable_invariant (W H pitch : Z) (s : wm_state) :
  reachable W H pitch s -> run_invariant W H pitch s.
Proof.
  induction 1 as [stack Hstack|stack k s Hstack Hreach IH].
  - apply run_invariant_start.
  - now apply run_invariant_press.
Qed.


Lemma reachable_invariant_witness :
  reachable 640 480 640 sample_run
  /\ run_invariant 640 480 640 sample_run.
Proof.
  assert (H6 : length sample_stack = 6%nat) by (vm_compute; reflexivity).
  assert (H1 : reachable 640 480 640 sample_run).
  { unfold sample_run, run. cbn [fold_left].
    repeat (apply reachable_press; [exact H6|]).
    apply reachable_start. exact H6. }
  split; [exact H1|].
  exact (reachable_invariant 640 480 640 sample_run H1).
Defined.

(** Window identifiers need not be distinct.  The identifier of a
    window is the number of windows at the moment it was opened, and
    closing does not renumber: after the run [sample_run] the workspace
    holds three windows with the identifiers 1, 2 and 2.  So the
    windows of a workspace having pairwise distinct identifiers is no
    invariant of a run. *)
Theorem window_identifiers_not_unique :
  ~ (forall (W H pitch : Z) (s : wm_state),
       reachable W H pitch s ->
       NoDup (win_pid
                <$> take (Z.to_nat (window_count (active_workspace s)))
                      (windows (active_workspace s)))).
Proof.
  intros Hall. specialize (Hall 640 480 640 sample_run).
  assert (H6 : length sample_stack = 6%nat) by (vm_compute; reflexivity).
  assert (H1 : reachable 640 480 640 sample_run).
  { unfold sample_run, run. cbn [fold_left].
    repeat (apply reachable_press; [exact H6|]).
    apply reachable_start. exact H6. }
  specialize (Hall H1).
  assert (Hpids : win_pid
                    <$> take (Z.to_nat
                                (window_count (active_workspace sample_run)))
                          (windows (active_workspace sample_run))
                  = [1; 2; 2]) by (vm_compute; reflexivity).
  rewrite Hpids in Hall.
  apply NoDup_cons in Hall as [_ Hall].
  apply NoDup_cons in Hall as [Hin _].
  apply Hin. constructor.
Qed.

(** ** The structural repaint in full *)

Lemma erase_previous_rounds s (n : nat) :
  let s' :=
    for_loop 0 n (fun i s =>
      let p := g_prev_positions s !!! Z.to_nat i in
      emit (Call_fill_rect (pos_x p) (pos_y p) (pos_width p) (pos_height p)
              COLOR_BAR_BG) s) s in
  g_prev_positions s' = g_prev_positions s
  /\ draw_log s'
     = draw_log s
       ++ ((fun k : nat =>
              let p := g_prev_positions s !!! k in
              Call_fill_rect (pos_x p) (pos_y p) (pos_width p) (pos_height p)
                COLOR_BAR_BG) <$> seq 0 n).
Proof.
  induction n as [|n IH].
  - cbn. now rewrite app_nil_r.
  - rewrite for_loop_snoc, Z.add_0_l, Nat2Z.id. cbv zeta in IH |- *.
    destruct IH as [Hpos Hlog].
    cbn [g_prev_positions draw_log emit].
    split; [exact Hpos|].
    rewrite Hlog, Hpos, seq_S, fmap_app, app_assoc. reflexivity.
Qed.

Lemma erase_previous_log s :
  draw_log (erase_previous s) = draw_log s ++ erase_calls s.
Proof.
  unfold erase_previous, erase_calls, for_range. rewrite Z.sub_0_r.
  apply erase_previous_rounds.
Qed.

Lemma window_frame_calls_focused ws positions :
  0 < window_count ws <= 6 ->
  0 <= focused_window_index ws < window_count ws ->
  length (filter (fun c => is_focused_frame c = true)
            (window_frame_calls ws positions)) = 1%nat.
Proof.
  intros Hc Hf. unfold window_frame_calls, window_frame_call.
  set (n := window_count ws) in *. set (f := focused_window_index ws) in *.
  assert (Hn : n = 1 \/ n = 2 \/ n = 3 \/ n = 4 \/ n = 5 \/ n = 6) by lia.
  assert (Hfc : f = 0 \/ f = 1 \/ f = 2 \/ f = 3 \/ f = 4 \/ f = 5) by lia.
  destruct Hn as [->|[->|[->|[->|[->| ->]]]]];
    destruct Hfc as [->|[->|[->|[->|[->| ->]]]]]; try lia;
    reflexivity.
Qed.

Lemma redraw_incremental_structural_log stack s :
  structural_change s ->
  0 <= window_count (active_workspace s) <= 6 ->
  length stack = 6%nat ->
  draw_log (redraw_incremental stack s)
  = draw_log s ++ erase_calls s
    ++ (if window_count (active_workspace s) =? 0
        then [Call_draw_empty_desktop_indicator]
        else window_frame_calls (active_workspace s)
               (compute_window_positions (g_fb_width s) (g_fb_height s) stack
                  (window_count (active_workspace s))
                  (layout (active_workspace s)))).
Proof.
  intros Hch Hc Hstack.
  rewrite redraw_incremental_structural_path by exact Hch.
  cbn [draw_log set_g_prev_focused set_g_prev_layout set_g_prev_window_count].
  destruct (Z.eqb_spec (window_count (active_workspace s)) 0) as [Hz|Hz].
  - cbn [draw_log emit]. rewrite erase_previous_log.
    now rewrite <- app_assoc.
  - destruct (draw_all_windows_log (active_workspace s)
                (compute_window_positions (g_fb_width s) (g_fb_height s) stack
                   (window_count (active_workspace s))
                   (layout (active_workspace s)))
                (erase_previous s)) as (Hlog & _); [lia| |].
    { rewrite compute_window_positions_length, Hstack. lia. }
    rewrite Hlog, erase_previous_log. now rewrite <- app_assoc.
Qed.

(** When the window count or the layout variant differs from the
    snapshot, [redraw_incremental] first fills every rectangle of the
    snapshot with [COLOR_BAR_BG], in order, and then draws the indicator
    when the workspace is empty and otherwise one frame per window, in
    order, of which exactly one, the frame of the focused window, has the
    focused border; it then sets the snapshot's count, variant and
    focus. *)
Theorem redraw_incremental_structural
    (stack : list window_position_t) (s : wm_state) :
  let ws := active_workspace s in
  structural_change s ->
  ws_inv ws ->
  length stack = 6%nat ->
  let positions :=
    compute_window_positions (g_fb_width s) (g_fb_height s) stack
      (window_count ws) (layout ws) in
  let s' := redraw_incremental stack s in
  draw_log s'
  = draw_log s ++ erase_calls s
    ++ (if window_count ws =? 0 then [Call_draw_empty_desktop_indicator]
        else window_frame_calls ws positions)
  /\ length (erase_calls s) = Z.to_nat (g_prev_window_count s)
  /\ (0 < window_count ws ->
      length (window_frame_calls ws positions) = Z.to_nat (window_count ws)
      /\ length (filter (fun c => is_focused_frame c = true)
                   (window_frame_calls ws positions)) = 1%nat)
  /\ g_prev_window_count s' = window_count ws
  /\ g_prev_layout s' = cfg_type (layout ws)
  /\ g_prev_focused s' = focused_window_index ws.
Proof.
  intros ws Hch [Hc Hf] Hstack positions s'.
  unfold MAX_WINDOWS_PER_WORKSPACE in Hc.
  split; [now apply redraw_incremental_structural_log|].
  split; [unfold erase_calls; now rewrite length_fmap, length_seq|].
  split.
  - intros Hpos. split.
    + unfold window_frame_calls. now rewrite length_fmap, length_seq.
    + apply window_frame_calls_focused; [lia|]. apply Hf. exact Hpos.
  - subst s'. rewrite redraw_incremental_structural_path by exact Hch.
    repeat split.
Qed.

Lemma redraw_incremental_structural_witness :
  let s :=
    set_active_workspace
      (closed_workspace (active_workspace sample_three)) sample_three in
  structural_change s
  /\ ws_inv (active_workspace s)
  /\ length sample_stack = 6%nat
  /\ draw_log (redraw_incremental sample_stack s)
     = draw_log s
       ++ [Call_fill_rect 4 28 314 220 COLOR_BAR_BG;
           Call_fill_rect 322 28 314 220 COLOR_BAR_BG;
           Call_fill_rect 4 252 314 220 COLOR_BAR_BG;
           Call_draw_window_frame (mk_window_position 4 28 314 444 0) 2
             COLOR_BORDER_NORMAL 0;
           Call_draw_window_frame (mk_window_position 322 28 314 444 1) 2
             COLOR_BORDER_NORMAL 1].
Proof.
  cbv zeta.
  set (s := set_active_workspace
              (closed_workspace (active_workspace sample_three)) sample_three).
  assert (H1 : structural_change s) by (left; vm_compute; discriminate).
  assert (H2 : ws_inv (active_workspace s))
    by (vm_compute; intuition discriminate).
  assert (H3 : length sample_stack = 6%nat) by (vm_compute; reflexivity).
  split; [exact H1|]. split; [exact H2|]. split; [exact H3|].
  destruct (redraw_incremental_structural sample_stack s H1 H2 H3)
    as (Hlog & _).
  rewrite Hlog. vm_compute. reflexivity.
Defined.

(** ** Once round the windows *)

Lemma set_focused_window_index_same ws :
  set_focused_window_index (focused_window_index ws) ws = ws.
Proof. now destruct ws. Qed.

Lemma refocus_forward_lap (n f : Z) :
  1 <= n <= 6 -> 0 <= f < n ->
  Nat.iter (Z.to_nat n) (fun g => mod32 (add32 g 1) n) f = f.
Proof.
  intros Hn Hf.
  assert (Hnc : n = 1 \/ n = 2 \/ n = 3 \/ n = 4 \/ n = 5 \/ n = 6) by lia.
  assert (Hfc : f = 0 \/ f = 1 \/ f = 2 \/ f = 3 \/ f = 4 \/ f = 5) by lia.
  destruct Hnc as [->|[->|[->|[->|[->| ->]]]]];
    destruct Hfc as [->|[->|[->|[->|[->| ->]]]]]; try lia; reflexivity.
Qed.

(** Pressing the focus key as many times as the workspace has windows
    brings the focus back to where it was and leaves the workspace as it
    was. *)
Theorem focus_key_lap
    (stack : list window_position_t) (s : wm_state) :
  let ws := active_workspace s in
  active_in_range s ->
  ws_inv ws ->
  0 < window_count ws ->
  active_workspace
    (Nat.iter (Z.to_nat (window_count ws)) (on_cycle_focus_next stack) s)
  = ws.
Proof.
  intros ws Hrange [Hc Hf] Hpos.
  unfold MAX_WINDOWS_PER_WORKSPACE in Hc. specialize (Hf Hpos).
  assert (Hiter : forall k : nat,
            active_in_range (Nat.iter k (on_cycle_focus_next stack) s)
            /\ active_workspace (Nat.iter k (on_cycle_focus_next stack) s)
               = set_focused_window_index
                   (Nat.iter k (fun g => mod32 (add32 g 1) (window_count ws))
                      (focused_window_index ws)) ws).
  { induction k as [|k [IHr IHa]].
    - split; [exact Hrange|]. change (Nat.iter 0 ?f ?x) with x.
      symmetry. apply set_focused_window_index_same.
    - rewrite !Nat.iter_succ.
      set (sk := Nat.iter k (on_cycle_focus_next stack) s) in *.
      unfold on_cycle_focus_next.
      split; [now apply cycle_focus_in_range|].
      rewrite cycle_focus_active; [|exact IHr|rewrite IHa; cbn; lia].
      rewrite IHa. unfold refocused_workspace. cbn. reflexivity. }
  destruct (Hiter (Z.to_nat (window_count ws))) as [_ ->].
  rewrite refocus_forward_lap by lia.
  apply set_focused_window_index_same.
Qed.

Lemma focus_key_lap_witness :
  active_in_range sample_three_middle
  /\ ws_inv (active_workspace sample_three_middle)
  /\ 0 < window_count (active_workspace sample_three_middle)
  /\ window_count (active_workspace sample_three_middle) = 3
  /\ active_workspace
       (Nat.iter
          (Z.to_nat (window_count (active_workspace sample_three_middle)))
          (on_cycle_focus_next sample_stack) sample_three_middle)
     = active_workspace sample_three_middle.
Proof.
  assert (H1 : active_in_range sample_three_middle)
    by (split; [vm_compute; discriminate | vm_compute; lia]).
  assert (H2 : ws_inv (active_workspace sample_three_middle))
    by (vm_compute; intuition discriminate).
  assert (H3 : 0 < window_count (active_workspace sample_three_middle))
    by (vm_compute; reflexivity).
  assert (H4 : window_count (active_workspace sample_three_middle) = 3)
    by (vm_compute; reflexivity).
  split; [exact H1|]. split; [exact H2|]. split; [exact H3|].
  split; [exact H4|].
  exact (focus_key_lap sample_stack sample_three_middle H1 H2 H3).
Defined.

(** ** What one key press draws *)

Lemma count_calls_app kind l1 l2 :
  count_calls kind (l1 ++ l2) = count_calls kind l1 + count_calls kind l2.
Proof. unfold count_calls. rewrite filter_app, length_app. lia. Qed.

Lemma count_calls_all kind l :
  Forall (fun c => kind c = true) l ->
  count_calls kind l = Z.of_nat (length l).
Proof.
  intros Hall. unfold count_calls. f_equal.
  induction Hall as [|c l Hc Hl IH]; [reflexivity|].
  rewrite filter_cons_True by exact Hc. cbn [length]. now rewrite IH.
Qed.

Lemma count_calls_none kind l :
  Forall (fun c => kind c = false) l -> count_calls kind l = 0.
Proof.
  intros Hall. unfold count_calls. rewrite filter_none; [reflexivity|].
  eapply Forall_impl; [exact Hall|]. intros c Hc. cbv beta. congruence.
Qed.

Lemma tally_app l1 l2 :
  tally (l1 ++ l2)
  = mk_call_tally (erase_fills (tally l1) + erase_fills (tally l2))
      (window_frames (tally l1) + window_frames (tally l2))
      (empty_indicators (tally l1) + empty_indicators (tally l2)).
Proof. unfold tally. now rewrite !count_calls_app. Qed.

Lemma tally_erase_calls s :
  0 <= g_prev_window_count s ->
  tally (erase_calls s) = mk_call_tally (g_prev_window_count s) 0 0.
Proof.
  intros Hc. unfold tally.
  rewrite count_calls_all, !count_calls_none.
  - unfold erase_calls. rewrite length_fmap, length_seq. f_equal. lia.
  - unfold erase_calls. apply Forall_fmap, Forall_forall. now intros n _.
  - unfold erase_calls. apply Forall_fmap, Forall_forall. now intros n _.
  - unfold erase_calls. apply Forall_fmap, Forall_forall. now intros n _.
Qed.

Lemma tally_window_frame_calls ws positions :
  0 <= window_count ws ->
  tally (window_frame_calls ws positions)
  = mk_call_tally 0 (window_count ws) 0.
Proof.
  intros Hc. unfold tally.
  rewrite (count_calls_all is_window_frame), !count_calls_none.
  - unfold window_frame_calls. rewrite length_fmap, length_seq. f_equal. lia.
  - unfold window_frame_calls. apply Forall_fmap, Forall_forall. now intros n _.
  - unfold window_frame_calls. apply Forall_fmap, Forall_forall. now intros n _.
  - apply window_frame_calls_frames.
Qed.

Lemma new_calls_app s s' l :
  draw_log s' = draw_log s ++ l -> new_calls s s' = l.
Proof. intros Hl. unfold new_calls. rewrite Hl. apply drop_app_length. Qed.

(** One operation: the active workspace is replaced by [ws'] and
    [redraw_incremental] is called. *)
Lemma redraw_step_tally W H pitch stack s ws' :
  run_invariant W H pitch s ->
  length stack = 6%nat ->
  0 <= window_count ws' <= 6 ->
  let ws := active_workspace s in
  let s' := redraw_incremental stack (set_active_workspace ws' s) in
  draw_log s' = draw_log s ++ new_calls s s'
  /\ tally (new_calls s s')
     = if bool_decide (window_count ws' <> window_count ws
                       \/ cfg_type (layout ws') <> cfg_type (layout ws))
       then mk_call_tally (window_count ws) (window_count ws')
              (if window_count ws' =? 0 then 1 else 0)
       else if focused_window_index ws' =? focused_window_index ws
            then mk_call_tally 0 0 0
            else mk_call_tally 0 2 0.
Proof.
  intros Hinv Hstack Hc' ws s'.
  pose proof (run_invariant_in_range _ _ _ _ Hinv) as Hrange.
  destruct (inv_snapshot _ _ _ _ Hinv) as (Hpc & Hpl & Hpf).
  destruct (inv_workspace _ _ _ _ Hinv) as [Hc _].
  unfold MAX_WINDOWS_PER_WORKSPACE in Hc. fold ws in Hpc, Hpl, Hpf, Hc.
  set (s0 := set_active_workspace ws' s) in *.
  assert (Hact0 : active_workspace s0 = ws')
    by now apply active_workspace_set.
  assert (Hlog0 : draw_log s0 = draw_log s) by reflexivity.
  assert (Hpc0 : g_prev_window_count s0 = window_count ws) by exact Hpc.
  assert (Hpl0 : g_prev_layout s0 = cfg_type (layout ws)) by exact Hpl.
  assert (Hpf0 : g_prev_focused s0 = focused_window_index ws) by exact Hpf.
  assert (Hlog : exists l,
            draw_log s' = draw_log s ++ l
            /\ tally l
               = if bool_decide (window_count ws' <> window_count ws
                                 \/ cfg_type (layout ws')
                                    <> cfg_type (layout ws))
                 then mk_call_tally (window_count ws) (window_count ws')
                        (if window_count ws' =? 0 then 1 else 0)
                 else if focused_window_index ws' =? focused_window_index ws
                      then mk_call_tally 0 0 0
                      else mk_call_tally 0 2 0).
  { destruct (decide (window_count ws' <> window_count ws
                      \/ cfg_type (layout ws') <> cfg_type (layout ws)))
      as [Hch|Hch].
    - rewrite bool_decide_eq_true_2 by exact Hch.
      assert (Hch0 : structural_change s0).
      { unfold structural_change. now rewrite Hact0, Hpc0, Hpl0. }
      subst s'.
      rewrite redraw_incremental_structural_log, Hact0, Hlog0;
        [|exact Hch0|rewrite Hact0; lia|exact Hstack].
      eexists. split; [reflexivity|].
      rewrite tally_app, tally_erase_calls, Hpc0 by (rewrite Hpc0; lia).
      cbn [erase_fills window_frames empty_indicators].
      destruct (Z.eqb_spec (window_count ws') 0) as [Hz|Hz].
      + rewrite Hz.
        change (tally [Call_draw_empty_desktop_indicator])
          with (mk_call_tally 0 0 1).
        cbn [erase_fills window_frames empty_indicators]. f_equal; lia.
      + rewrite tally_window_frame_calls by lia.
        cbn [erase_fills window_frames empty_indicators].
        f_equal; lia.
    - rewrite bool_decide_eq_false_2 by exact Hch.
      assert (Hch0 : ~ structural_change s0).
      { unfold structural_change. now rewrite Hact0, Hpc0, Hpl0. }
      subst s'. unfold redraw_incremental.
      rewrite structural_change_test, bool_decide_eq_false_2 by exact Hch0.
      rewrite Hact0, Hpf0.
      destruct (focused_window_index ws' =? focused_window_index ws);
        cbn [negb].
      + exists []. now rewrite app_nil_r.
      + eexists. cbn [draw_log set_g_prev_focused emit].
        rewrite <- app_assoc, Hlog0. split; reflexivity. }
  destruct Hlog as (l & Hl & Ht).
  rewrite (new_calls_app _ _ _ Hl). now split.
Qed.

(** In a state that satisfies [run_invariant], with [n] windows,
    one key press adds to the log:
    - the focus key: two window frames when [n] is at least 2, and
      nothing otherwise;
    - the layout key: [n] erasing fills, then [n] window frames, or the
      indicator when [n] is 0;
    - the close key: nothing when [n] is 0, and otherwise [n] erasing
      fills, then [n - 1] window frames, or the indicator when [n] is 1;
    - the new-window key: nothing when [n] is 6, and otherwise [n]
      erasing fills, then [n + 1] window frames.
    Nothing already in the log is changed. *)
Theorem key_press_draws
    (W H pitch : Z) (stack : list window_position_t) (k : hotkey)
    (s : wm_state) :
  run_invariant W H pitch s ->
  length stack = 6%nat ->
  let n := window_count (active_workspace s) in
  let s' := press stack k s in
  draw_log s' = draw_log s ++ new_calls s s'
  /\ tally (new_calls s s')
     = match k with
       | Key_cycle_focus_next =>
           if n <=? 1 then mk_call_tally 0 0 0 else mk_call_tally 0 2 0
       | Key_cycle_layout =>
           mk_call_tally n n (if n =? 0 then 1 else 0)
       | Key_close_window =>
           if n =? 0 then mk_call_tally 0 0 0
           else mk_call_tally n (n - 1) (if n =? 1 then 1 else 0)
       | Key_new_window =>
           if 6 <=? n then mk_call_tally 0 0 0
           else mk_call_tally n (n + 1) 0
       end.
Proof.
  intros Hinv Hstack n s'.
  pose proof (inv_workspace _ _ _ _ Hinv) as Hws.
  set (ws := active_workspace s) in *.
  assert (Hc : 0 <= n <= 6) by (destruct Hws as [Hc _]; exact Hc).
  assert (Hsame : draw_log s = draw_log s ++ new_calls s s
                  /\ tally (new_calls s s) = mk_call_tally 0 0 0).
  { rewrite (new_calls_app s s []) by now rewrite app_nil_r.
    now rewrite app_nil_r. }
  subst s'. destruct k; cbn [press].
  - (* focus *)
    unfold on_cycle_focus_next. rewrite cycle_focus_unfold. fold ws. fold n.
    destruct (Z.eqb_spec n 0) as [Hz|Hz].
    { rewrite (proj2 (Z.leb_le n 1)) by lia. exact Hsame. }
    destruct (redraw_step_tally W H pitch stack s (refocused_workspace 1 ws)
                Hinv Hstack) as [Hl Ht]; [exact Hc|].
    split; [exact Hl|]. rewrite Ht. fold ws.
    rewrite bool_decide_eq_false_2
      by (unfold refocused_workspace;
          cbn [window_count layout set_focused_window_index]; tauto).
    destruct Hws as [_ Hf]. specialize (Hf ltac:(lia)). fold n in Hf.
    unfold refocused_workspace.
    cbn [focused_window_index set_focused_window_index]. fold n.
    change (0 <? 1) with true. cbv iota.
    destruct (Z.leb_spec n 1) as [Hone|Hmany].
    + rewrite (proj2 (Z.eqb_eq _ _)); [reflexivity|]. u32_lia.
    + rewrite (proj2 (Z.eqb_neq _ _)); [reflexivity|].
      unfold mod32, add32.
      rewrite (u32_small (focused_window_index ws + 1))
        by (unfold is_u32, u32_modulus; lia).
      destruct (Z.eq_dec (focused_window_index ws + 1) n) as [He|He].
      * rewrite He, Z.mod_same by lia. lia.
      * rewrite Z.mod_small by lia. lia.
  - (* layout *)
    unfold on_cycle_layout. rewrite cycle_layout_unfold. fold ws.
    destruct (redraw_step_tally W H pitch stack s (relaid_workspace ws)
                Hinv Hstack) as [Hl Ht]; [exact Hc|].
    split; [exact Hl|]. rewrite Ht. fold ws.
    rewrite bool_decide_eq_true_2; [reflexivity|].
    right. unfold relaid_workspace. cbn [layout set_layout].
    rewrite layout_successor, default_layout_type.
    apply next_layout_differs.
  - (* close *)
    unfold on_close_window. rewrite close_current_window_unfold.
    fold ws. fold n.
    destruct (Z.eqb_spec n 0) as [Hz|Hz]; [exact Hsame|].
    assert (Hsub : sub32 n 1 = n - 1).
    { unfold sub32. apply u32_small. unfold is_u32, u32_modulus. lia. }
    destruct (redraw_step_tally W H pitch stack s (closed_workspace ws)
                Hinv Hstack) as [Hl Ht].
    { unfold closed_workspace. cbn [window_count]. fold n. rewrite Hsub. lia. }
    split; [exact Hl|]. rewrite Ht. fold ws.
    unfold closed_workspace. cbn [window_count layout]. fold n. rewrite Hsub.
    rewrite bool_decide_eq_true_2 by (left; lia).
    f_equal.
    destruct (Z.eqb_spec (n - 1) 0), (Z.eqb_spec n 1); reflexivity || lia.
  - (* new *)
    unfold on_new_window. rewrite add_window_unfold. fold ws. fold n.
    change MAX_WINDOWS_PER_WORKSPACE with 6.
    destruct (Z.leb_spec 6 n) as [Hfull|Hfree]; [exact Hsame|].
    assert (Hadd : add32 n 1 = n + 1).
    { unfold add32. apply u32_small. unfold is_u32, u32_modulus. lia. }
    destruct (redraw_step_tally W H pitch stack s
                (added_workspace "template" ws) Hinv Hstack) as [Hl Ht].
    { unfold added_workspace.
      cbn [window_count set_focused_window_index set_window_count].
      fold n. rewrite Hadd. lia. }
    split; [exact Hl|]. rewrite Ht. fold ws.
    unfold added_workspace.
    cbn [window_count layout set_focused_window_index set_window_count
         set_windows]. fold n. rewrite Hadd.
    rewrite bool_decide_eq_true_2 by (left; lia).
    f_equal. destruct (Z.eqb_spec (n + 1) 0); [lia|reflexivity].
Qed.

Lemma key_press_draws_witness :
  run_invariant 640 480 640 sample_run
  /\ length sample_stack = 6%nat
  /\ window_count (active_workspace sample_run) = 3
  /\ draw_log (press sample_stack Key_close_window sample_run)
     = draw_log sample_run
       ++ new_calls sample_run
            (press sample_stack Key_close_window sample_run)
  /\ tally (new_calls sample_run
              (press sample_stack Key_close_window sample_run))
     = mk_call_tally 3 2 0.
Proof.
  assert (H6 : length sample_stack = 6%nat) by (vm_compute; reflexivity).
  assert (H1 : run_invariant 640 480 640 sample_run).
  { unfold sample_run, run. cbn [fold_left].
    repeat (apply run_invariant_press; [exact H6|]).
    apply run_invariant_start. }
  split; [exact H1|]. split; [exact H6|].
  split; [vm_compute; reflexivity|].
  destruct (key_press_draws 640 480 640 sample_stack Key_close_window
              sample_run H1 H6) as [Hl Ht].
  split; [exact Hl|].
  rewrite Ht. vm_compute. reflexivity.
Defined.


(** ** C strings *)

Lemma string_length_from_spec (s text : list Z) :
  CString.holds_text s text ->
  Z.of_nat (length s) < u32_modulus ->
  forall (k fuel : nat),
    (k <= length text)%nat ->
    (length s < k + fuel)%nat ->
    CString.string_length_from fuel s (Z.of_nat k)
    = Some (Z.of_nat (length text)).
Proof.
  intros (Htake & Hnul & Hnz) Hlen k fuel.
  assert (Hn : (length text < length s)%nat)
    by (apply lookup_lt_Some in Hnul; exact Hnul).
  remember (length text - k)%nat as d eqn:Hd.
  revert k fuel Hd. induction d as [|d IH]; intros k fuel Hd Hk Hfuel.
  - assert (k = length text) as -> by lia.
    destruct fuel as [|fuel]; [lia|]. cbn [CString.string_length_from].
    rewrite Nat2Z.id, Hnul. reflexivity.
  - destruct fuel as [|fuel]; [lia|]. cbn [CString.string_length_from].
    rewrite Nat2Z.id.
    assert (Hc : exists c, s !! k = Some c /\ c <> 0).
    { destruct (lookup_lt_is_Some_2 text k) as [c Hc]; [lia|].
      exists c. split.
      - rewrite <- Htake in Hc. rewrite lookup_take_lt in Hc by lia. exact Hc.
      - exact (Forall_lookup_1 (fun c : Z => c <> 0) _ _ _ Hnz Hc). }
    destruct Hc as (c & -> & Hcz).
    rewrite (proj2 (Z.eqb_neq c 0) Hcz).
    replace (add32 (Z.of_nat k) 1) with (Z.of_nat (S k)).
    + apply IH; lia.
    + unfold add32. rewrite u32_small by (unfold is_u32; lia). lia.
Qed.

Lemma string_copy_from_spec (src text : list Z) :
  CString.holds_text src text ->
  forall (k fuel : nat) (dest : list Z),
    (k <= length text)%nat ->
    (length src < k + fuel)%nat ->
    CString.string_copy_from fuel dest src k
    = if decide (length text < length dest)%nat
      then Some (take k dest ++ drop k text ++ [0]
                 ++ drop (S (length text)) dest)
      else None.
Proof.
  intros (Htake & Hnul & Hnz).
  assert (Hn : (length text < length src)%nat)
    by (apply lookup_lt_Some in Hnul; exact Hnul).
  intros k fuel dest.
  remember (length text - k)%nat as d eqn:Hd.
  revert k fuel dest Hd. induction d as [|d IH]; intros k fuel dest Hd Hk Hfuel.
  - assert (k = length text) as -> by lia.
    destruct fuel as [|fuel]; [lia|]. cbn [CString.string_copy_from].
    rewrite Hnul. cbn [Z.eqb].
    destruct (decide (length text < length dest)%nat) as [Hfit|Hfit];
      [|reflexivity].
    f_equal. rewrite drop_all. cbn [app].
    now apply insert_take_drop.
  - destruct fuel as [|fuel]; [lia|]. cbn [CString.string_copy_from].
    assert (Hc : exists c, text !! k = Some c /\ src !! k = Some c /\ c <> 0).
    { destruct (lookup_lt_is_Some_2 text k) as [c Hc]; [lia|].
      exists c. split; [exact Hc|]. split.
      - rewrite <- Htake in Hc. rewrite lookup_take_lt in Hc by lia. exact Hc.
      - exact (Forall_lookup_1 (fun c : Z => c <> 0) _ _ _ Hnz Hc). }
    destruct Hc as (c & Htc & -> & Hcz).
    rewrite (proj2 (Z.eqb_neq c 0) Hcz).
    destruct (decide (k < length dest)%nat) as [Hkd|Hkd].
    + rewrite IH by lia. rewrite length_insert.
      destruct (decide (length text < length dest)%nat) as [Hfit|Hfit];
        [|reflexivity].
      f_equal.
      rewrite (drop_S text c k Htc).
      rewrite drop_insert_lt by lia.
      rewrite (take_S_r (<[k:=c]> dest) k c)
        by (apply list_lookup_insert_eq; lia).
      rewrite take_insert_ge by lia.
      now rewrite <- app_assoc.
    + rewrite decide_False by lia. reflexivity.
Qed.

Lemma string_length_from_no_nul (s : list Z) :
  Forall (fun c => c <> 0) s ->
  forall fuel len, CString.string_length_from fuel s len = None.
Proof.
  intros Hnz fuel. induction fuel as [|fuel IH]; intros len; [reflexivity|].
  cbn [CString.string_length_from].
  destruct (s !! Z.to_nat len) as [c|] eqn:Hc; [|reflexivity].
  pose proof (Forall_lookup_1 (fun c : Z => c <> 0) _ _ _ Hnz Hc) as Hcz.
  rewrite (proj2 (Z.eqb_neq c 0) Hcz). apply IH.
Qed.

(** [string_length] returns the number of bytes before the first NUL of
    the buffer; in a buffer without a NUL it reads past the end. *)
Theorem string_length_finds_nul (s text : list Z) :
  Z.of_nat (length s) < u32_modulus ->
  (CString.holds_text s text ->
   CString.string_length s = Some (Z.of_nat (length text)))
  /\ (Forall (fun c => c <> 0) s -> CString.string_length s = None).
Proof.
  intros Hlen. split.
  - intros Htext. unfold CString.string_length.
    apply (string_length_from_spec s text Htext Hlen 0); lia.
  - intros Hnz. now apply string_length_from_no_nul.
Qed.

Lemma string_length_finds_nul_witness :
  Z.of_nat (length template_bytes) < u32_modulus
  /\ CString.holds_text template_bytes [116; 101; 109; 112; 108; 97; 116; 101]
  /\ CString.string_length template_bytes = Some 8.
Proof.
  assert (H1 : Z.of_nat (length template_bytes) < u32_modulus)
    by (vm_compute; reflexivity).
  assert (H2 : CString.holds_text template_bytes
                 [116; 101; 109; 112; 108; 97; 116; 101]).
  { split; [reflexivity|]. split; [reflexivity|].
    repeat (constructor; [discriminate|]). constructor. }
  split; [exact H1|]. split; [exact H2|].
  exact (proj1 (string_length_finds_nul template_bytes
                  [116; 101; 109; 112; 108; 97; 116; 101] H1) H2).
Defined.

(** [string_copy] of a source that holds [text]: when [dest] has room
    for the text and its NUL, it ends holding the text, a NUL, and its
    own bytes after that, so that [string_length] of it is the length of
    the text; when [dest] is shorter, the copy writes past its end.  The
    function makes no check of its own: a [title] of 32 bytes takes a
    text of at most 31. *)
Theorem string_copy_fits_or_overflows (dest src text : list Z) :
  CString.holds_text src text ->
  Z.of_nat (length dest) < u32_modulus ->
  ((length text < length dest)%nat ->
   let dest' := text ++ [0] ++ drop (S (length text)) dest in
   CString.string_copy dest src = Some dest'
   /\ length dest' = length dest
   /\ CString.holds_text dest' text
   /\ CString.string_length dest' = Some (Z.of_nat (length text)))
  /\ ((length dest <= length text)%nat ->
      CString.string_copy dest src = None).
Proof.
  intros Htext Hlen.
  assert (Hcopy : CString.string_copy dest src
                  = if decide (length text < length dest)%nat
                    then Some (text ++ [0] ++ drop (S (length text)) dest)
                    else None).
  { unfold CString.string_copy.
    rewrite (string_copy_from_spec src text Htext 0) by lia.
    now rewrite take_0, drop_0. }
  split.
  - intros Hfit dest'. rewrite Hcopy, decide_True by exact Hfit.
    assert (Hlen' : length dest' = length dest).
    { subst dest'. rewrite !length_app, length_drop. cbn [length]. lia. }
    assert (Htext' : CString.holds_text dest' text).
    { destruct Htext as (_ & _ & Hnz). subst dest'.
      split; [|split; [|exact Hnz]].
      - now rewrite take_app_length.
      - rewrite lookup_app_r by lia. now rewrite Nat.sub_diag. }
    split; [reflexivity|]. split; [exact Hlen'|]. split; [exact Htext'|].
    unfold CString.string_length.
    assert (Hlen'' : Z.of_nat (length dest') < u32_modulus) by lia.
    apply (string_length_from_spec dest' text Htext' Hlen'' 0); lia.
  - intros Hshort. rewrite Hcopy, decide_False by lia. reflexivity.
Qed.

Lemma string_copy_fits_or_overflows_witness :
  CString.holds_text template_bytes [116; 101; 109; 112; 108; 97; 116; 101]
  /\ Z.of_nat (length empty_title) < u32_modulus
  /\ CString.string_copy empty_title template_bytes
     = Some ([116; 101; 109; 112; 108; 97; 116; 101] ++ [0]
             ++ drop 9 empty_title).
Proof.
  assert (H1 : CString.holds_text template_bytes
                 [116; 101; 109; 112; 108; 97; 116; 101]).
  { split; [reflexivity|]. split; [reflexivity|].
    repeat (constructor; [discriminate|]). constructor. }
  assert (H2 : Z.of_nat (length empty_title) < u32_modulus)
    by (vm_compute; reflexivity).
  split; [exact H1|]. split; [exact H2|].
  destruct (string_copy_fits_or_overflows empty_title template_bytes
              [116; 101; 109; 112; 108; 97; 116; 101] H1 H2) as [Hfit _].
  destruct (Hfit ltac:(vm_compute; lia)) as [Hcopy _].
  exact Hcopy.
Defined.

(** ** [string_copy] on strings and on bytes *)

Lemma length_bytes_of s : Z.of_nat (length (bytes_of s)) = string_length s.
Proof.
  unfold string_length. f_equal.
  induction s as [|c s IH]; [reflexivity|]. cbn. now rewrite IH.
Qed.

Lemma byte_of_ascii_zero c :
  Z.of_N (Ascii.N_of_ascii c) = 0 <-> c = Ascii.zero.
Proof.
  split.
  - intros Hz. rewrite <- (Ascii.ascii_N_embedding c).
    replace (Ascii.N_of_ascii c) with 0%N by lia. reflexivity.
  - intros ->. reflexivity.
Qed.

(** The bytes a C string [src] occupies hold, before their first NUL,
    the characters that [string_copy] gives. *)
Lemma bytes_of_holds_text src :
  CString.holds_text (bytes_of src ++ [0]) (bytes_of (string_copy src)).
Proof.
  induction src as [|c src (Htake & Hnul & Hnz)].
  - split; [reflexivity|]. split; [reflexivity|]. constructor.
  - cbn [string_copy bytes_of].
    destruct (Ascii.eqb_spec c Ascii.zero) as [->|Hc].
    + split; [reflexivity|]. split; [reflexivity|]. constructor.
    + cbn [bytes_of]. split; [|split].
      * change (take (length (?b :: ?t)) ((?b :: ?l) ++ ?z))
          with (b :: take (length t) (l ++ z)).
        now rewrite Htake.
      * exact Hnul.
      * constructor; [|exact Hnz]. now rewrite byte_of_ascii_zero.
Qed.

(** [string_copy] on strings against [string_copy] on the bytes of the
    field [char title[32]] it is called on: for a source of fewer than
    32 characters before its first NUL, the byte-level copy stays within
    the field and leaves it holding exactly the characters the
    definition on strings gives; for a longer one it writes past the
    field, and the definition on strings does not describe the
    result. *)
Theorem string_copy_into_title (src : string) (dest : list Z) :
  length dest = 32%nat ->
  (string_length (string_copy src) < 32 ->
   exists dest',
     CString.string_copy dest (bytes_of src ++ [0]) = Some dest'
     /\ length dest' = 32%nat
     /\ CString.holds_text dest' (bytes_of (string_copy src)))
  /\ (32 <= string_length (string_copy src) ->
      CString.string_copy dest (bytes_of src ++ [0]) = None).
Proof.
  intros Hdest.
  pose proof (bytes_of_holds_text src) as Htext.
  pose proof (length_bytes_of (string_copy src)) as Hlen.
  assert (Hcopy : CString.string_copy dest (bytes_of src ++ [0])
                  = if decide (length (bytes_of (string_copy src))
                               < length dest)%nat
                    then Some (bytes_of (string_copy src) ++ [0]
                               ++ drop (S (length (bytes_of (string_copy src))))
                                    dest)
                    else None).
  { unfold CString.string_copy.
    rewrite (string_copy_from_spec _ _ Htext 0) by lia.
    now rewrite take_0, drop_0. }
  split.
  - intros Hfit. rewrite Hcopy, decide_True by lia.
    eexists. split; [reflexivity|]. split.
    + rewrite !length_app, length_drop. cbn [length]. lia.
    + destruct Htext as (_ & _ & Hnz). split; [|split; [|exact Hnz]].
      * now rewrite take_app_length.
      * rewrite lookup_app_r by lia. now rewrite Nat.sub_diag.
  - intros Hlong. rewrite Hcopy, decide_False by lia. reflexivity.
Qed.

Lemma string_copy_into_title_witness :
  length empty_title = 32%nat
  /\ title_fits "template"
  /\ bytes_of "template" ++ [0] = template_bytes
  /\ exists dest',
       CString.string_copy empty_title template_bytes = Some dest'
       /\ length dest' = 32%nat
       /\ CString.holds_text dest' (bytes_of "template").
Proof.
  assert (H1 : length empty_title = 32%nat) by (vm_compute; reflexivity).
  split; [exact H1|].
  split; [split; [reflexivity | vm_compute; reflexivity]|].
  split; [reflexivity|].
  destruct (string_copy_into_title "template" empty_title H1) as [Hfit _].
  exact (Hfit ltac:(vm_compute; reflexivity)).
Defined.

(** ** Room for the frames, and the top bar *)

Lemma window_geometry_roomy W H count t i p :
  100 <= W <= 71582788 -> 128 <= H < 2 ^ 32 ->
  1 <= count <= 6 -> 0 <= i < count ->
  roomy (window_geometry W H count (DEFAULT_LAYOUTS t) i p).
Proof.
  intros HW HH Hc Hi.
  assert (Hcases : count = 1 \/ count = 2 \/ count = 3 \/ count = 4
                   \/ count = 5 \/ count = 6) by lia.
  assert (Hicases : i = 0 \/ i = 1 \/ i = 2 \/ i = 3 \/ i = 4 \/ i = 5) by lia.
  unfold roomy. change widest_border with 6.
  destruct t; destruct Hcases as [->|[->|[->|[->|[->| ->]]]]];
    destruct Hicases as [->|[->|[->|[->|[->| ->]]]]]; try lia;
    cbn [window_geometry DEFAULT_LAYOUTS cfg_type gap_size master_ratio
         set_geometry pos_x pos_y pos_width pos_height Z.eqb Pos.eqb];
    u32_lia.
Qed.

(** On a screen at least 100 pixels wide and 128 high (and in the range
    of C1), every rectangle [compute_window_positions] stores, for each
    of the five compiled-in layouts and every window count, is at least
    two focused borders wide and high: [draw_window_frame] draws it
    without its inner fill wrapping round.  Both bounds are sharp: six
    Horizontal windows on a screen 99 wide, and six Vertical windows on a
    screen 127 high, are 11 pixels wide, respectively high. *)
Theorem frames_have_room
    (W H : Z) (stack : list window_position_t) (count : Z)
    (t : layout_type_t) (i : Z) (p : window_position_t) :
  100 <= W <= 71582788 ->
  128 <= H -> is_u32 H ->
  1 <= count <= MAX_WINDOWS_PER_WORKSPACE ->
  length stack = 6%nat ->
  0 <= i < count ->
  compute_window_positions W H stack count (DEFAULT_LAYOUTS t) !! Z.to_nat i
  = Some p ->
  (forall f, 2 * frame_border (border_size (DEFAULT_LAYOUTS t)) f
             <= pos_width p
             /\ 2 * frame_border (border_size (DEFAULT_LAYOUTS t)) f
                <= pos_height p)
  /\ pos_width
       (window_geometry 99 H 6 (DEFAULT_LAYOUTS LAYOUT_HORIZONTAL) 0 p) = 11
  /\ pos_height
       (window_geometry W 127 6 (DEFAULT_LAYOUTS LAYOUT_VERTICAL) 0 p) = 11.
Proof.
  intros HW HH1 HH2 Hc Hlen Hi Hp.
  unfold MAX_WINDOWS_PER_WORKSPACE in Hc. unfold is_u32, u32_modulus in HH2.
  split; [|split; reflexivity].
  destruct (compute_window_positions_nth W H stack count (DEFAULT_LAYOUTS t) i)
    as (p0 & _ & Hp'); [lia | lia | rewrite Hlen; lia |].
  assert (p = window_geometry W H count (DEFAULT_LAYOUTS t) i p0)
    as -> by congruence.
  destruct (window_geometry_roomy W H count t i p0) as [Hw Hh]; try lia.
  change widest_border with 6 in Hw, Hh.
  intros f.
  assert (Hb : frame_border (border_size (DEFAULT_LAYOUTS t)) f <= 6).
  { unfold frame_border. destruct (f =? 0), t; vm_compute; discriminate. }
  lia.
Qed.

Lemma frames_have_room_witness :
  100 <= 100 <= 71582788
  /\ 128 <= 128
  /\ length sample_stack = 6%nat
  /\ compute_window_positions 100 128 sample_stack 6
       (DEFAULT_LAYOUTS LAYOUT_HORIZONTAL) !! 0%nat
     = Some (mk_window_position 4 28 12 96 0)
  /\ 2 * frame_border (border_size (DEFAULT_LAYOUTS LAYOUT_HORIZONTAL)) 1
     <= 12.
Proof.
  assert (H6 : length sample_stack = 6%nat) by (vm_compute; reflexivity).
  assert (Hp : compute_window_positions 100 128 sample_stack 6
                 (DEFAULT_LAYOUTS LAYOUT_HORIZONTAL) !! Z.to_nat 0
               = Some (mk_window_position 4 28 12 96 0))
    by (vm_compute; reflexivity).
  split; [lia|]. split; [lia|]. split; [exact H6|]. split; [exact Hp|].
  destruct (frames_have_room 100 128 sample_stack 6 LAYOUT_HORIZONTAL 0
              (mk_window_position 4 28 12 96 0)
              ltac:(lia) ltac:(lia) ltac:(unfold is_u32, u32_modulus; lia)
              ltac:(unfold MAX_WINDOWS_PER_WORKSPACE; lia) H6 ltac:(lia) Hp)
    as [Hroom _].
  exact (proj1 (Hroom 1)).
Defined.

Section TopBar.

Variables W H pitch : Z.
Hypothesis Hgeo : fb_geometry_ok W H pitch.
Hypothesis HH : TOP_BAR_HEIGHT <= H < u32_modulus.
Hypothesis HW : W < u32_modulus.

Lemma fill_spares_top_bar x y w h color :
  0 <= x -> TOP_BAR_HEIGHT <= y ->
  x + w <= u32_modulus -> y + h <= u32_modulus ->
  spares_top_bar W H pitch (Call_fill_rect x y w h color).
Proof.
  intros Hx Hy Hxw Hyh fb px py Hpx Hpy. cbn [paint_call].
  unfold TOP_BAR_HEIGHT in *.
  rewrite (fill_rect_pixel W H pitch Hgeo) by lia.
  rewrite bool_decide_eq_false_2; [reflexivity|]. unfold in_rect. lia.
Qed.

Lemma frame_spares_top_bar p bs bc f :
  well_placed W H p ->
  0 <= frame_border bs f ->
  2 * frame_border bs f <= pos_width p ->
  2 * frame_border bs f <= pos_height p ->
  spares_top_bar W H pitch (Call_draw_window_frame p bs bc f).
Proof.
  intros (Hw & Hh & Hx & Hxw & Hy & Hyh) Hb Hbw Hbh fb px py Hpx Hpy.
  cbn [paint_call]. unfold draw_window_frame. unfold TOP_BAR_HEIGHT in *.
  set (x := pos_x p) in *. set (y := pos_y p) in *.
  set (w := pos_width p) in *. set (h := pos_height p) in *.
  set (border := frame_border bs f) in *.
  assert (E1 : add32 x border = x + border)
    by (unfold add32; apply u32_small; unfold is_u32; lia).
  assert (E2 : add32 y border = y + border)
    by (unfold add32; apply u32_small; unfold is_u32; lia).
  assert (E3 : mul32 border 2 = 2 * border).
  { unfold mul32. rewrite u32_small by (unfold is_u32; lia). lia. }
  assert (E4 : sub32 w (2 * border) = w - 2 * border)
    by (unfold sub32; apply u32_small; unfold is_u32; lia).
  assert (E5 : sub32 h (2 * border) = h - 2 * border)
    by (unfold sub32; apply u32_small; unfold is_u32; lia).
  assert (E6 : sub32 (add32 y h) border = y + h - border).
  { unfold sub32, add32. rewrite (u32_small (y + h)) by (unfold is_u32; lia).
    apply u32_small. unfold is_u32. lia. }
  assert (E7 : sub32 (add32 x w) border = x + w - border).
  { unfold sub32, add32. rewrite (u32_small (x + w)) by (unfold is_u32; lia).
    apply u32_small. unfold is_u32. lia. }
  rewrite E1, E2, E3, E4, E5, E6, E7.
  rewrite !(fill_rect_pixel W H pitch Hgeo) by lia.
  unfold in_rect.
  rewrite !bool_decide_eq_false_2 by lia. reflexivity.
Qed.

Lemma indicator_spares_top_bar :
  8 <= W -> 56 <= H ->
  spares_top_bar W H pitch Call_draw_empty_desktop_indicator.
Proof.
  intros HW8 HH56 fb px py Hpx Hpy. cbn [paint_call].
  unfold TOP_BAR_HEIGHT in *.
  unfold draw_empty_desktop_indicator, for_range.
  change (Z.to_nat (string_length "~" - 0)) with 1%nat.
  cbn [for_loop].
  assert (Ex : add32 (div32 (sub32 W (mul32 (string_length "~") SYMBOL_WIDTH)) 2)
                 (mul32 0 SYMBOL_WIDTH) = (W - 8) / 2).
  { change (mul32 (string_length "~") SYMBOL_WIDTH) with 8.
    change (mul32 0 SYMBOL_WIDTH) with 0.
    unfold add32, div32, sub32.
    rewrite (u32_small (W - 8)) by (unfold is_u32; lia).
    rewrite Z.add_0_r. apply u32_small. unfold is_u32.
    Z.div_mod_to_equations. lia. }
  assert (Ey : sub32 (div32 H 2) (SYMBOL_HEIGHT / 2) = H / 2 - 4).
  { change (SYMBOL_HEIGHT / 2) with 4.
    unfold sub32, div32. apply u32_small. unfold is_u32.
    Z.div_mod_to_equations. lia. }
  rewrite Ex, Ey.
  rewrite (fill_rect_pixel W H pitch Hgeo);
    unfold SYMBOL_WIDTH, SYMBOL_HEIGHT; try (Z.div_mod_to_equations; lia).
  rewrite bool_decide_eq_false_2; [reflexivity|].
  unfold in_rect. Z.div_mod_to_equations. lia.
Qed.

Lemma paint_log_spares log :
  Forall (spares_top_bar W H pitch) log ->
  forall fb px py,
    0 <= px < W -> 0 <= py < TOP_BAR_HEIGHT ->
    paint_log W H pitch log fb (py * pitch + px) = fb (py * pitch + px).
Proof.
  induction 1 as [|c log Hc Hlog IH]; intros fb px py Hpx Hpy; [reflexivity|].
  change (paint_log W H pitch (c :: log) fb)
    with (paint_log W H pitch log (paint_call W H pitch c fb)).
  rewrite IH by assumption. now apply Hc.
Qed.

End TopBar.

(** The frame of window [i], with either border and any identifier,
    spares the top bar. *)
Lemma window_frame_spares_top_bar W H pitch stack count t i pid bc f :
  fb_geometry_ok W H pitch ->
  100 <= W <= 71582788 -> 128 <= H < u32_modulus ->
  1 <= count <= 6 -> 0 <= i < count ->
  length stack = 6%nat ->
  let p := compute_window_positions W H stack count (DEFAULT_LAYOUTS t)
           !!! Z.to_nat i in
  spares_top_bar W H pitch
    (Call_draw_window_frame p (border_size (DEFAULT_LAYOUTS t)) bc f)
  /\ spares_top_bar W H pitch
       (Call_draw_window_frame (set_pos_pid pid p)
          (border_size (DEFAULT_LAYOUTS t)) bc f).
Proof.
  intros Hgeo HW HH Hc Hi Hlen p.
  destruct (compute_window_positions_nth W H stack count (DEFAULT_LAYOUTS t) i)
    as (p0 & _ & Hp'); [lia | lia | rewrite Hlen; lia |].
  assert (Hp : p = window_geometry W H count (DEFAULT_LAYOUTS t) i p0).
  { subst p. now rewrite (list_lookup_total_correct _ _ _ Hp'). }
  unfold u32_modulus in HH.
  pose proof (window_geometry_well_placed W H count t i p0
                ltac:(lia) ltac:(lia) Hc Hi) as Hwp.
  destruct (window_geometry_roomy W H count t i p0
              ltac:(lia) ltac:(lia) Hc Hi) as [Hrw Hrh].
  rewrite <- Hp in Hwp, Hrw, Hrh. change widest_border with 6 in Hrw, Hrh.
  assert (Hb : 0 <= frame_border (border_size (DEFAULT_LAYOUTS t)) f <= 6).
  { unfold frame_border.
    destruct (f =? 0), t; vm_compute; split; discriminate. }
  split.
  - apply frame_spares_top_bar; try assumption;
      unfold TOP_BAR_HEIGHT, u32_modulus; lia.
  - apply frame_spares_top_bar; try assumption;
      try (unfold TOP_BAR_HEIGHT, u32_modulus; lia);
      destruct p; cbn in *; try assumption; lia.
Qed.

(** One operation: the active workspace is replaced by [ws'] and
    [redraw_incremental] is called. *)
Lemma redraw_step_spares W H pitch stack s ws' :
  run_invariant W H pitch s ->
  length stack = 6%nat ->
  fb_geometry_ok W H pitch ->
  100 <= W <= 71582788 -> 128 <= H < u32_modulus ->
  ws_inv ws' ->
  layout ws' = DEFAULT_LAYOUTS (cfg_type (layout ws')) ->
  (window_count ws' = 0 ->
   focused_window_index ws' = focused_window_index (active_workspace s)) ->
  Forall (spares_top_bar W H pitch) (draw_log s) ->
  Forall (spares_top_bar W H pitch)
    (draw_log (redraw_incremental stack (set_active_workspace ws' s))).
Proof.
  intros Hinv Hstack Hgeo HW HH [Hc' Hf'] Hlay' Hzero Hlog.
  unfold MAX_WINDOWS_PER_WORKSPACE in Hc'.
  pose proof (run_invariant_in_range _ _ _ _ Hinv) as Hrange.
  destruct (inv_snapshot _ _ _ _ Hinv) as (Hpc & Hpl & Hpf).
  destruct (inv_workspace _ _ _ _ Hinv) as [Hc Hf].
  destruct (inv_dimensions _ _ _ _ Hinv) as (HgW & HgH & _).
  destruct (inv_rectangles _ _ _ _ Hinv) as [_ Hrects].
  pose proof (inv_layout _ _ _ _ Hinv) as Hlay.
  unfold MAX_WINDOWS_PER_WORKSPACE in Hc.
  set (ws := active_workspace s) in *.
  set (s0 := set_active_workspace ws' s) in *.
  assert (Hact0 : active_workspace s0 = ws')
    by now apply active_workspace_set.
  assert (Hlog0 : draw_log s0 = draw_log s) by reflexivity.
  assert (Hpc0 : g_prev_window_count s0 = window_count ws) by exact Hpc.
  assert (Hpl0 : g_prev_layout s0 = cfg_type (layout ws)) by exact Hpl.
  assert (Hpf0 : g_prev_focused s0 = focused_window_index ws) by exact Hpf.
  assert (HW0 : g_fb_width s0 = W) by exact HgW.
  assert (HH0 : g_fb_height s0 = H) by exact HgH.
  assert (Hframes : forall i pid bc f,
            0 <= i < window_count ws' ->
            let p := compute_window_positions W H stack (window_count ws')
                       (layout ws') !!! Z.to_nat i in
            spares_top_bar W H pitch
              (Call_draw_window_frame p (border_size (layout ws')) bc f)
            /\ spares_top_bar W H pitch
                 (Call_draw_window_frame (set_pos_pid pid p)
                    (border_size (layout ws')) bc f)).
  { intros i pid bc f Hi. rewrite Hlay'.
    apply window_frame_spares_top_bar; try assumption; lia. }
  destruct (decide (structural_change s0)) as [Hch|Hch].
  - rewrite redraw_incremental_structural_log, Hact0, Hlog0, HW0, HH0;
      [|exact Hch|rewrite Hact0; lia|exact Hstack].
    apply Forall_app. split; [exact Hlog|].
    apply Forall_app. split.
    + unfold erase_calls. rewrite Hpc0.
      apply Forall_fmap, Forall_forall. intros n Hn.
      apply elem_of_seq in Hn. unfold compose. cbv beta zeta.
      destruct (Hrects (Z.of_nat n)) as (p & Hp & _ & Hfix); [fold ws; lia|].
      rewrite Nat2Z.id in Hp.
      change (g_prev_positions s0) with (g_prev_positions s).
      rewrite (list_lookup_total_correct _ _ _ Hp).
      fold ws in Hfix. rewrite Hlay in Hfix.
      unfold u32_modulus in HH.
      pose proof (window_geometry_well_placed W H (window_count ws)
                    (cfg_type (layout ws)) (Z.of_nat n) p
                    ltac:(lia) ltac:(lia) ltac:(lia) ltac:(lia)) as Hwp.
      rewrite Hfix in Hwp.
      destruct Hwp as (Hw & Hh & Hx & Hxw & Hy & Hyh).
      apply fill_spares_top_bar; try assumption;
        unfold TOP_BAR_HEIGHT, u32_modulus in *; lia.
    + destruct (Z.eqb_spec (window_count ws') 0) as [Hz|Hz].
      * constructor; [|constructor].
        apply indicator_spares_top_bar; try assumption;
          unfold TOP_BAR_HEIGHT, u32_modulus in *; lia.
      * unfold window_frame_calls.
        apply Forall_fmap, Forall_forall. intros n Hn.
        apply elem_of_seq in Hn. unfold compose. cbv beta.
        unfold window_frame_call.
        rewrite Nat2Z.id.
        pose proof (Hframes (Z.of_nat n)
                      (win_pid (windows ws' !!! n)) (border_color (layout ws'))
                      (if Z.of_nat n =? focused_window_index ws' then 1 else 0)
                      ltac:(lia)) as [_ Hset].
        rewrite Nat2Z.id in Hset. exact Hset.
  - unfold redraw_incremental.
    rewrite structural_change_test, bool_decide_eq_false_2 by exact Hch.
    rewrite Hact0, Hpf0, HW0, HH0.
    assert (Hsamec : window_count ws' = window_count ws).
    { destruct (Z.eq_dec (window_count ws') (window_count ws)) as [He|He];
        [exact He|].
      exfalso. apply Hch. left. now rewrite Hact0, Hpc0. }
    destruct (Z.eqb_spec (focused_window_index ws') (focused_window_index ws))
      as [Hsamef|Hdiff]; cbn [negb]; [exact Hlog|].
    assert (Hpos : 0 < window_count ws').
    { destruct (Z.eq_dec (window_count ws') 0) as [Hz|Hz]; [|lia].
      exfalso. apply Hdiff. fold ws in Hzero. now apply Hzero. }
    cbn [draw_log set_g_prev_focused emit]. rewrite Hlog0.
    apply Forall_app. split; [apply Forall_app; split; [exact Hlog|]|].
    + constructor; [|constructor].
      assert (Hi : 0 <= focused_window_index ws < window_count ws')
        by (rewrite Hsamec; apply Hf; lia).
      exact (proj1 (Hframes (focused_window_index ws) 0
                      (border_color (layout ws')) 0 Hi)).
    + constructor; [|constructor].
      exact (proj1 (Hframes (focused_window_index ws') 0
                      (border_color (layout ws')) 1 (Hf' Hpos))).
Qed.

Lemma empty_fill_spares_top_bar W H pitch x y h color :
  fb_geometry_ok W H pitch ->
  TOP_BAR_HEIGHT <= H ->
  0 <= x < u32_modulus -> 0 <= y -> y + h <= u32_modulus ->
  spares_top_bar W H pitch (Call_fill_rect x y 0 h color).
Proof.
  intros Hgeo HH Hx Hy Hyh fb px py Hpx Hpy. cbn [paint_call].
  unfold TOP_BAR_HEIGHT in *.
  rewrite (fill_rect_pixel W H pitch Hgeo) by lia.
  rewrite bool_decide_eq_false_2; [reflexivity|]. unfold in_rect. lia.
Qed.

Lemma press_spares W H pitch stack k s :
  run_invariant W H pitch s ->
  length stack = 6%nat ->
  fb_geometry_ok W H pitch ->
  100 <= W <= 71582788 -> 128 <= H < u32_modulus ->
  Forall (spares_top_bar W H pitch) (draw_log s) ->
  Forall (spares_top_bar W H pitch) (draw_log (press stack k s)).
Proof.
  intros Hinv Hstack Hgeo HW HH Hlog.
  pose proof (inv_workspace _ _ _ _ Hinv) as Hws.
  pose proof (inv_layout _ _ _ _ Hinv) as Hlayout.
  set (ws := active_workspace s) in *.
  assert (Hc : 0 <= window_count ws <= 6) by (destruct Hws as [Hc _]; exact Hc).
  destruct k; cbn [press].
  - (* focus *)
    unfold on_cycle_focus_next. rewrite cycle_focus_unfold. fold ws.
    destruct (Z.eqb_spec (window_count ws) 0) as [Hz|Hz]; [exact Hlog|].
    apply (redraw_step_spares W H pitch); try assumption.
    + now apply ws_inv_refocused.
    + intros Hzero. exfalso. apply Hz. exact Hzero.
  - (* layout *)
    unfold on_cycle_layout. rewrite cycle_layout_unfold. fold ws.
    apply (redraw_step_spares W H pitch); try assumption.
    + unfold relaid_workspace. cbn [layout set_layout].
      now rewrite layout_successor, default_layout_type.
    + intros _. reflexivity.
  - (* close *)
    unfold on_close_window. rewrite close_current_window_unfold. fold ws.
    destruct (Z.eqb_spec (window_count ws) 0) as [Hz|Hz]; [exact Hlog|].
    assert (Hsub : sub32 (window_count ws) 1 = window_count ws - 1).
    { unfold sub32. apply u32_small. unfold is_u32, u32_modulus. lia. }
    apply (redraw_step_spares W H pitch); try assumption.
    + now apply ws_inv_closed.
    + unfold closed_workspace. cbn [window_count focused_window_index].
      rewrite Hsub. intros Hone. rewrite Hone. cbn [Z.eqb].
      destruct Hws as [_ Hf]. fold ws. specialize (Hf ltac:(lia)). lia.
  - (* new *)
    unfold on_new_window. rewrite add_window_unfold. fold ws.
    change MAX_WINDOWS_PER_WORKSPACE with 6.
    destruct (Z.leb_spec 6 (window_count ws)) as [Hfull|Hfree]; [exact Hlog|].
    assert (Hadd : add32 (window_count ws) 1 = window_count ws + 1).
    { unfold add32. apply u32_small. unfold is_u32, u32_modulus. lia. }
    apply (redraw_step_spares W H pitch); try assumption.
    + apply ws_inv_added; [exact Hws|unfold MAX_WINDOWS_PER_WORKSPACE; lia].
    + unfold added_workspace.
      cbn [window_count set_focused_window_index set_window_count].
      rewrite Hadd. intros Hzero. lia.
Qed.

(** On a screen at least 100 pixels wide and 128 high (and in the range
    of C1), nothing the window manager draws, from [_start] through any
    sequence of key presses, changes a pixel of the top bar: the first
    [TOP_BAR_HEIGHT] rows of the screen keep whatever they held. *)
Theorem run_spares_top_bar
    (W H pitch : Z) (s : wm_state) (fb : framebuffer) (px py : Z) :
  reachable W H pitch s ->
  fb_geometry_ok W H pitch ->
  100 <= W <= 71582788 ->
  128 <= H -> is_u32 H ->
  0 <= px < W -> 0 <= py < TOP_BAR_HEIGHT ->
  paint_log W H pitch (draw_log s) fb (py * pitch + px)
  = fb (py * pitch + px).
Proof.
  intros Hreach Hgeo HW HH1 HH2 Hpx Hpy.
  unfold is_u32 in HH2.
  assert (Hboth : run_invariant W H pitch s
                  /\ Forall (spares_top_bar W H pitch) (draw_log s)).
  { induction Hreach as [stack Hstack|stack k s Hstack Hreach [IHi IHl]].
    - split; [apply run_invariant_start|].
      assert (Hs : draw_log (_start stack W H pitch)
                   = [Call_fill_rect 0 0 0 0 COLOR_BAR_BG]).
      { unfold _start. rewrite start_setup_value. vm_compute. reflexivity. }
      rewrite Hs. constructor; [|constructor].
      apply empty_fill_spares_top_bar; try assumption;
        unfold TOP_BAR_HEIGHT, u32_modulus; lia.
    - split; [now apply run_invariant_press|].
      apply press_spares; try assumption. lia. }
  destruct Hboth as [_ Hlog].
  now apply (paint_log_spares W H pitch).
Qed.

Lemma run_spares_top_bar_witness :
  reachable 640 480 640 sample_run
  /\ fb_geometry_ok 640 480 640
  /\ paint_log 640 480 640 (draw_log sample_run) (fun _ => 7) (10 * 640 + 100)
     = 7.
Proof.
  assert (H6 : length sample_stack = 6%nat) by (vm_compute; reflexivity).
  assert (H1 : reachable 640 480 640 sample_run).
  { unfold sample_run, run. cbn [fold_left].
    repeat (apply reachable_press; [exact H6|]).
    apply reachable_start. exact H6. }
  assert (H2 : fb_geometry_ok 640 480 640)
    by (unfold fb_geometry_ok, u32_modulus; lia).
  split; [exact H1|]. split; [exact H2|].
  exact (run_spares_top_bar 640 480 640 sample_run (fun _ => 7) 100 10 H1 H2
           ltac:(lia) ltac:(lia) ltac:(unfold is_u32, u32_modulus; lia)
           ltac:(lia) ltac:(unfold TOP_BAR_HEIGHT; lia)).
Defined.

(** ** Resetting the store *)

Lemma list_of_length_6 {A : Type} (l : list A) :
  length l = 6%nat -> exists a b c d e f, l = [a; b; c; d; e; f].
Proof.
  intros Hl.
  do 6 (destruct l as [|? l]; [discriminate Hl|]).
  destruct l; [|discriminate Hl]. now eauto 7.
Qed.

Lemma list_of_length_4 {A : Type} (l : list A) :
  length l = 4%nat -> exists a b c d, l = [a; b; c; d].
Proof.
  intros Hl.
  do 4 (destruct l as [|? l]; [discriminate Hl|]).
  destruct l; [|discriminate Hl]. now eauto 5.
Qed.

(** Whatever the store holds, [initialize_workspaces] leaves every
    workspace empty, in the Grid layout, with focus index 0 and all its
    windows closed and untitled; it keeps the identifier of every window
    slot and writes no other variable.  The store then satisfies the
    workspace invariant, and a second call changes nothing. *)
Theorem initialize_workspaces_resets (s : wm_state) :
  store_shaped s ->
  let s' := initialize_workspaces s in
  g_workspaces s' = reset_workspace <$> g_workspaces s
  /\ wm_inv s'
  /\ store_shaped s'
  /\ initialize_workspaces s' = s'
  /\ g_active_workspace s' = g_active_workspace s
  /\ g_fb_width s' = g_fb_width s
  /\ g_fb_height s' = g_fb_height s
  /\ g_fb_pitch_pixels s' = g_fb_pitch_pixels s
  /\ g_prev_positions s' = g_prev_positions s
  /\ g_prev_window_count s' = g_prev_window_count s
  /\ g_prev_layout s' = g_prev_layout s
  /\ g_prev_focused s' = g_prev_focused s
  /\ draw_log s' = draw_log s.
Proof.
  intros [Hlen Hall] s'.
  destruct s as [wss a W H p pp pc pl pf log].
  cbn [g_workspaces] in Hlen, Hall.
  destruct (list_of_length_4 wss Hlen) as (w0 & w1 & w2 & w3 & ->).
  apply Forall_cons in Hall as [Hl0 Hall].
  apply Forall_cons in Hall as [Hl1 Hall].
  apply Forall_cons in Hall as [Hl2 Hall].
  apply Forall_cons in Hall as [Hl3 _].
  destruct w0 as [l0 c0 y0 f0], w1 as [l1 c1 y1 f1],
           w2 as [l2 c2 y2 f2], w3 as [l3 c3 y3 f3].
  cbn [windows] in Hl0, Hl1, Hl2, Hl3.
  destruct (list_of_length_6 l0 Hl0) as (a0 & a1 & a2 & a3 & a4 & a5 & ->).
  destruct (list_of_length_6 l1 Hl1) as (b0 & b1 & b2 & b3 & b4 & b5 & ->).
  destruct (list_of_length_6 l2 Hl2) as (d0 & d1 & d2 & d3 & d4 & d5 & ->).
  destruct (list_of_length_6 l3 Hl3) as (e0 & e1 & e2 & e3 & e4 & e5 & ->).
  set (wss := [mk_workspace [a0; a1; a2; a3; a4; a5] c0 y0 f0;
               mk_workspace [b0; b1; b2; b3; b4; b5] c1 y1 f1;
               mk_workspace [d0; d1; d2; d3; d4; d5] c2 y2 f2;
               mk_workspace [e0; e1; e2; e3; e4; e5] c3 y3 f3]) in *.
  assert (Hs' : s' = mk_wm_state (reset_workspace <$> wss)
                       a W H p pp pc pl pf log)
    by (subst s' wss; vm_compute; reflexivity).
  subst wss.
  rewrite Hs'. cbn [g_workspaces g_active_workspace g_fb_width g_fb_height
                    g_fb_pitch_pixels g_prev_positions g_prev_window_count
                    g_prev_layout g_prev_focused draw_log].
  split; [reflexivity|].
  split.
  { unfold wm_inv. cbn [g_workspaces fmap list_fmap].
    repeat (constructor;
            [unfold ws_inv, MAX_WINDOWS_PER_WORKSPACE; cbn; lia|]).
    constructor. }
  split.
  { split; [reflexivity|]. cbn [g_workspaces fmap list_fmap].
    repeat (constructor; [reflexivity|]). constructor. }
  split; [vm_compute; reflexivity|].
  repeat split.
Qed.

Lemma initialize_workspaces_resets_witness :
  store_shaped sample_three
  /\ window_count (active_workspace sample_three) = 3
  /\ g_workspaces (initialize_workspaces sample_three)
     = reset_workspace <$> g_workspaces sample_three
  /\ initialize_workspaces (initialize_workspaces sample_three)
     = initialize_workspaces sample_three.
Proof.
  assert (H1 : store_shaped sample_three).
  { split; [vm_compute; reflexivity|].
    set (l := g_workspaces sample_three). vm_compute in l. subst l.
    repeat (constructor; [reflexivity|]). constructor. }
  split; [exact H1|]. split; [vm_compute; reflexivity|].
  pose proof (initialize_workspaces_resets sample_three H1) as Hreset.
  cbv zeta in Hreset. destruct Hreset as (Hws & _ & _ & Hidem & _).
  split; [exact Hws | exact Hidem].
Defined.
